(** * Benchmark runner: statistics, memory deltas, validators and the trial loop

    A shallow embedding of [test/runner.js] (class [TestRunner], with
    [runBenchmark] and its validator), of the subclass
    [TestRunnerWithDatabase] ([runTest], [runCompleteBenchmark],
    [saveBenchmarkToDatabase]), of the six validators of the benchmark
    suite's [TEST_CONFIGS], of the validators of the per-algorithm test
    files, of the matrix test of [test/node-tests.js], and of two managed
    implementations that the runner is given: the numeric integration and the
    cost function of the gradient descent.

    JavaScript numbers are IEEE-754 binary64 values.  The code that does
    arithmetic is written over the interface [JSNumber], whose instance
    [FloatNumber] is Rocq's primitive binary64 floats: rounding, NaN, signed
    zeros and infinities are those of the program.  Every statement about
    numbers below is about this instance (or about every instance); what it
    needs of the rounding is derived from the library's specification of
    the float operations in the section [Rounding].
*)

From Stdlib Require Import String DecimalString.
From Stdlib Require Import ZArith Floats Uint63.
From Stdlib Require Import List Bool Lia Permutation Sorted.
Import ListNotations.
#[local] Set Warnings "-inexact-float".

(** ** The number interface *)

Class JSNumber : Type := {
  num : Type;
  zero : num;                      (* the literal 0 *)
  one : num;                       (* the literal 1 *)
  two : num;                       (* the literal 2 *)
  c0_95 : num;                     (* the literal 0.95 *)
  c0_99 : num;                     (* the literal 0.99 *)
  add : num -> num -> num;         (* a + b *)
  sub : num -> num -> num;         (* a - b *)
  mul : num -> num -> num;         (* a * b *)
  div : num -> num -> num;         (* a / b *)
  sqrt : num -> num;               (* Math.sqrt *)
  floor : num -> num;              (* Math.floor *)
  ofLength : nat -> num;           (* arr.length, as a number *)
  toIndex : num -> option Z;       (* the array index a property key denotes:
                                      [Some k] for an integer k >= 0 *)
  isPositive : num -> bool;        (* v > 0 *)
  isNaN : num -> bool              (* isNaN(v) *)
}.

(** *** binary64 *)

Module F64.

Definition ofZ (z : Z) : float :=
  if (z <? 0)%Z then PrimFloat.opp (PrimFloat.of_uint63 (Uint63.of_Z (- z)))
  else PrimFloat.of_uint63 (Uint63.of_Z z).

Definition ofLength (n : nat) : float := ofZ (Z.of_nat n).

(** [Math.floor]: a finite value [(-1)^s * m * 2^e] with [e < 0] is rounded
    towards minus infinity; zeros, infinities, NaN and values with [e >= 0]
    (already integers) are returned unchanged. *)
Definition floor (x : float) : float :=
  match Prim2SF x with
  | S754_finite s m e =>
      if (e <? 0)%Z then
        let q := Z.shiftr (Zpos m) (- e) in
        let exact := (Z.shiftl q (- e) =? Zpos m)%Z in
        if s then (if exact then ofZ (- q) else ofZ (- q - 1))
        else ofZ q
      else x
  | _ => x
  end.

Definition toIndex (x : float) : option Z :=
  match Prim2SF x with
  | S754_zero _ => Some 0%Z
  | S754_finite false m e =>
      if (0 <=? e)%Z then Some (Z.shiftl (Zpos m) e)
      else
        let q := Z.shiftr (Zpos m) (- e) in
        if (Z.shiftl q (- e) =? Zpos m)%Z then Some q else None
  | _ => None
  end.

Definition isPositive (x : float) : bool := PrimFloat.ltb 0%float x.

Definition isNaN (x : float) : bool := negb (PrimFloat.eqb x x).

Definition gt (x y : float) : bool := PrimFloat.ltb y x.

End F64.

#[export] Instance FloatNumber : JSNumber := {|
  num := float;
  zero := 0%float;
  one := 1%float;
  two := 2%float;
  c0_95 := 0.95%float;
  c0_99 := 0.99%float;
  add := PrimFloat.add;
  sub := PrimFloat.sub;
  mul := PrimFloat.mul;
  div := PrimFloat.div;
  sqrt := PrimFloat.sqrt;
  floor := F64.floor;
  ofLength := F64.ofLength;
  toIndex := F64.toIndex;
  isPositive := F64.isPositive;
  isNaN := F64.isNaN
|}.

(** *** Reading a binary64 value

    The operations on [float] are specified by the library through
    [Prim2SF], the value as sign, mantissa and exponent, and the rounding
    function [binary_round_aux].  What follows names the parts of that
    specification that the proofs about the statistics speak of. *)

Module Binary64.

#[local] Open Scope Z_scope.

(** The number of binary digits of a mantissa. *)
Definition D (p : positive) : Z := Zpos (digits2_pos p).

Definition exactRecord (mrs : shr_record) : Prop :=
  shr_r mrs = false /\ shr_s mrs = false.

(** [binary_round_aux] on a non-negative mantissa: the first shift drops
    [n1] bits, the rounding adds at most one, the second shift renormalises. *)
Definition finish_round (s : bool) (m1r e1 : Z) : spec_float :=
  let n2 := Z.max 0 (fexp prec emax (Zdigits2 m1r + e1) - e1) in
  match m1r / 2 ^ n2 with
  | Z0 => S754_zero s
  | Zpos q =>
      if e1 + n2 <=? emax - prec then S754_finite s q (e1 + n2)
      else S754_infinity s
  | Zneg _ => S754_nan
  end.

(** An order-preserving integer for every value but NaN: the value in units
    of [2^-1074], and [+-2^2100] for the infinities. *)
Definition key (x : spec_float) : Z :=
  match x with
  | S754_zero _ => 0
  | S754_infinity s => if s then - 2 ^ 2100 else 2 ^ 2100
  | S754_nan => 0
  | S754_finite s m e =>
      if s then - (Zpos m * 2 ^ (e + 1074)) else Zpos m * 2 ^ (e + 1074)
  end.

Definition fkey (x : float) : Z := key (Prim2SF x).

(** [represents x n]: the float [x] is the integer [n], [0 <= n < 2^53]. *)
Definition represents (x : float) (n : Z) : Prop :=
  match n with
  | Z0 => Prim2SF x = S754_zero false
  | Zpos p =>
      D p <= 53 /\
      exists q, Zpos q = Zpos p * 2 ^ (53 - D p) /\
                Prim2SF x = S754_finite false q (D p - 53)
  | Zneg _ => False
  end.

(** The sign bit of a value that has one. *)
Definition signOf (x : spec_float) : bool :=
  match x with
  | S754_zero s | S754_infinity s | S754_finite s _ _ => s
  | S754_nan => false
  end.

(** NaN, a zero of either sign, or a value above zero. *)
Definition nonnegative (x : spec_float) : Prop :=
  match x with
  | S754_nan | S754_zero _ => True
  | S754_infinity s | S754_finite s _ _ => s = false
  end.

End Binary64.

(** ** [TestRunner]: the pure part *)

Module TestRunner.

Section Statistics.

Context {N : JSNumber}.

(** [Array.prototype.sort((a, b) => a - b)] on an array of numbers.  The
    comparator's result [v] orders [a] after [b] when [v > 0]; a NaN result
    counts as [+0].  The engine's algorithm is stable; it is modelled as a
    stable insertion sort, which for a consistent comparator returns the same
    array as any conforming algorithm. *)
Fixpoint insert (a : num) (l : list num) : list num :=
  match l with
  | [] => [a]
  | b :: l' => if isPositive (sub a b) then b :: insert a l' else a :: b :: l'
  end.

Fixpoint sort (l : list num) : list num :=
  match l with
  | [] => []
  | a :: l' => insert a (sort l')
  end.

(** [arr[k]] for a numeric key [k]; [None] is [undefined]. *)
Definition lookup (arr : list num) (k : num) : option num :=
  match toIndex k with
  | Some z =>
      if (z <? Z.of_nat (length arr))%Z then nth_error arr (Z.to_nat z)
      else None
  | None => None
  end.

(** [times.reduce((a, b) => a + b, 0)] *)
Definition sumOf (times : list num) : num := fold_left add times zero.

Record Stats : Type := {
  min : option num;
  max : option num;
  mean : num;
  median : option num;
  stdDev : num;
  p95 : option num;
  p99 : option num
}.

Definition medianIndex (len : nat) : num := floor (div (ofLength len) two).
Definition p95Index (len : nat) : num := floor (mul (ofLength len) c0_95).
Definition p99Index (len : nat) : num := floor (mul (ofLength len) c0_99).

Definition calculateStats (times : list num) : Stats :=
  let sum := sumOf times in
  let mean := div sum (ofLength (length times)) in
  let squareDiffs :=
    map (fun value => let diff := sub value mean in mul diff diff) times in
  let avgSquareDiff := div (sumOf squareDiffs) (ofLength (length times)) in
  let stdDev := sqrt avgSquareDiff in
  let sorted := sort times in
  {| min := lookup sorted zero;
     max := lookup sorted (sub (ofLength (length sorted)) one);
     mean := mean;
     median := lookup sorted (medianIndex (length sorted));
     stdDev := stdDev;
     p95 := lookup sorted (p95Index (length sorted));
     p99 := lookup sorted (p99Index (length sorted)) |}.

(** *** Memory snapshots

    [process.memoryUsage()] gives an object with the four byte counts; the
    fallback of [measureMemory] gives [{ unavailable: true }]. *)
Inductive MemoryInfo : Type :=
| Unavailable
| Memory (heapUsed heapTotal external rss : num).

Definition unavailable (m : MemoryInfo) : bool :=
  match m with Unavailable => true | Memory _ _ _ _ => false end.

(** The object literal of the second [return]; its branch for an unavailable
    argument is never taken from [calculateMemoryUsage]. *)
Definition memoryDifference (before after : MemoryInfo) : MemoryInfo :=
  match before, after with
  | Memory bUsed bTotal bExternal bRss, Memory aUsed aTotal aExternal aRss =>
      Memory (sub aUsed bUsed) (sub aTotal bTotal)
             (sub aExternal bExternal) (sub aRss bRss)
  | _, _ => Unavailable
  end.

Definition calculateMemoryUsage (before after : MemoryInfo) : MemoryInfo :=
  if unavailable before || unavailable after then Unavailable
  else memoryDifference before after.

End Statistics.

(** *** Thrown values and results of calls *)

(** An [Error] object, with its [message]. *)
Inductive JsError : Type := Error (message : string).

Definition message (e : JsError) : string := let (m) := e in m.

(** Reading [.success] of [undefined]. *)
Definition TypeError_success : JsError :=
  Error "Cannot read properties of undefined (reading 'success')".

Inductive Outcome (A : Type) : Type :=
| Returned (a : A)
| Thrown (e : JsError).

Arguments Returned {A} a.
Arguments Thrown {A} e.

Definition returned {A : Type} (o : Outcome A) : bool :=
  match o with Returned _ => true | Thrown _ => false end.

Section Runner.

Context {N : JSNumber}.

(** [testData], the algorithms' results and the state of the host (clock,
    heap, files, the implementations' own state) are opaque to the runner. *)
Variables Input Output World : Type.

(** One entry of a [discrepancies] array.  The entries are template strings;
    the data they interpolate is kept, their rendering as text is not. *)
Inductive Discrepancy : Type :=
| UndefinedOrNull                            (* 'One or both results are undefined/null' *)
| NotArrays                                  (* 'Results are not arrays' *)
| LengthMismatch (wasmLength jsLength : nat) (* `Array length mismatch: wasm=.., js=..` *)
| ContainsNaN (i : nat) (wasm js : num)      (* `Index i: Contains NaN - wasm=.., js=..` *)
| IndexMismatch (i : nat) (wasm js diff : num) (* `Index i: wasm=.., js=.., diff=..%` *)
| ExecutionFailed (msg : string).            (* `Test execution failed: msg` *)

Record ValidationResult : Type := {
  success : bool;
  discrepancies : list Discrepancy
}.

(** The [metrics] object that [runTest] returns.  Its [wasmMemoryStats],
    [jsMemoryStats] and [memoryDetails] (lines 76-77 and 80-108 of
    runner.js) are pure arithmetic on [wasmMemory] and [jsMemory] that cannot
    throw ([reduce] has an initial value, [Math.min()] of nothing is
    [Infinity]) and that nothing below reads; they are left out. *)
Record Metrics : Type := {
  algorithm : string;
  type : string;
  size : string;
  wasmTimes : list num;
  jsTimes : list num;
  wasmMemory : list MemoryInfo;
  jsMemory : list MemoryInfo;
  validationResults : ValidationResult;
  wasmStats : Stats;
  jsStats : Stats;
  speedup : num
}.

(** The arrays and the validation record that the trial loop fills in. *)
Record Samples : Type := {
  sWasmTimes : list num;
  sJsTimes : list num;
  sWasmMemory : list MemoryInfo;
  sJsMemory : list MemoryInfo;
  sValidation : ValidationResult
}.

(** A validator returns a result object or [undefined] ([None]), or throws. *)
Definition Validator : Type :=
  Output -> Output -> Outcome (option ValidationResult).

(** What the runner calls.  [exportResults] is [None] when the property is
    not a function; it is given the runner's [allResults] and the metrics. *)
Record Host : Type := {
  now : World -> num * World;                     (* performance.now() *)
  measureMemory : World -> MemoryInfo * World;
  wasmRunAlgorithm : Input -> World -> Outcome Output * World;
  jsRunAlgorithm : Input -> World -> Outcome Output * World;
  exportResults :
    option (list Metrics -> Metrics -> World -> Outcome unit * World)
}.

(** Every call that leaves the runner is recorded, in order. *)
Inductive Event : Type :=
| WasmRun (testData : Input) (result : Outcome Output)
| JsRun (testData : Input) (result : Outcome Output)
| Validate (wasmResult jsResult : Output)
| Export (metrics : Metrics).

Record State : Type := {
  world : World;
  allResults : list Metrics;
  trace : list Event
}.

(** *** State and exceptions *)

Definition M (A : Type) : Type := State -> Outcome A * State.

Definition ret {A : Type} (a : A) : M A := fun st => (Returned a, st).

Definition throw {A : Type} (e : JsError) : M A := fun st => (Thrown e, st).

Definition bind {A B : Type} (m : M A) (k : A -> M B) : M B :=
  fun st =>
    match m st with
    | (Returned a, st') => k a st'
    | (Thrown e, st') => (Thrown e, st')
    end.

Notation "x <- m ;; k" := (bind m (fun x => k))
  (at level 61, m at next level, right associativity).

Definition record (e : Event) (st : State) : State :=
  {| world := world st; allResults := allResults st;
     trace := trace st ++ [e] |}.

Definition setWorld (w : World) (st : State) : State :=
  {| world := w; allResults := allResults st; trace := trace st |}.

(** A host read that cannot throw. *)
Definition read {A : Type} (f : World -> A * World) : M A :=
  fun st => let (a, w) := f (world st) in (Returned a, setWorld w st).

(** [await impl.runAlgorithm(testData)] *)
Definition runAlgorithm
    (impl : Input -> World -> Outcome Output * World)
    (ev : Input -> Outcome Output -> Event) (testData : Input) : M Output :=
  fun st =>
    let (r, w) := impl testData (world st) in
    (r, record (ev testData r) (setWorld w st)).

(** [validator(wasmResult, jsResult)] *)
Definition callValidator (validator : Validator) (wasmResult jsResult : Output)
    : M (option ValidationResult) :=
  fun st =>
    (validator wasmResult jsResult, record (Validate wasmResult jsResult) st).

(** [this.exportResults(metrics)] *)
Definition callExport
    (hook : list Metrics -> Metrics -> World -> Outcome unit * World)
    (metrics : Metrics) : M unit :=
  fun st =>
    let (r, w) := hook (allResults st) metrics (world st) in
    (r, record (Export metrics) (setWorld w st)).

Variable host : Host.

(** *** [runTest] *)

Definition emptySamples : Samples :=
  {| sWasmTimes := []; sJsTimes := []; sWasmMemory := []; sJsMemory := [];
     sValidation := {| success := true; discrepancies := [] |} |}.

(** Lines 66-69: [success] is copied; [discrepancies] only on failure. *)
Definition updated (old validationResult : ValidationResult)
    : ValidationResult :=
  {| success := success validationResult;
     discrepancies :=
       if success validationResult then discrepancies old
       else discrepancies validationResult |}.

(** Lines 64-70: only the first run is validated. *)
Definition validate (validator : option Validator) (i : nat)
    (wasmResult jsResult : Output) (old : ValidationResult)
    : M ValidationResult :=
  match validator with
  | Some v =>
      if Nat.eqb i 0 then
        r <- callValidator v wasmResult jsResult ;;
        match r with
        | Some validationResult => ret (updated old validationResult)
        | None => throw TypeError_success
        end
      else ret old
  | None => ret old
  end.

(** The body of the [for] loop, for the iteration [i]. *)
Definition trial (testData : Input) (validator : option Validator)
    (i : nat) (s : Samples) : M Samples :=
  wasmStart <- read (now host) ;;
  wasmMemoryBefore <- read (measureMemory host) ;;
  wasmResult <- runAlgorithm (wasmRunAlgorithm host) WasmRun testData ;;
  wasmMemoryAfter <- read (measureMemory host) ;;
  wasmEnd <- read (now host) ;;
  jsStart <- read (now host) ;;
  jsMemoryBefore <- read (measureMemory host) ;;
  jsResult <- runAlgorithm (jsRunAlgorithm host) JsRun testData ;;
  jsMemoryAfter <- read (measureMemory host) ;;
  jsEnd <- read (now host) ;;
  validation <- validate validator i wasmResult jsResult (sValidation s) ;;
  ret {| sWasmTimes := sWasmTimes s ++ [sub wasmEnd wasmStart];
         sJsTimes := sJsTimes s ++ [sub jsEnd jsStart];
         sWasmMemory :=
           sWasmMemory s
           ++ [calculateMemoryUsage wasmMemoryBefore wasmMemoryAfter];
         sJsMemory :=
           sJsMemory s
           ++ [calculateMemoryUsage jsMemoryBefore jsMemoryAfter];
         sValidation := validation |}.

(** [for (let i = ..; i < iterations; i++)], with [remaining] iterations
    still to run. *)
Fixpoint trialLoop (testData : Input) (validator : option Validator)
    (remaining i : nat) (s : Samples) : M Samples :=
  match remaining with
  | O => ret s
  | S remaining' =>
      s' <- trial testData validator i s ;;
      trialLoop testData validator remaining' (S i) s'
  end.

(** Lines 73-78: the statistics and the speedup. *)
Definition finish (algorithmName algorithmType size : string) (s : Samples)
    : Metrics :=
  let wasmStats := calculateStats (sWasmTimes s) in
  let jsStats := calculateStats (sJsTimes s) in
  {| algorithm := algorithmName;
     type := algorithmType;
     size := size;
     wasmTimes := sWasmTimes s;
     jsTimes := sJsTimes s;
     wasmMemory := sWasmMemory s;
     jsMemory := sJsMemory s;
     validationResults := sValidation s;
     wasmStats := wasmStats;
     jsStats := jsStats;
     speedup := div (mean jsStats) (mean wasmStats) |}.

(** Lines 110-115. *)
Definition exportAndReturn (metrics : Metrics) : M Metrics :=
  match exportResults host with
  | Some hook => _ <- callExport hook metrics ;; ret metrics
  | None => ret metrics
  end.

Definition runTest (algorithmName algorithmType size : string)
    (testData : Input) (iterations : nat) (validator : option Validator)
    : M Metrics :=
  s <- trialLoop testData validator iterations 0 emptySamples ;;
  exportAndReturn (finish algorithmName algorithmType size s).

(** An implementation whose [runAlgorithm] always resolves. *)
Definition neverThrows (impl : Input -> World -> Outcome Output * World)
    : Prop :=
  forall x w, exists o w', impl x w = (Returned o, w').

(** A validator that always hands back a result object. *)
Definition validatorReturns (validator : option Validator) : Prop :=
  match validator with
  | Some v => forall w j, exists r, v w j = Returned (Some r)
  | None => True
  end.

(** An export hook that never throws. *)
Definition hookReturns : Prop :=
  match exportResults host with
  | Some hook => forall rs m w, exists w', hook rs m w = (Returned tt, w')
  | None => True
  end.

(** The events of lines 110-113. *)
Definition exportEvents (m : Metrics) : list Event :=
  match exportResults host with
  | Some _ => [Export m]
  | None => []
  end.

(** *** Reading a trace *)

Definition isWasmRun (e : Event) : bool :=
  match e with WasmRun _ _ => true | _ => false end.

Definition isJsRun (e : Event) : bool :=
  match e with JsRun _ _ => true | _ => false end.

Definition wasmOutputs (tr : list Event) : list Output :=
  flat_map (fun e => match e with
                     | WasmRun _ (Returned o) => [o]
                     | _ => []
                     end) tr.

Definition jsOutputs (tr : list Event) : list Output :=
  flat_map (fun e => match e with
                     | JsRun _ (Returned o) => [o]
                     | _ => []
                     end) tr.

(** The validator calls that iteration [i] makes on the results [w], [j]. *)
Definition validationEvents (validator : option Validator) (i : nat)
    (w j : Output) : list Event :=
  match validator with
  | Some _ => if Nat.eqb i 0 then [Validate w j] else []
  | None => []
  end.

Definition validations (tr : list Event) : list (Output * Output) :=
  flat_map (fun e => match e with
                     | Validate w j => [(w, j)]
                     | _ => []
                     end) tr.

(** What the events of a completed loop look like: [r] iterations starting
    at index [i]. *)
Record LoopEvents (validator : option Validator) (r i : nat)
    (evs : list Event) : Prop := {
  wasm_calls : length (filter isWasmRun evs) = r;
  js_calls : length (filter isJsRun evs) = r;
  later_runs : (validator = None \/ 0 < i \/ r = 0) -> validations evs = [];
  first_run :
    validator <> None -> i = 0 -> 0 < r ->
    exists w j : Output,
      validations evs = [(w, j)] /\
      nth_error (wasmOutputs evs) 0 = Some w /\
      nth_error (jsOutputs evs) 0 = Some j
}.

End Runner.

Arguments world {N Input Output World} s.
Arguments allResults {N Input Output World} s.
Arguments trace {N Input Output World} s.
Arguments now {N Input Output World} h.
Arguments measureMemory {N Input Output World} h.
Arguments wasmRunAlgorithm {N Input Output World} h.
Arguments jsRunAlgorithm {N Input Output World} h.
Arguments exportResults {N Input Output World} h.
Arguments WasmRun {N Input Output} testData result.
Arguments JsRun {N Input Output} testData result.
Arguments Validate {N Input Output} wasmResult jsResult.
Arguments Export {N Input Output} metrics.
Arguments ret {N Input Output World A} a.
Arguments throw {N Input Output World A} e.
Arguments bind {N Input Output World A B} m k.
Arguments callExport {N Input Output World} hook metrics.
Arguments read {N Input Output World A} f.
Arguments runAlgorithm {N Input Output World} impl ev testData.
Arguments callValidator {N Input Output World} validator wasmResult jsResult.
Arguments validate {N Input Output World} validator i wasmResult jsResult old.
Arguments validationEvents {N Input Output} validator i w j.
Arguments finish {N} algorithmName algorithmType size s.
Arguments record {N Input Output World} e st.
Arguments setWorld {N Input Output World} w st.
Arguments emptySamples {N}.
Arguments validatorReturns {N Output} validator.
Arguments hookReturns {N Input Output World} host.
Arguments neverThrows {Input Output World} impl.
Arguments exportEvents {N Input Output World} host m.
Arguments updated {N} old validationResult.
Arguments trial {N Input Output World} host testData validator i s.
Arguments trialLoop {N Input Output World} host testData validator remaining i s.
Arguments exportAndReturn {N Input Output World} host metrics.
Arguments runTest {N Input Output World} host algorithmName algorithmType
  size testData iterations validator.
Arguments isWasmRun {N Input Output} e.
Arguments isJsRun {N Input Output} e.
Arguments wasmOutputs {N Input Output} tr.
Arguments jsOutputs {N Input Output} tr.
Arguments validations {N Input Output} tr.
Arguments LoopEvents {N Input Output} validator r i evs.

End TestRunner.

(** ** [TestRunnerWithDatabase] *)

Module TestRunnerWithDatabase.

Import TestRunner.

Section Runner.

Context {N : JSNumber}.
Variables Input Output World : Type.
Variable host : Host Input Output World.

Definition zeroStats : Stats :=
  {| min := Some zero; max := Some zero; mean := zero; median := Some zero;
     stdDev := zero; p95 := Some zero; p99 := Some zero |}.

(** The "minimal error result" of the [catch] block. *)
Definition errorResult (algorithmName algorithmType size : string)
    (error : JsError) : Metrics :=
  {| algorithm := algorithmName;
     type := algorithmType;
     size := size;
     wasmTimes := [];
     jsTimes := [];
     wasmMemory := [];
     jsMemory := [];
     validationResults :=
       {| success := false;
          discrepancies := [ExecutionFailed (message error)] |};
     wasmStats := zeroStats;
     jsStats := zeroStats;
     speedup := zero |}.

Definition pushResult (metrics : Metrics)
    (st : State Input Output World) : State Input Output World :=
  {| world := world st;
     allResults := allResults st ++ [metrics];
     trace := trace st |}.

(** [runTest] of the subclass: [super.runTest] inside [try]; a result whose
    speedup is NaN gives [null] ([None]); whatever is thrown inside the
    [try] gives the error result.  [this.exportResults] is the same hook
    that [super.runTest] calls. *)
Definition runTest (saveToJson : bool)
    (algorithmName algorithmType size : string) (testData : Input)
    (iterations : nat) (validator : option (Validator Output))
    (st : State Input Output World)
    : option Metrics * State Input Output World :=
  match TestRunner.runTest host
          algorithmName algorithmType size testData iterations validator st with
  | (Returned metrics, st1) =>
      if isNaN (speedup metrics) then (None, st1)
      else
        let st2 := pushResult metrics st1 in
        if saveToJson then
          match exportResults host with
          | Some hook =>
              match callExport hook metrics st2 with
              | (Returned _, st3) => (Some metrics, st3)
              | (Thrown e, st3) =>
                  (Some (errorResult algorithmName algorithmType size e), st3)
              end
          | None =>
              (Some (errorResult algorithmName algorithmType size
                       (Error "this.exportResults is not a function")), st2)
          end
        else (Some metrics, st2)
  | (Thrown e, st1) =>
      (Some (errorResult algorithmName algorithmType size e), st1)
  end.

End Runner.

Arguments runTest {N Input Output World} host saveToJson algorithmName
  algorithmType size testData iterations validator st.

End TestRunnerWithDatabase.

(** ** The validators of the benchmark suite ([TEST_CONFIGS]) *)

Module BenchmarkSuite.

Import TestRunner.

(** What an implementation can hand to a validator. *)
Inductive JsValue : Type :=
| JUndefined
| JNull
| JNumber (x : float)
| JArray (elements : list float).

(** [!v] is false *)
Definition truthy (v : JsValue) : bool :=
  match v with
  | JUndefined | JNull => false
  | JNumber x => negb (PrimFloat.eqb x 0 || F64.isNaN x)
  | JArray _ => true
  end.

(** [Math.max] of two numbers: NaN if either is; [+0] above [-0]. *)
Definition mathMax (a b : float) : float :=
  if F64.isNaN a then a
  else if F64.isNaN b then b
  else if PrimFloat.ltb a b then b
  else if PrimFloat.ltb b a then a
  else if PrimFloat.eqb a 0 then PrimFloat.add a b
  else a.

Definition Disc : Type := @Discrepancy FloatNumber.
Definition ValidationOutcome : Type := @ValidationResult FloatNumber.

(** The [for] loop of the [fft] and [gradient] validators, from index [i]. *)
Fixpoint compareElements (tolerance : float) (i : nat)
    (wasmResult jsResult : list float) : list Disc :=
  match wasmResult, jsResult with
  | w :: wasmRest, j :: jsRest =>
      let rest := compareElements tolerance (S i) wasmRest jsRest in
      if F64.isNaN w || F64.isNaN j then ContainsNaN i w j :: rest
      else
        let denominator :=
          mathMax (mathMax (PrimFloat.abs w) (PrimFloat.abs j)) 1e-10 in
        let diff :=
          PrimFloat.div (PrimFloat.abs (PrimFloat.sub w j)) denominator in
        if F64.gt diff tolerance then IndexMismatch i w j diff :: rest
        else rest
  | _, _ => []
  end.

(** The [fft] validator (lines 102-135) and the [gradient] validator (lines
    223-257) are the same text but for the tolerance. *)
Definition relativeErrorValidator (tolerance : float)
    (wasmResult jsResult : JsValue) : ValidationOutcome :=
  if negb (truthy wasmResult) || negb (truthy jsResult) then
    {| success := false; discrepancies := [UndefinedOrNull] |}
  else
    match wasmResult, jsResult with
    | JArray wasmArray, JArray jsArray =>
        if negb (Nat.eqb (length wasmArray) (length jsArray)) then
          {| success := false;
             discrepancies :=
               [LengthMismatch (length wasmArray) (length jsArray)] |}
        else
          let discrepancies := compareElements tolerance 0 wasmArray jsArray in
          {| success := Nat.eqb (length discrepancies) 0;
             discrepancies := firstn 3 discrepancies |}
    | _, _ => {| success := false; discrepancies := [NotArrays] |}
    end.

Definition fftValidator : JsValue -> JsValue -> ValidationOutcome :=
  relativeErrorValidator 0.01.

Definition gradientValidator : JsValue -> JsValue -> ValidationOutcome :=
  relativeErrorValidator 0.15.

(** The discrepancy array as it stands before the [return] truncates it. *)
Definition collected (tolerance : float) (wasmResult jsResult : JsValue)
    : list Disc :=
  if negb (truthy wasmResult) || negb (truthy jsResult) then [UndefinedOrNull]
  else
    match wasmResult, jsResult with
    | JArray wasmArray, JArray jsArray =>
        if negb (Nat.eqb (length wasmArray) (length jsArray)) then
          [LengthMismatch (length wasmArray) (length jsArray)]
        else compareElements tolerance 0 wasmArray jsArray
    | _, _ => [NotArrays]
    end.

(** A validator as [runTest] receives it. *)
Definition asValidator (v : JsValue -> JsValue -> ValidationOutcome)
    : Validator JsValue :=
  fun wasmResult jsResult => Returned (Some (v wasmResult jsResult)).

End BenchmarkSuite.

(** ** A small host to run the model on

    The clock is the whole state; the native implementation takes
    [wasmDelay] ms, the managed one [jsDelay] ms, and both return
    [[2 * input]]. *)

Module Demo.

Import TestRunner BenchmarkSuite.

Definition World : Type := float.

Definition memory : @MemoryInfo FloatNumber :=
  Memory 1024%float 4096%float 64%float 8192%float.

Definition okExport
    : list (@Metrics FloatNumber) -> @Metrics FloatNumber -> World
      -> Outcome unit * World :=
  fun _ _ w => (Returned tt, w).

Definition failingExport
    : list (@Metrics FloatNumber) -> @Metrics FloatNumber -> World
      -> Outcome unit * World :=
  fun _ _ w => (Thrown (Error "EACCES: permission denied"), w).

Definition host (wasmDelay jsDelay : float)
    (hook : list (@Metrics FloatNumber) -> @Metrics FloatNumber -> World
            -> Outcome unit * World)
    : Host float JsValue World :=
  {| now := fun w => (w, w);
     measureMemory := fun w => (memory, w);
     wasmRunAlgorithm := fun x w =>
       (Returned (JArray [PrimFloat.mul x 2]), PrimFloat.add w wasmDelay);
     jsRunAlgorithm := fun x w =>
       (Returned (JArray [PrimFloat.mul x 2]), PrimFloat.add w jsDelay);
     exportResults := Some hook |}.

Definition start : State float JsValue World :=
  {| world := 0%float; allResults := []; trace := [] |}.

(** The configuration [{algorithm: "demo", size: "small", input: 4}]. *)
Abbreviation run wasmDelay jsDelay hook iterations validator :=
  (TestRunner.runTest (host wasmDelay jsDelay hook) "demo" "math" "small"
     4%float iterations validator start).

(** Validators that misbehave. *)
Definition undefinedValidator : Validator (N:=FloatNumber) JsValue :=
  fun _ _ => Returned None.

Definition throwingValidator : Validator (N:=FloatNumber) JsValue :=
  fun _ _ => Thrown (Error "validator failed").

End Demo.

(** ** The other validators of the benchmark suite *)

Module SuiteValidators.

Import TestRunner BenchmarkSuite.

(** The entries these validators can put in [discrepancies]; as before the
    interpolated data is kept and the text is not rendered. *)
Inductive Message : Type :=
| Missing                                   (* 'One or both results are undefined/null' *)
| NotArraysMessage                          (* 'Results are not arrays' *)
| LengthsDiffer (wasmLength jsLength : nat) (* `Array length mismatch: ..` *)
| ResultMismatch (wasm js diff : float)     (* `Result mismatch: wasm=.., js=.., diff=..` *)
| IndexDiffers (i : nat) (wasm js diff : float) (* `Index i: wasm=.., js=.., diff=..` *)
| RecordCount (wasm js diff : float)        (* `Record count: wasm=.., js=.., diff=..%` *)
| AverageValue (wasm js diff : float).      (* `Average value: wasm=.., js=.., diff=..%` *)

Record Verdict : Type := {
  verdictSuccess : bool;                 (* success *)
  verdictDiscrepancies : list Message    (* discrepancies *)
}.

(** [Math.max(a, b, c)] *)
Definition mathMax3 (a b c : float) : float := mathMax (mathMax a b) c.

(** [|a - b| / Math.max(|a|, |b|, 1e-10)] *)
Definition relativeDifference (a b : float) : float :=
  PrimFloat.div (PrimFloat.abs (PrimFloat.sub a b))
                (mathMax3 (PrimFloat.abs a) (PrimFloat.abs b) 1e-10).

(** *** [matrix] (lines 52-66)

    The two implementations hand back a number, or nothing. *)
Inductive Scalar : Type :=
| SUndefined
| SNull
| SNumber (x : float).

Definition matrixValidator (wasmResult jsResult : Scalar) : Verdict :=
  match wasmResult, jsResult with
  | SNumber w, SNumber j =>
      let tolerance := 1e-6%float in
      let diff := relativeDifference w j in
      {| verdictSuccess := PrimFloat.ltb diff tolerance;
         verdictDiscrepancies :=
           if PrimFloat.leb tolerance diff then [ResultMismatch w j diff]
           else [] |}
  | _, _ => {| verdictSuccess := false; verdictDiscrepancies := [Missing] |}
  end.

(** *** [integration] (lines 171-187) *)

(** The loop [for (i = 0; i < Math.min(wasm.length, js.length); i++)], from
    index [i]; the denominator has no epsilon. *)
Fixpoint integrationLoop (i : nat) (wasmResult jsResult : list float)
    : list Message :=
  match wasmResult, jsResult with
  | w :: wasmRest, j :: jsRest =>
      let diff :=
        PrimFloat.div (PrimFloat.abs (PrimFloat.sub w j))
                      (mathMax (PrimFloat.abs w) (PrimFloat.abs j)) in
      let rest := integrationLoop (S i) wasmRest jsRest in
      if F64.gt diff 0.01 then IndexDiffers i w j diff :: rest else rest
  | _, _ => []
  end.

Definition integrationValidator (wasmResult jsResult : JsValue) : Verdict :=
  match wasmResult, jsResult with
  | JArray wasmArray, JArray jsArray =>
      let discrepancies := integrationLoop 0 wasmArray jsArray in
      {| verdictSuccess := Nat.eqb (length discrepancies) 0;
         verdictDiscrepancies := firstn 3 discrepancies |}
  | _, _ =>
      {| verdictSuccess := false; verdictDiscrepancies := [NotArraysMessage] |}
  end.

(** *** [json] (lines 293-327) and [csv] (lines 363-397), the same text *)

(** The record-count check on index 0: [Math.max(w, j, 1)] takes no absolute
    values. *)
Definition recordCountCheck (wasmArray jsArray : list float) : list Message :=
  match nth_error wasmArray 0, nth_error jsArray 0 with
  | Some w, Some j =>
      let recordCountDiff :=
        PrimFloat.div (PrimFloat.abs (PrimFloat.sub w j)) (mathMax3 w j 1) in
      if F64.gt recordCountDiff 0.1 then [RecordCount w j recordCountDiff]
      else []
  | _, _ => []
  end.

(** The average-value check on index 2. *)
Definition averageValueCheck (wasmArray jsArray : list float) : list Message :=
  match nth_error wasmArray 2, nth_error jsArray 2 with
  | Some w, Some j =>
      let avgValueDiff := relativeDifference w j in
      if F64.gt avgValueDiff 0.01 then [AverageValue w j avgValueDiff]
      else []
  | _, _ => []
  end.

Definition parserValidator (wasmResult jsResult : JsValue) : Verdict :=
  if negb (truthy wasmResult) || negb (truthy jsResult) then
    {| verdictSuccess := false; verdictDiscrepancies := [Missing] |}
  else
    match wasmResult, jsResult with
    | JArray wasmArray, JArray jsArray =>
        if negb (Nat.eqb (length wasmArray) (length jsArray)) then
          {| verdictSuccess := false;
             verdictDiscrepancies :=
               [LengthsDiffer (length wasmArray) (length jsArray)] |}
        else
          let discrepancies :=
            recordCountCheck wasmArray jsArray
            ++ averageValueCheck wasmArray jsArray in
          {| verdictSuccess := Nat.eqb (length discrepancies) 0;
             verdictDiscrepancies := firstn 3 discrepancies |}
    | _, _ =>
        {| verdictSuccess := false;
           verdictDiscrepancies := [NotArraysMessage] |}
    end.

Definition jsonValidator : JsValue -> JsValue -> Verdict := parserValidator.
Definition csvValidator : JsValue -> JsValue -> Verdict := parserValidator.

(** The discrepancy arrays of these validators as they stand before the
    [return] truncates them. *)
Definition integrationCollected (wasmResult jsResult : JsValue)
    : list Message :=
  match wasmResult, jsResult with
  | JArray wasmArray, JArray jsArray => integrationLoop 0 wasmArray jsArray
  | _, _ => [NotArraysMessage]
  end.

Definition parserCollected (wasmResult jsResult : JsValue) : list Message :=
  if negb (truthy wasmResult) || negb (truthy jsResult) then [Missing]
  else
    match wasmResult, jsResult with
    | JArray wasmArray, JArray jsArray =>
        if negb (Nat.eqb (length wasmArray) (length jsArray)) then
          [LengthsDiffer (length wasmArray) (length jsArray)]
        else
          recordCountCheck wasmArray jsArray
          ++ averageValueCheck wasmArray jsArray
    | _, _ => [NotArraysMessage]
    end.

(** The index a discrepancy of the [fft], [gradient] validators is about. *)
Definition discrepancyIndex (d : Disc) : option nat :=
  match d with
  | ContainsNaN i _ _ => Some i
  | IndexMismatch i _ _ _ => Some i
  | _ => None
  end.

End SuiteValidators.

(** ** The validators of the per-algorithm test files

    Each test file ([runFFTTest], [runGradientDescentTest],
    [runIntegrationTest], [runJsonParserTest], [runCsvParserTest]) builds its
    own validator.  The five share their first and last lines: two early
    returns, then the checks, then
    [{ success: discrepancies.length === 0, discrepancies:
    discrepancies.slice(0, 5) }]. *)

Module TestFiles.

Import TestRunner BenchmarkSuite.

(** An operand read from an array: [undefined] counts as NaN. *)
Definition toNumber (v : option float) : float :=
  match v with
  | Some x => x
  | None => nan
  end.

(** The entries of [discrepancies]; the interpolated data is kept. *)
Inductive Note : Type :=
| ResultsNotArrays                          (* 'Results are not arrays' *)
| LengthsDoNotMatch                         (* 'Array lengths do not match' *)
| MismatchAtIndex (i : nat) (wasm js diff : float)
                                            (* `Mismatch at index i: ..` *)
| TrapezoidalMismatch (wasm js : option float) (diff : float)
| SimpsonMismatch (wasm js : option float) (diff : float)
| AnalyticalMismatch (wasm js : option float) (diff : float)
| HighCost (wasm js : option float)         (* `High cost values: ..` *)
| PoorConvergence (wasm js : option float)  (* `Poor convergence: ..` *)
| ParametersDiverged (wasm js : option float) (* `Parameters diverged: ..` *)
| RecordCountMismatch (wasm js : option float) (diff : float)
| SizeMismatch (wasm js : option float) (diff : float)
| AverageValueMismatch (wasm js : option float) (diff : float).

Record Report : Type := {
  reportSuccess : bool;             (* success *)
  reportDiscrepancies : list Note   (* discrepancies *)
}.

(** The shared frame, around the checks of one validator. *)
Definition testValidator (checks : list float -> list float -> list Note)
    (wasmResult jsResult : JsValue) : Report :=
  match wasmResult, jsResult with
  | JArray wasmArray, JArray jsArray =>
      if negb (Nat.eqb (length wasmArray) (length jsArray)) then
        {| reportSuccess := false; reportDiscrepancies := [LengthsDoNotMatch] |}
      else
        let discrepancies := checks wasmArray jsArray in
        {| reportSuccess := Nat.eqb (length discrepancies) 0;
           reportDiscrepancies := firstn 5 discrepancies |}
  | _, _ =>
      {| reportSuccess := false; reportDiscrepancies := [ResultsNotArrays] |}
  end.

(** The discrepancy array before the [return] truncates it. *)
Definition testCollected (checks : list float -> list float -> list Note)
    (wasmResult jsResult : JsValue) : list Note :=
  match wasmResult, jsResult with
  | JArray wasmArray, JArray jsArray =>
      if negb (Nat.eqb (length wasmArray) (length jsArray)) then
        [LengthsDoNotMatch]
      else checks wasmArray jsArray
  | _, _ => [ResultsNotArrays]
  end.

(** *** FFT (lines 466-473 of its test): the first 20 entries, absolute
    difference above [1e-10]; [remaining] iterations to go from index [i]. *)
Fixpoint mismatches (i remaining : nat) (wasmResult jsResult : list float)
    : list Note :=
  match remaining, wasmResult, jsResult with
  | S remaining', w :: wasmRest, j :: jsRest =>
      let diff := PrimFloat.abs (PrimFloat.sub w j) in
      let rest := mismatches (S i) remaining' wasmRest jsRest in
      if F64.gt diff 1e-10 then MismatchAtIndex i w j diff :: rest else rest
  | _, _, _ => []
  end.

Definition fftChecks (wasmResult jsResult : list float) : list Note :=
  mismatches 0 20 wasmResult jsResult.

(** *** Numeric integration: entries 0, 1 and 2, absolute difference above
    [1e-10]. *)
Definition absoluteCheck
    (note : option float -> option float -> float -> Note)
    (wasmResult jsResult : list float) (i : nat) : list Note :=
  let w := nth_error wasmResult i in
  let j := nth_error jsResult i in
  let diff := PrimFloat.abs (PrimFloat.sub (toNumber w) (toNumber j)) in
  if F64.gt diff 1e-10 then [note w j diff] else [].

Definition integrationChecks (wasmResult jsResult : list float) : list Note :=
  absoluteCheck TrapezoidalMismatch wasmResult jsResult 0
  ++ absoluteCheck SimpsonMismatch wasmResult jsResult 1
  ++ absoluteCheck AnalyticalMismatch wasmResult jsResult 2.

(** *** Gradient descent (lines 163-182 of node-tests4.js) *)
Definition gradientChecks (wasmResult jsResult : list float) : list Note :=
  let wasmCost := nth_error wasmResult 0 in
  let jsCost := nth_error jsResult 0 in
  let wasmConvergence := nth_error wasmResult 1 in
  let jsConvergence := nth_error jsResult 1 in
  let wasmAvgParam := nth_error wasmResult 2 in
  let jsAvgParam := nth_error jsResult 2 in
  (if F64.gt (toNumber wasmCost) 1000 || F64.gt (toNumber jsCost) 1000
   then [HighCost wasmCost jsCost] else [])
  ++ (if PrimFloat.ltb (toNumber wasmConvergence) 0.001
         || PrimFloat.ltb (toNumber jsConvergence) 0.001
      then [PoorConvergence wasmConvergence jsConvergence] else [])
  ++ (if F64.gt (PrimFloat.abs (toNumber wasmAvgParam)) 10
         || F64.gt (PrimFloat.abs (toNumber jsAvgParam)) 10
      then [ParametersDiverged wasmAvgParam jsAvgParam] else []).

(** *** JSON parser and CSV parser, the same checks (lines 66-91 of
    test-csv.js): record count and size within 10%, average value within
    1%. *)
Definition relativeCheck
    (note : option float -> option float -> float -> Note)
    (tolerance : float) (magnitude : float -> float)
    (wasmResult jsResult : list float) (i : nat) : list Note :=
  let w := nth_error wasmResult i in
  let j := nth_error jsResult i in
  let diff :=
    PrimFloat.div (PrimFloat.abs (PrimFloat.sub (toNumber w) (toNumber j)))
                  (mathMax (magnitude (toNumber w)) (magnitude (toNumber j))) in
  if F64.gt diff tolerance then [note w j diff] else [].

Definition parserChecks (wasmResult jsResult : list float) : list Note :=
  relativeCheck RecordCountMismatch 0.1 (fun x => x) wasmResult jsResult 0
  ++ relativeCheck SizeMismatch 0.1 (fun x => x) wasmResult jsResult 1
  ++ relativeCheck AverageValueMismatch 0.01 PrimFloat.abs wasmResult jsResult 2.

Definition fftTestValidator : JsValue -> JsValue -> Report :=
  testValidator fftChecks.
Definition integrationTestValidator : JsValue -> JsValue -> Report :=
  testValidator integrationChecks.
Definition gradientTestValidator : JsValue -> JsValue -> Report :=
  testValidator gradientChecks.
Definition jsonTestValidator : JsValue -> JsValue -> Report :=
  testValidator parserChecks.
Definition csvTestValidator : JsValue -> JsValue -> Report :=
  testValidator parserChecks.

End TestFiles.

(** ** What a run leaves behind *)

Module Protocol.

Import TestRunner.

Section Protocol.

Context {N : JSNumber}.
Variables Input Output World : Type.

Definition isExport (e : Event Input Output) : bool :=
  match e with Export _ => true | _ => false end.

(** The metrics that were handed to the export hook, in order. *)
Definition exported (tr : list (Event Input Output)) : list Metrics :=
  flat_map (fun e => match e with
                     | Export m => [m]
                     | _ => []
                     end) tr.

(** A step that, whatever its outcome, calls no export hook and leaves
    [allResults] alone. *)
Definition silent {A : Type} (m : M Input Output World A) : Prop :=
  forall st,
    allResults (snd (m st)) = allResults st /\
    exists evs,
      trace (snd (m st)) = trace st ++ evs /\
      forallb (fun e => negb (isExport e)) evs = true.

(** An implementation whose [runAlgorithm] always rejects. *)
Definition alwaysThrows (impl : Input -> World -> Outcome Output * World)
    : Prop :=
  forall x w, exists e w', impl x w = (Thrown e, w').

End Protocol.

Arguments isExport {N Input Output} e.
Arguments exported {N Input Output} tr.
Arguments silent {N Input Output World A} m.
Arguments alwaysThrows {Input Output World} impl.

End Protocol.

(** ** Spies on the implementations *)

Module Spies.

Import TestRunner.

Section Spies.

Context {N : JSNumber}.
Variables Input Output World : Type.

Definition isRun (e : Event Input Output) : bool := isWasmRun e || isJsRun e.

(** [calls] reads, from the state of the host, a log that the two
    implementations keep themselves: every call of a [runAlgorithm] appends
    its argument and its result, and nothing else that the runner calls
    touches the log. *)
Record Spy (host : Host Input Output World)
    (calls : World -> list (Event Input Output)) : Prop := {
  spy_now : forall w, calls (snd (now host w)) = calls w;
  spy_measureMemory : forall w, calls (snd (measureMemory host w)) = calls w;
  spy_wasm :
    forall x w,
      calls (snd (wasmRunAlgorithm host x w))
        = calls w ++ [WasmRun x (fst (wasmRunAlgorithm host x w))];
  spy_js :
    forall x w,
      calls (snd (jsRunAlgorithm host x w))
        = calls w ++ [JsRun x (fst (jsRunAlgorithm host x w))];
  spy_export :
    forall hook rs m w,
      exportResults host = Some hook -> calls (snd (hook rs m w)) = calls w
}.

(** A step of the runner during which the log receives exactly the runs
    that the step adds to the trace, whatever its outcome. *)
Definition logged (calls : World -> list (Event Input Output))
    {A : Type} (m : M Input Output World A) : Prop :=
  forall st,
    exists evs,
      trace (snd (m st)) = trace st ++ evs /\
      calls (world (snd (m st))) = calls (world st) ++ filter isRun evs.

End Spies.

Arguments isRun {N Input Output} e.
Arguments Spy {N Input Output World} host calls.
Arguments logged {N Input Output World} calls {A} m.

End Spies.

(** ** [TestRunner.runBenchmark] (runner.js, lines 125-177) *)

Module RunBenchmark.

Import TestRunner.

(** What [sizeMap[size]] evaluates to when it is not [undefined]: the number
    of an own key, or the member of [Object.prototype] that the object
    literal inherits under that key (a function or an object: truthy, and NaN
    where a number is wanted). *)
Inductive Dimensions : Type :=
| Own (n : nat)
| Inherited (key : string).

Definition objectPrototypeKeys : list string :=
  ["constructor"; "hasOwnProperty"; "isPrototypeOf"; "propertyIsEnumerable";
   "toLocaleString"; "toString"; "valueOf"; "__defineGetter__";
   "__defineSetter__"; "__lookupGetter__"; "__lookupSetter__"; "__proto__"]%string.

Definition sizeMap (size : string) : option Dimensions :=
  if String.eqb size "small" then Some (Own 50)
  else if String.eqb size "medium" then Some (Own 500)
  else if String.eqb size "large" then Some (Own 2000)
  else if existsb (String.eqb size) objectPrototypeKeys then
    Some (Inherited size)
  else None.

(** A result of [runAlgorithm] as the validator sees it: an array of rows of
    numbers, or something that is not an array. *)
Inductive MatrixValue : Type :=
| NotAnArray
| Rows (rows : list (list float)).

(** The entries the inline validator can put in [discrepancies]. *)
Inductive MatrixMessage : Type :=
| NotMatrices                               (* 'Results are not matrices' *)
| DimensionsDiffer                          (* 'Matrix dimensions do not match' *)
| MismatchAt (i j : nat) (wasm js : float). (* `Mismatch at [i][j]: wasm=.., js=..` *)

(** Reading [[j]] of [undefined]. *)
Definition TypeError_index (j : nat) : JsError :=
  Error (String.append "Cannot read properties of undefined (reading '"
           (String.append (NilEmpty.string_of_uint (Nat.to_uint j)) "')")).

(** [m[i][j]]: [undefined] ([None]) past the end of the row [m[i]]; a
    TypeError when there is no row [m[i]]. *)
Definition cell (m : list (list float)) (i j : nat) : Outcome (option float) :=
  match nth_error m i with
  | Some row => Returned (nth_error row j)
  | None => Thrown (TypeError_index j)
  end.

(** [Math.min(10, dimensions)] as a loop bound: with NaN no [i < sampleSize]
    holds. *)
Definition sampleSize (dimensions : Dimensions) : nat :=
  match dimensions with
  | Own n => Nat.min 10 n
  | Inherited _ => 0
  end.

(** Lines 164-168, for one [i] and [j]. *)
Definition compareCell (wasmRows jsRows : list (list float)) (i j : nat)
    : Outcome (list MatrixMessage) :=
  match cell wasmRows i j with
  | Thrown e => Thrown e
  | Returned w =>
      match cell jsRows i j with
      | Thrown e => Thrown e
      | Returned v =>
          match w, v with
          | Some a, Some b =>
              let diff := PrimFloat.abs (PrimFloat.sub a b) in
              Returned (if F64.gt diff 0.0001 then [MismatchAt i j a b] else [])
          | _, _ => Returned []  (* undefined - x is NaN; NaN > tolerance is false *)
          end
      end
  end.

(** [for (let j = ..; j < sampleSize; j++)] with [remaining] iterations to
    go. *)
Fixpoint columnLoop (wasmRows jsRows : list (list float))
    (i remaining j : nat) : Outcome (list MatrixMessage) :=
  match remaining with
  | O => Returned []
  | S remaining' =>
      match compareCell wasmRows jsRows i j with
      | Thrown e => Thrown e
      | Returned here =>
          match columnLoop wasmRows jsRows i remaining' (S j) with
          | Thrown e => Thrown e
          | Returned rest => Returned (here ++ rest)
          end
      end
  end.

(** [for (let i = ..; i < sampleSize; i++)] with [remaining] iterations to
    go. *)
Fixpoint rowLoop (wasmRows jsRows : list (list float))
    (size remaining i : nat) : Outcome (list MatrixMessage) :=
  match remaining with
  | O => Returned []
  | S remaining' =>
      match columnLoop wasmRows jsRows i size 0 with
      | Thrown e => Thrown e
      | Returned here =>
          match rowLoop wasmRows jsRows size remaining' (S i) with
          | Thrown e => Thrown e
          | Returned rest => Returned (here ++ rest)
          end
      end
  end.

(** The validator of lines 145-173: [success] and [discrepancies]. *)
Definition matrixCheck (dimensions : Dimensions)
    (wasmResult jsResult : MatrixValue) : Outcome (bool * list MatrixMessage) :=
  match wasmResult, jsResult with
  | Rows wasmRows, Rows jsRows =>
      if negb (Nat.eqb (length wasmRows) (length jsRows)) then
        Returned (false, [DimensionsDiffer])
      else
        match rowLoop wasmRows jsRows (sampleSize dimensions)
                (sampleSize dimensions) 0 with
        | Thrown e => Thrown e
        | Returned discrepancies =>
            Returned (Nat.eqb (length discrepancies) 0, discrepancies)
        end
  | _, _ => Returned (false, [NotMatrices])
  end.

Section RunBenchmark.

Variable World : Type.
Variable host : Host (N:=FloatNumber) Dimensions MatrixValue World.

(** The entries of [discrepancies] are strings; how the three of this
    validator read as entries is left open. *)
Variable entry : MatrixMessage -> Discrepancy (N:=FloatNumber).

Definition validator (dimensions : Dimensions)
    : Validator (N:=FloatNumber) MatrixValue :=
  fun wasmResult jsResult =>
    match matrixCheck dimensions wasmResult jsResult with
    | Thrown e => Thrown e
    | Returned (success, discrepancies) =>
        Returned (Some {| success := success;
                          discrepancies := map entry discrepancies |})
    end.

Definition runBenchmark (algorithm size : string) (iterations : nat)
    : M Dimensions MatrixValue World (list Metrics) :=
  match sizeMap size with
  | None => throw (Error (String.append "Invalid size: " size))
  | Some dimensions =>
      bind (runTest host algorithm "math" size dimensions iterations
              (Some (validator dimensions)))
           (fun result => ret [result])
  end.

End RunBenchmark.

End RunBenchmark.

(** ** [TestRunnerWithDatabase.runCompleteBenchmark] (lines 920-979) *)

Module CompleteBenchmark.

Import TestRunner.

Section CompleteBenchmark.

Context {N : JSNumber}.
Variables Input Output World : Type.
Variable host : Host Input Output World.

(** [this.databaseManager]: [null], or an object whose
    [saveBenchmarkResults] is handed the [results]. *)
Variable databaseManager
  : option (list Metrics -> World -> Outcome unit * World).

(** [this.options.saveToDatabase] and [this.options.saveToJson]. *)
Variables saveToDatabase saveToJson : bool.

Definition setResults (results : list Metrics)
    (st : State Input Output World) : State Input Output World :=
  {| world := world st; allResults := results; trace := trace st |}.

(** [result && result.speedup > 0] *)
Definition successful (result : option Metrics) : bool :=
  match result with
  | Some metrics => isPositive (speedup metrics)
  | None => false
  end.

(** The [for .. of Object.entries(sizes)] loop; the number it returns is
    [successfulTests]. *)
Fixpoint runSizes (algorithmName algorithmType : string)
    (sizes : list (string * Input)) (iterations : nat)
    (validator : option (Validator Output)) (st : State Input Output World)
    : nat * State Input Output World :=
  match sizes with
  | [] => (0, st)
  | (sizeName, sizeValue) :: rest =>
      let (result, st1) :=
        TestRunnerWithDatabase.runTest host saveToJson algorithmName
          algorithmType sizeName sizeValue iterations validator st in
      let (successfulTests, st2) :=
        runSizes algorithmName algorithmType rest iterations validator st1 in
      ((if successful result then 1 else 0) + successfulTests, st2)
  end.

(** [saveBenchmarkToDatabase] (lines 984-1015): what the manager throws is
    logged and thrown again.  ([runCompleteBenchmark] also sets
    [options.algorithm], which only the export hook reads: [host] is the host
    with that option set.) *)
Definition saveBenchmarkToDatabase (st : State Input Output World)
    : Outcome unit * State Input Output World :=
  match databaseManager with
  | None => (Returned tt, st)
  | Some saveBenchmarkResults =>
      if Nat.eqb (length (allResults st)) 0 then (Returned tt, st)
      else
        let (r, w) := saveBenchmarkResults (allResults st) (world st) in
        (r, setWorld w st)
  end.

(** [metrics] is what a run of the inherited [runTest] returned for one of
    the [sizes], with a speedup that is a number. *)
Definition completedRun (algorithmName algorithmType : string)
    (sizes : list (string * Input)) (iterations : nat)
    (validator : option (Validator Output)) (metrics : Metrics) : Prop :=
  exists (sizeName : string) (sizeValue : Input)
         (st0 st1 : State Input Output World),
    In (sizeName, sizeValue) sizes /\
    TestRunner.runTest host algorithmName algorithmType sizeName sizeValue
      iterations validator st0 = (Returned metrics, st1) /\
    isNaN (speedup metrics) = false.

Definition runCompleteBenchmark (algorithmName algorithmType : string)
    (sizes : list (string * Input)) (iterations : nat)
    (validator : option (Validator Output)) (st : State Input Output World)
    : list Metrics * State Input Output World :=
  let (successfulTests, st1) :=
    runSizes algorithmName algorithmType sizes iterations validator
      (setResults [] st) in
  let st2 :=
    if saveToDatabase && negb (Nat.eqb (length (allResults st1)) 0) then
      let validResults :=
        filter (fun r => isPositive (speedup r)) (allResults st1) in
      if negb (Nat.eqb (length validResults) 0) then
        let originalResults := allResults st1 in
        (* try .. catch (dbError) .. finally *)
        let (_, st') := saveBenchmarkToDatabase (setResults validResults st1) in
        setResults originalResults st'
      else st1
    else st1 in
  (allResults st2, st2).

End CompleteBenchmark.

Arguments setResults {N Input Output World} results st.
Arguments completedRun {N Input Output World} host algorithmName
  algorithmType sizes iterations validator metrics.
Arguments successful {N} result.
Arguments runSizes {N Input Output World} host saveToJson algorithmName
  algorithmType sizes iterations validator st.
Arguments saveBenchmarkToDatabase {N Input Output World} databaseManager st.
Arguments runCompleteBenchmark {N Input Output World} host databaseManager
  saveToDatabase saveToJson algorithmName algorithmType sizes iterations
  validator st.

(** [a] is [b] with some entries left out. *)
Inductive Subsequence {A : Type} : list A -> list A -> Prop :=
| Subsequence_nil : Subsequence [] []
| Subsequence_skip (x : A) (a b : list A) :
    Subsequence a b -> Subsequence a (x :: b)
| Subsequence_keep (x : A) (a b : list A) :
    Subsequence a b -> Subsequence (x :: a) (x :: b).

End CompleteBenchmark.

(** ** Two more hosts to run the model on *)

Module Examples.

Import TestRunner BenchmarkSuite RunBenchmark Demo.

(** The demo host with a managed implementation that rejects. *)
Definition failingJsHost : Host float JsValue World :=
  {| now := fun w => (w, w);
     measureMemory := fun w => (memory, w);
     wasmRunAlgorithm := fun x w =>
       (Returned (JArray [PrimFloat.mul x 2]), PrimFloat.add w 5);
     jsRunAlgorithm := fun _ w =>
       (Thrown (Error "managed implementation failed"), w);
     exportResults := Some okExport |}.

(** A host for [runBenchmark] whose implementations both return [[]]. *)
Definition emptyMatrixHost : Host Dimensions MatrixValue World :=
  {| now := fun w => (w, w);
     measureMemory := fun w => (memory, w);
     wasmRunAlgorithm := fun _ w => (Returned (Rows []), PrimFloat.add w 5);
     jsRunAlgorithm := fun _ w => (Returned (Rows []), PrimFloat.add w 15);
     exportResults := None |}.

(** One way to read the validator's entries. *)
Definition entry (m : MatrixMessage) : Discrepancy (N:=FloatNumber) :=
  match m with
  | NotMatrices => NotArrays
  | DimensionsDiffer => LengthMismatch 0 0
  | MismatchAt i j wasm js =>
      IndexMismatch (i * 10 + j) wasm js (PrimFloat.abs (PrimFloat.sub wasm js))
  end.

Definition matrixStart : State (N:=FloatNumber) Dimensions MatrixValue World :=
  {| world := 0%float; allResults := []; trace := [] |}.

End Examples.

(** ** A host that keeps a log

    The state of this host is the clock and the log of the calls that its
    two implementations received.  The native implementation takes 50 ms on
    its first call and 150 ms on the later ones, the managed one 200 ms and
    then 400 ms; both return [[2 * input]]. *)

Module Recorded.

Import TestRunner BenchmarkSuite.

Record World : Type := {
  clock : float;
  calls : list (Event (N:=FloatNumber) float JsValue)
}.

Definition firstCall (mine : Event (N:=FloatNumber) float JsValue -> bool)
    (w : World) : bool :=
  Nat.eqb (length (filter mine (calls w))) 0.

Definition host : Host (N:=FloatNumber) float JsValue World :=
  {| now := fun w => (clock w, w);
     measureMemory := fun w => (Demo.memory, w);
     wasmRunAlgorithm := fun x w =>
       let result := Returned (JArray [PrimFloat.mul x 2]) in
       let delay := if firstCall isWasmRun w then 50%float else 150%float in
       (result,
        {| clock := PrimFloat.add (clock w) delay;
           calls := calls w ++ [WasmRun x result] |});
     jsRunAlgorithm := fun x w =>
       let result := Returned (JArray [PrimFloat.mul x 2]) in
       let delay := if firstCall isJsRun w then 200%float else 400%float in
       (result,
        {| clock := PrimFloat.add (clock w) delay;
           calls := calls w ++ [JsRun x result] |});
     exportResults := Some (fun _ _ w => (Returned tt, w)) |}.

Definition start : State (N:=FloatNumber) float JsValue World :=
  {| world := {| clock := 0%float; calls := [] |};
     allResults := []; trace := [] |}.

(** The configuration [{algorithm: "demo", size: "small", input: 4}]. *)
Abbreviation run iterations validator :=
  (TestRunner.runTest host "demo" "math" "small" 4%float iterations validator
     start).

End Recorded.

(** ** [NumericIntegrationImplementation] (js/math/numeric-integration.js)

    The managed implementation that the [integration] configuration hands to
    the runner.  The number of points [n] is a natural number. *)

Module NumericIntegration.

Section NumericIntegration.

Context {N : JSNumber}.

(** [Math.abs] *)
Variable abs : num -> num.

(** The literals [0.5], [3.0] and [4.0]; each is the exact value of the
    expression that stands for it here. *)
Definition half : num := div one two.
Definition three : num := ofLength 3.
Definition four : num := ofLength 4.

(** [x * x + 2.0 * x + 1.0] *)
Definition testFunction (x : num) : num :=
  add (add (mul x x) (mul two x)) one.

Definition analyticalSolution (a b : num) : num :=
  let upper := mul (mul (add b one) (add b one)) (add b one) in
  let lower := mul (mul (add a one) (add a one)) (add a one) in
  div (sub upper lower) three.

(** [for (let i = ..; i < n; i++) sum += f(a + i * h)], with [remaining]
    iterations to go. *)
Fixpoint trapezoidLoop (a h : num) (remaining i : nat) (sum : num) : num :=
  match remaining with
  | O => sum
  | S remaining' =>
      let x := add a (mul (ofLength i) h) in
      trapezoidLoop a h remaining' (S i) (add sum (testFunction x))
  end.

Definition trapezoidalIntegration (a b : num) (n : nat) : num :=
  if Nat.leb n 0 then zero
  else
    let h := div (sub b a) (ofLength n) in
    let sum := mul half (add (testFunction a) (testFunction b)) in
    mul (trapezoidLoop a h (n - 1) 1 sum) h.

(** [for (let i = ..; i < n; i += 2) sum += coefficient * f(a + i * h)]; the
    loop makes fewer than [n] iterations, so [fuel = n] is enough. *)
Fixpoint simpsonLoop (coefficient a h : num) (n fuel i : nat) (sum : num)
    : num :=
  match fuel with
  | O => sum
  | S fuel' =>
      if Nat.ltb i n then
        let x := add a (mul (ofLength i) h) in
        simpsonLoop coefficient a h n fuel' (i + 2)
          (add sum (mul coefficient (testFunction x)))
      else sum
  end.

Definition simpsonIntegration (a b : num) (n : nat) : num :=
  if Nat.leb n 0 || negb (Nat.eqb (n mod 2) 0) then zero
  else
    let h := div (sub b a) (ofLength n) in
    let sum := add (testFunction a) (testFunction b) in
    let sum := simpsonLoop four a h n n 1 sum in
    let sum := simpsonLoop two a h n n 2 sum in
    div (mul sum h) three.

(** [runAlgorithm]: [None] is [null]. *)
Definition runAlgorithm (n : nat) : option (list num) :=
  if Nat.leb n 0 then None
  else
    let a := zero in
    let b := one in
    let trapezoidalResult := trapezoidalIntegration a b n in
    let simpsonN := if Nat.eqb (n mod 2) 0 then n else n - 1 in
    let simpsonResult := simpsonIntegration a b simpsonN in
    let analyticalResult := analyticalSolution a b in
    let trapezoidalError := abs (sub trapezoidalResult analyticalResult) in
    Some [trapezoidalResult; simpsonResult; analyticalResult;
          trapezoidalError].

End NumericIntegration.

End NumericIntegration.

(** ** The cost function of [GradientDescentImplementation]
    (js/math/gradient-descent.js)

    [rosenbrockFunction(x, n)] is only called with [n = x.length]; the
    model takes the array alone. *)

Module GradientDescent.

Section GradientDescent.

Context {N : JSNumber}.

(** The literal [100.0]. *)
Definition hundred : num := ofLength 100.

(** The loop [for (let i = 0; i < n - 1; i++)], on what is left of [x]. *)
Fixpoint rosenbrockLoop (x : list num) (sum : num) : num :=
  match x with
  | xi :: ((xiPlus1 :: _) as rest) =>
      let term1 := sub xiPlus1 (mul xi xi) in
      let term2 := sub one xi in
      rosenbrockLoop rest
        (add sum (add (mul (mul hundred term1) term1) (mul term2 term2)))
  | _ => sum
  end.

Definition rosenbrockFunction (x : list num) : num := rosenbrockLoop x zero.

(** [1.0 / (1.0 + finalCost)] of [runAlgorithm]. *)
Definition convergenceRate (finalCost : num) : num :=
  div one (add one finalCost).

End GradientDescent.

End GradientDescent.

(** ** The matrix test of test/node-tests.js (lines 51-85) *)

Module NodeTests.

Import TestRunner RunBenchmark.

Section NodeTests.

Variable World : Type.
Variable host : Host (N:=FloatNumber) nat MatrixValue World.

(** As for [runBenchmark], how the two messages read as entries is left
    open. *)
Variable entry : MatrixMessage -> Discrepancy (N:=FloatNumber).

(** "A simple validator function that just checks if we got a result". *)
Definition validator : Validator (N:=FloatNumber) MatrixValue :=
  fun wasmResult jsResult =>
    match wasmResult, jsResult with
    | Rows wasmRows, Rows jsRows =>
        if negb (Nat.eqb (length wasmRows) (length jsRows)) then
          Returned (Some {| success := false;
                            discrepancies := [entry DimensionsDiffer] |})
        else Returned (Some {| success := true; discrepancies := [] |})
    | _, _ =>
        Returned (Some {| success := false;
                          discrepancies := [entry NotMatrices] |})
    end.

Definition sizes : list (string * nat) :=
  [("small", 50); ("medium", 500); ("large", 2000)]%string.

(** [for (const [sizeName, size] of Object.entries(sizes)) await
    runner.runTest(..)]: nothing is caught. *)
Fixpoint runSizes (sizes : list (string * nat))
    : M nat MatrixValue World unit :=
  match sizes with
  | [] => ret tt
  | (sizeName, size) :: rest =>
      bind (runTest host "Matrix Multiplication" "math" sizeName size 10
              (Some validator))
           (fun _ => runSizes rest)
  end.

Definition runMatrixMultiplicationTest : M nat MatrixValue World unit :=
  runSizes sizes.

End NodeTests.

End NodeTests.

Import TestRunner.

(** ** Predicates used in the statements *)

(** The summary of a binary64 series keeps its mean between its minimum and
    its maximum ([<=] is the IEEE comparison). *)
Definition meanWithinRange (st : @Stats FloatNumber) : Prop :=
  exists mn mx : float,
    min st = Some mn /\ max st = Some mx /\
    PrimFloat.leb mn (mean st) = true /\ PrimFloat.leb (mean st) mx = true.

(** What the claim on the validators says of one outcome: [returned] is the
    first [cap] entries of the array [collected], and [success] tells whether
    that array is empty. *)
Definition truncatedTo {A : Type} (cap : nat) (success : bool)
    (returned collected : list A) : Prop :=
  returned = firstn cap collected /\
  length returned <= cap /\
  success = Nat.eqb (length collected) 0.

(** NaN, or a number [>= 0]. *)
Definition notNegative (x : float) : Prop :=
  F64.isNaN x = true \/ PrimFloat.leb 0 x = true.

(** A series without NaN. *)
Definition noNaN (S : list float) : Prop :=
  Forall (fun x => F64.isNaN x = false) S.

(** A series in ascending order: every entry is [<=] every later one. *)
Definition ascending (S : list float) : Prop :=
  StronglySorted (fun a b => PrimFloat.leb a b = true) S.

(** * Properties *)

(** ** Facts about the sort and the indices *)

Section SortFacts.

Context {N : JSNumber}.

Lemma insert_perm (a : num) (l : list num) : Permutation (insert a l) (a :: l).
Proof.
  induction l as [|b l IH]; simpl.
  - apply Permutation_refl.
  - destruct (isPositive (sub a b)).
    + eapply perm_trans; [apply perm_skip, IH | apply perm_swap].
    + apply Permutation_refl.
Qed.

Lemma sort_perm (l : list num) : Permutation (sort l) l.
Proof.
  induction l as [|a l IH]; simpl.
  - constructor.
  - eapply perm_trans; [apply insert_perm | now apply perm_skip].
Qed.

Lemma sort_length (l : list num) : length (sort l) = length l.
Proof. apply Permutation_length, sort_perm. Qed.

Lemma lookup_nth (arr : list num) (k : num) (i : nat) :
  toIndex k = Some (Z.of_nat i) -> i < length arr ->
  lookup arr k = nth_error arr i.
Proof.
  intros Hk Hi. unfold lookup. rewrite Hk, Nat2Z.id.
  destruct (Z.ltb_spec (Z.of_nat i) (Z.of_nat (length arr))); [reflexivity | lia].
Qed.

End SortFacts.

(** ** NaN and comparisons in binary64 *)

Section BinaryFacts.

Lemma SFcompare_refl (f : spec_float) :
  f <> S754_nan -> SFcompare f f = Some Eq.
Proof.
  destruct f as [s|s| |s m e]; intros H; try congruence; cbn.
  - reflexivity.
  - now destruct s.
  - rewrite Z.compare_refl, Pos.compare_cont_refl. now destruct s.
Qed.

Lemma SFcompare_swap (a b : spec_float) (c : comparison) :
  SFcompare a b = Some c -> SFcompare b a = Some (CompOpp c).
Proof.
  destruct a as [sa|sa| |sa ma ea], b as [sb|sb| |sb mb eb]; cbn;
    intros H; try discriminate; injection H as <-;
    try (destruct sa; reflexivity); try (destruct sb; reflexivity);
    try (destruct sa, sb; reflexivity).
  assert (Hm : Pos.compare_cont Eq mb ma = CompOpp (Pos.compare_cont Eq ma mb))
    by (symmetry; apply (Pos.compare_cont_antisym ma mb Eq)).
  rewrite (Z.compare_antisym ea eb), Hm.
  destruct sa, sb; try reflexivity;
    destruct (ea ?= eb)%Z; cbn; try reflexivity;
    destruct (Pos.compare_cont Eq ma mb); reflexivity.
Qed.

Lemma SFcompare_defined (a b : spec_float) :
  a <> S754_nan -> b <> S754_nan -> exists c, SFcompare a b = Some c.
Proof.
  destruct a, b; intros Ha Hb; try congruence; cbn; eexists; reflexivity.
Qed.

Lemma isNaN_iff (x : float) : F64.isNaN x = true <-> Prim2SF x = S754_nan.
Proof.
  unfold F64.isNaN. rewrite FloatAxioms.eqb_spec. unfold SFeqb. split.
  - intros H. destruct (Prim2SF x) eqn:E; try reflexivity;
      rewrite SFcompare_refl in H by discriminate; discriminate.
  - intros ->. reflexivity.
Qed.

Lemma isNaN_false_iff (x : float) :
  F64.isNaN x = false <-> Prim2SF x <> S754_nan.
Proof.
  rewrite <- isNaN_iff. destruct (F64.isNaN x); split; congruence.
Qed.

Lemma sub_NaN (x y : float) :
  F64.isNaN x = true \/ F64.isNaN y = true ->
  F64.isNaN (PrimFloat.sub x y) = true.
Proof.
  rewrite !isNaN_iff, FloatAxioms.sub_spec. unfold SF64sub, SFsub.
  intros [-> | ->]; [reflexivity | now destruct (Prim2SF x)].
Qed.

Lemma abs_NaN (x : float) :
  F64.isNaN x = true -> F64.isNaN (PrimFloat.abs x) = true.
Proof. rewrite !isNaN_iff, FloatAxioms.abs_spec. now intros ->. Qed.

Lemma div_NaN_l (x y : float) :
  F64.isNaN x = true -> F64.isNaN (PrimFloat.div x y) = true.
Proof.
  rewrite !isNaN_iff, FloatAxioms.div_spec. unfold SF64div, SFdiv. now intros ->.
Qed.

Lemma ltb_NaN (x y : float) :
  F64.isNaN x = true \/ F64.isNaN y = true -> PrimFloat.ltb x y = false.
Proof.
  rewrite !isNaN_iff, FloatAxioms.ltb_spec. unfold SFltb.
  intros [-> | ->]; [reflexivity | now destruct (Prim2SF x)].
Qed.

Lemma leb_NaN (x y : float) :
  F64.isNaN x = true \/ F64.isNaN y = true -> PrimFloat.leb x y = false.
Proof.
  rewrite !isNaN_iff, FloatAxioms.leb_spec. unfold SFleb.
  intros [-> | ->]; [reflexivity | now destruct (Prim2SF x)].
Qed.

(** For numbers, [a < b] and [b <= a] exclude each other and one holds. *)
Lemma ltb_leb_numbers (x y : float) :
  F64.isNaN x = false -> F64.isNaN y = false ->
  PrimFloat.leb y x = negb (PrimFloat.ltb x y).
Proof.
  rewrite !isNaN_false_iff, FloatAxioms.ltb_spec, FloatAxioms.leb_spec. unfold SFltb, SFleb.
  intros Hx Hy. destruct (SFcompare_defined _ _ Hx Hy) as [c Hc].
  rewrite Hc, (SFcompare_swap _ _ _ Hc). now destruct c.
Qed.

End BinaryFacts.

(** ** Rounding in binary64

    The library specifies the arithmetic of [float] by [SpecFloat]'s
    functions; the lemmas of this section derive from those definitions the
    facts about rounding that the statistics rely on: when a result is exact,
    by how much a rounded product can differ from the exact one, and that the
    comparison of two numbers is the comparison of their values. *)

Section Rounding.

Import Binary64.

#[local] Open Scope Z_scope.


Lemma pow2_pos (n : Z) : 0 <= n -> 0 < 2 ^ n.
Proof. intros; apply Z.pow_pos_nonneg; lia. Qed.

Lemma pow2_succ (n : Z) : 0 <= n -> 2 ^ (n + 1) = 2 * 2 ^ n.
Proof. intros; rewrite Z.pow_add_r by lia; lia. Qed.

Lemma pow2_add (a b : Z) : 0 <= a -> 0 <= b -> 2 ^ (a + b) = 2 ^ a * 2 ^ b.
Proof. intros; apply Z.pow_add_r; lia. Qed.

Lemma pow2_le (a b : Z) : 0 <= a <= b -> 2 ^ a <= 2 ^ b.
Proof. intros; apply Z.pow_le_mono_r; lia. Qed.

Lemma pow2_lt (a b : Z) : 0 <= a < b -> 2 ^ a < 2 ^ b.
Proof. intros; apply Z.pow_lt_mono_r; lia. Qed.

Lemma D_pos p : 1 <= D p.
Proof. unfold D; lia. Qed.

Lemma D_bounds p : 2 ^ (D p - 1) <= Zpos p < 2 ^ D p.
Proof.
  unfold D. induction p as [p IH|p IH|]; cbn [digits2_pos].
  - rewrite Pos2Z.inj_succ, Pos2Z.inj_xI.
    replace (Z.succ (Zpos (digits2_pos p)) - 1) with (Zpos (digits2_pos p) - 1 + 1) by lia.
    replace (Z.succ (Zpos (digits2_pos p))) with (Zpos (digits2_pos p) + 1) by lia.
    rewrite !pow2_succ by lia. lia.
  - rewrite Pos2Z.inj_succ, Pos2Z.inj_xO.
    replace (Z.succ (Zpos (digits2_pos p)) - 1) with (Zpos (digits2_pos p) - 1 + 1) by lia.
    replace (Z.succ (Zpos (digits2_pos p))) with (Zpos (digits2_pos p) + 1) by lia.
    rewrite !pow2_succ by lia. lia.
  - cbn. lia.
Qed.

Lemma D_unique p k : 2 ^ (k - 1) <= Zpos p < 2 ^ k -> D p = k.
Proof.
  intros [Hl Hu]. pose proof (D_bounds p) as [Dl Du]. pose proof (D_pos p).
  assert (Hk : 1 <= k).
  { destruct (Z.le_gt_cases 1 k); [assumption|].
    destruct (Z.lt_trichotomy k 0) as [Hn|[Hn|Hn]].
    - rewrite (Z.pow_neg_r 2 k) in Hu by lia. lia.
    - subst k. cbn in Hu. lia.
    - lia. }
  destruct (Z.lt_trichotomy (D p) k) as [Hlt|[Heq|Hgt]]; [|assumption|].
  - pose proof (pow2_le (D p) (k - 1) ltac:(lia)). lia.
  - pose proof (pow2_le k (D p - 1) ltac:(lia)). lia.
Qed.

Lemma D_mul_pow2 p q k : 0 <= k -> Zpos q = Zpos p * 2 ^ k -> D q = D p + k.
Proof.
  intros Hk Hq. apply D_unique. pose proof (D_bounds p) as [Dl Du]. pose proof (D_pos p).
  replace (D p + k - 1) with (D p - 1 + k) by lia.
  rewrite !pow2_add by lia. pose proof (pow2_pos k Hk). nia.
Qed.

Lemma D_lt_pow2 p k : Zpos p < 2 ^ k -> D p <= k.
Proof.
  intros Hu. pose proof (D_bounds p) as [Dl Du]. pose proof (D_pos p).
  destruct (Z.le_gt_cases (D p) k); [assumption|].
  destruct (Z.le_gt_cases 0 k).
  - pose proof (pow2_le k (D p - 1) ltac:(lia)). lia.
  - rewrite (Z.pow_neg_r 2 k) in Hu by lia. lia.
Qed.

Lemma D_ge_pow2 p k : 0 <= k -> 2 ^ k <= Zpos p -> k < D p.
Proof.
  intros Hk Hl. pose proof (D_bounds p) as [Dl Du].
  destruct (Z.lt_ge_cases k (D p)); [assumption|].
  pose proof (pow2_le (D p) k ltac:(pose proof (D_pos p); lia)). lia.
Qed.

(** shifting right *)

Lemma shr_1_spec mrs :
  0 <= shr_m mrs ->
  shr_m (shr_1 mrs) = shr_m mrs / 2 /\
  (exactRecord mrs -> shr_m mrs mod 2 = 0 -> exactRecord (shr_1 mrs)).
Proof.
  destruct mrs as [m r s]. unfold exactRecord. cbn [shr_m shr_r shr_s].
  intros Hm. destruct m as [|[p|p|]|p]; try lia; cbn [shr_1 shr_m shr_r shr_s].
  - split; [reflexivity|]. intros [-> ->] _. split; reflexivity.
  - split.
    + rewrite Pos2Z.inj_xI. apply Z.div_unique with 1; lia.
    + intros _ H. rewrite Pos2Z.inj_xI in H.
      rewrite Z.add_comm, Z.mul_comm, Z.mod_add in H by lia. discriminate.
  - split.
    + rewrite Pos2Z.inj_xO. apply Z.div_unique with 0; lia.
    + intros [-> ->] _. split; reflexivity.
  - split; [reflexivity|]. intros _ H. discriminate.
Qed.

Lemma iter_shr_1_spec p : forall mrs,
  0 <= shr_m mrs ->
  shr_m (iter_pos shr_1 p mrs) = shr_m mrs / 2 ^ Zpos p /\
  (exactRecord mrs -> shr_m mrs mod 2 ^ Zpos p = 0 ->
   exactRecord (iter_pos shr_1 p mrs)).
Proof.
  assert (Step : forall a b (f g : shr_record -> shr_record),
    0 <= a -> 0 <= b ->
    (forall mrs, 0 <= shr_m mrs -> shr_m (f mrs) = shr_m mrs / 2 ^ a /\
       (exactRecord mrs -> shr_m mrs mod 2 ^ a = 0 -> exactRecord (f mrs))) ->
    (forall mrs, 0 <= shr_m mrs -> shr_m (g mrs) = shr_m mrs / 2 ^ b /\
       (exactRecord mrs -> shr_m mrs mod 2 ^ b = 0 -> exactRecord (g mrs))) ->
    forall mrs, 0 <= shr_m mrs -> shr_m (g (f mrs)) = shr_m mrs / 2 ^ (a + b) /\
       (exactRecord mrs -> shr_m mrs mod 2 ^ (a + b) = 0 -> exactRecord (g (f mrs)))).
  { intros a b f g Ha Hb Hf Hg mrs Hm.
    destruct (Hf mrs Hm) as [Fm Fe].
    pose proof (pow2_pos a Ha) as Pa. pose proof (pow2_pos b Hb) as Pb.
    assert (Hm' : 0 <= shr_m (f mrs)) by (rewrite Fm; apply Z.div_pos; lia).
    destruct (Hg (f mrs) Hm') as [Gm Ge].
    rewrite pow2_add by lia. split.
    - rewrite Gm, Fm. apply Z.div_div; lia.
    - intros He Hd.
      apply Z.mod_divide in Hd; [|lia]. destruct Hd as [k Hk].
      assert (Hda : shr_m mrs mod 2 ^ a = 0).
      { apply Z.mod_divide; [lia|]. exists (k * 2 ^ b). lia. }
      apply Ge; [apply Fe; assumption|].
      rewrite Fm. apply Z.mod_divide; [lia|]. exists k.
      rewrite Hk. replace (k * (2 ^ a * 2 ^ b)) with (k * 2 ^ b * 2 ^ a) by lia.
      apply Z.div_mul; lia. }
  induction p as [p IH|p IH|]; intros mrs Hm; cbn [iter_pos].
  - replace (Zpos p~1) with (1 + (Zpos p + Zpos p)) by lia.
    apply (Step 1 (Zpos p + Zpos p) shr_1
             (fun x => iter_pos shr_1 p (iter_pos shr_1 p x))); try lia.
    + intros; apply shr_1_spec; assumption.
    + apply (Step (Zpos p) (Zpos p)); try lia; assumption.
  - replace (Zpos p~0) with (Zpos p + Zpos p) by lia.
    apply (Step (Zpos p) (Zpos p)); try lia; assumption.
  - apply shr_1_spec; assumption.
Qed.

Lemma shr_spec mrs e n :
  0 <= shr_m mrs ->
  snd (shr mrs e n) = e + Z.max 0 n /\
  shr_m (fst (shr mrs e n)) = shr_m mrs / 2 ^ Z.max 0 n /\
  (exactRecord mrs -> shr_m mrs mod 2 ^ Z.max 0 n = 0 ->
   exactRecord (fst (shr mrs e n))).
Proof.
  intros Hm. destruct n as [|p|p]; cbn [shr fst snd].
  - rewrite Z.max_l by lia. change (2 ^ 0) with 1. rewrite Z.div_1_r.
    split; [lia|]. split; [reflexivity|]. intros He _; exact He.
  - rewrite Z.max_r by lia. split; [reflexivity|]. apply iter_shr_1_spec; assumption.
  - rewrite Z.max_l by lia. change (2 ^ 0) with 1. rewrite Z.div_1_r.
    split; [lia|]. split; [reflexivity|]. intros He _; exact He.
Qed.

Lemma round_nearest_even_cases m mrs :
  shr_m mrs = m ->
  (round_nearest_even m (loc_of_shr_record mrs) = m \/
   round_nearest_even m (loc_of_shr_record mrs) = m + 1) /\
  (exactRecord mrs -> round_nearest_even m (loc_of_shr_record mrs) = m).
Proof.
  intros <-. destruct mrs as [m [|] [|]]; unfold exactRecord; cbn; split;
    try (intros [? ?]; discriminate); auto.
  destruct (Z.even m); auto.
Qed.


Lemma shr_m_of_loc m l : shr_m (shr_record_of_loc m l) = m.
Proof. destruct l as [|[| |]]; reflexivity. Qed.

Lemma fexp64 x : fexp prec emax x = Z.max (x - 53) (-1074).
Proof. reflexivity. Qed.

Lemma bra_spec s mx e l :
  0 <= mx ->
  let n1 := Z.max 0 (fexp prec emax (Zdigits2 mx + e) - e) in
  exists m1r,
    (m1r = mx / 2 ^ n1 \/ m1r = mx / 2 ^ n1 + 1) /\
    (l = loc_Exact -> mx mod 2 ^ n1 = 0 -> m1r = mx / 2 ^ n1) /\
    binary_round_aux prec emax s mx e l = finish_round s m1r (e + n1).
Proof.
  intros Hm n1. unfold binary_round_aux, shr_fexp.
  pose proof (shr_spec (shr_record_of_loc mx l) e
                (fexp prec emax (Zdigits2 mx + e) - e)) as H1.
  rewrite shr_m_of_loc in H1. specialize (H1 Hm).
  destruct (shr (shr_record_of_loc mx l) e (fexp prec emax (Zdigits2 mx + e) - e))
    as [mrs' e'] eqn:E1.
  cbn [fst snd] in H1. destruct H1 as (He' & Hm' & Hx'). fold n1 in He', Hm', Hx'.
  destruct (round_nearest_even_cases (shr_m mrs') mrs' eq_refl) as [Hr Hre].
  set (m1r := round_nearest_even (shr_m mrs') (loc_of_shr_record mrs')) in *.
  exists m1r. split; [rewrite <- Hm'; exact Hr|]. split.
  { intros -> Hd. rewrite <- Hm'. apply Hre, Hx'; [split; reflexivity | exact Hd]. }
  assert (Hm1 : 0 <= m1r).
  { assert (0 <= shr_m mrs') by (rewrite Hm'; apply Z.div_pos; [lia | apply pow2_pos; lia]).
    destruct Hr as [-> | ->]; lia. }
  pose proof (shr_spec (shr_record_of_loc m1r loc_Exact) e'
                (fexp prec emax (Zdigits2 m1r + e') - e')) as H2.
  rewrite shr_m_of_loc in H2. specialize (H2 Hm1).
  destruct (shr (shr_record_of_loc m1r loc_Exact) e'
              (fexp prec emax (Zdigits2 m1r + e') - e')) as [mrs'' e''] eqn:E2.
  cbn [fst snd] in H2. destruct H2 as (He'' & Hm'' & _).
  unfold finish_round. rewrite <- He'. rewrite Hm'', He''. reflexivity.
Qed.


Lemma finish_round_exact s q e1 :
  fexp prec emax (D q + e1) <= e1 -> e1 <= 971 ->
  finish_round s (Zpos q) e1 = S754_finite s q e1.
Proof.
  intros Hc He. unfold finish_round. cbn [Zdigits2]. fold (D q).
  rewrite Z.max_l by lia. change (2 ^ 0) with 1. rewrite Z.div_1_r, Z.add_0_r.
  change (emax - prec) with 971.
  destruct (Z.leb_spec e1 971); [reflexivity | lia].
Qed.

(** An exactly representable value is returned unchanged. *)
Lemma bra_exact s p q e n1 :
  n1 = Z.max 0 (fexp prec emax (D p + e) - e) ->
  Zpos p = Zpos q * 2 ^ n1 -> e + n1 <= 971 ->
  binary_round_aux prec emax s (Zpos p) e loc_Exact = S754_finite s q (e + n1).
Proof.
  intros Hn Hp He.
  destruct (bra_spec s (Zpos p) e loc_Exact ltac:(lia)) as (m1r & _ & Hex & ->).
  cbn [Zdigits2] in *. fold (D p) in *. rewrite <- Hn in *.
  assert (Hn0 : 0 <= n1) by lia.
  pose proof (pow2_pos n1 Hn0) as Hpow.
  assert (Hm : m1r = Zpos q).
  { rewrite Hex; [| reflexivity |].
    - rewrite Hp. apply Z.div_mul; lia.
    - rewrite Hp. apply Z.mod_mul; lia. }
  rewrite Hm. apply finish_round_exact; [|assumption].
  pose proof (D_mul_pow2 q p n1 Hn0 Hp) as HD.
  rewrite !fexp64 in *. lia.
Qed.

Lemma shift_pos_pow2 (m d : positive) :
  Zpos (Pos.iter xO m d) = Zpos m * 2 ^ Zpos d.
Proof.
  rewrite <- (Pos2Z.inj_pow 2 d), <- Pos2Z.inj_mul. f_equal.
  revert m. induction d as [|d IH] using Pos.peano_ind; intros m.
  - cbn. lia.
  - rewrite Pos.iter_succ, IH, Pos.pow_succ_r. lia.
Qed.

Lemma binary_round_up s p q e E :
  E = fexp prec emax (D p + e) ->
  E <= e -> E <= 971 -> Zpos q = Zpos p * 2 ^ (e - E) ->
  binary_round prec emax s p e = S754_finite s q E.
Proof.
  intros HEq HE Hmax Hq. unfold binary_round, shl_align. fold (D p).
  rewrite <- HEq.
  pose proof (D_mul_pow2 p q (e - E) ltac:(lia) Hq) as HD.
  destruct (E - e) as [|d|d] eqn:Hd; try lia.
  - assert (He : e - E = 0) by lia. rewrite He in Hq.
    change (2 ^ 0) with 1 in Hq. rewrite Z.mul_1_r in Hq. injection Hq as ->.
    replace E with (e + 0) by lia.
    apply bra_exact; rewrite ?fexp64 in *; try lia.
  - assert (Hq' : q = Pos.iter xO p d).
    { apply Pos2Z.inj. rewrite shift_pos_pow2, Hq. f_equal. f_equal. lia. }
    rewrite <- Hq'. replace (S754_finite s q E) with (S754_finite s q (E + 0))
      by (f_equal; lia).
    apply bra_exact; rewrite ?fexp64 in *; try lia.
Qed.

Lemma binary_round_down s p q e E :
  E = fexp prec emax (D p + e) ->
  e <= E -> E <= 971 -> Zpos p = Zpos q * 2 ^ (E - e) ->
  binary_round prec emax s p e = S754_finite s q E.
Proof.
  intros HEq HE Hmax Hq. unfold binary_round, shl_align. fold (D p).
  rewrite <- HEq.
  destruct (E - e) as [|d|d] eqn:Hd; try lia.
  - replace E with (e + 0) by lia. apply bra_exact; rewrite <- ?HEq; lia.
  - replace E with (e + (E - e)) by lia.
    apply bra_exact; rewrite <- ?HEq; try lia.
    rewrite Hd. exact Hq.
Qed.

(** The results of a rounding keep the sign, and a value of at least
    [2^-1074] does not round to zero. *)
Lemma finish_round_cases s m1r e1 :
  0 <= m1r ->
  finish_round s m1r e1 = S754_zero s \/
  finish_round s m1r e1 = S754_infinity s \/
  exists q e2, finish_round s m1r e1 = S754_finite s q e2.
Proof.
  intros Hm. unfold finish_round.
  set (n2 := Z.max 0 _).
  assert (0 <= m1r / 2 ^ n2) by (apply Z.div_pos; [lia | apply pow2_pos; lia]).
  destruct (m1r / 2 ^ n2) as [|q|q]; [auto | | lia].
  destruct (_ <=? _); [right; right; eauto | auto].
Qed.

Lemma finish_round_nonzero s m1r e1 :
  1 <= m1r -> -1074 <= e1 -> finish_round s m1r e1 <> S754_zero s.
Proof.
  intros Hm He. unfold finish_round.
  destruct m1r as [|p|p]; try lia. cbn [Zdigits2]. fold (D p).
  set (n2 := Z.max 0 _).
  assert (Hn2 : 0 <= n2 <= D p - 1).
  { unfold n2. rewrite fexp64. pose proof (D_pos p). lia. }
  pose proof (D_bounds p) as [Dl _].
  pose proof (pow2_le n2 (D p - 1) ltac:(lia)).
  pose proof (pow2_pos n2 ltac:(lia)).
  assert (1 <= Zpos p / 2 ^ n2) by (apply Z.div_le_lower_bound; lia).
  destruct (Zpos p / 2 ^ n2) as [|q|q]; try lia.
  destruct (_ <=? _); discriminate.
Qed.

Lemma bra_cases s mx e l :
  0 <= mx ->
  binary_round_aux prec emax s mx e l = S754_zero s \/
  binary_round_aux prec emax s mx e l = S754_infinity s \/
  exists q e2, binary_round_aux prec emax s mx e l = S754_finite s q e2.
Proof.
  intros Hm. destruct (bra_spec s mx e l Hm) as (m1r & Hr & _ & ->).
  apply finish_round_cases.
  assert (0 <= mx / 2 ^ Z.max 0 (fexp prec emax (Zdigits2 mx + e) - e))
    by (apply Z.div_pos; [lia | apply pow2_pos; lia]).
  destruct Hr as [-> | ->]; lia.
Qed.

Lemma binary_round_cases s p e :
  -1074 <= e ->
  binary_round prec emax s p e = S754_infinity s \/
  exists q e2, binary_round prec emax s p e = S754_finite s q e2.
Proof.
  intros He. unfold binary_round.
  destruct (shl_align p e (fexp prec emax (D p + e))) as [mz ez] eqn:Ha.
  fold (D p). rewrite Ha.
  assert (Hez : -1074 <= ez).
  { unfold shl_align in Ha. rewrite fexp64 in Ha.
    destruct (Z.max (D p + e - 53) (-1074) - e); injection Ha as _ <-; lia. }
  destruct (bra_spec s (Zpos mz) ez loc_Exact ltac:(lia)) as (m1r & Hr & _ & Hb).
  cbn [Zdigits2] in *. fold (D mz) in *.
  set (n1 := Z.max 0 _) in *.
  assert (Hn1 : 0 <= n1 <= D mz - 1).
  { unfold n1. rewrite fexp64. pose proof (D_pos mz). lia. }
  pose proof (D_bounds mz) as [Dl _].
  pose proof (pow2_le n1 (D mz - 1) ltac:(lia)).
  pose proof (pow2_pos n1 ltac:(lia)).
  assert (1 <= Zpos mz / 2 ^ n1) by (apply Z.div_le_lower_bound; lia).
  assert (Hm1 : 1 <= m1r) by (destruct Hr as [-> | ->]; lia).
  pose proof (finish_round_nonzero s m1r (ez + n1) Hm1 ltac:(lia)) as Hnz.
  rewrite Hb.
  destruct (finish_round_cases s m1r (ez + n1) ltac:(lia)) as [Hc|[Hc|Hc]];
    [contradiction | auto | auto].
Qed.


Lemma bounded_inv m e :
  bounded prec emax m e = true ->
  -1074 <= e <= 971 /\ D m <= 53 /\ (-1074 < e -> D m = 53).
Proof.
  unfold bounded, canonical_mantissa. fold (D m). rewrite fexp64.
  change (emax - prec) with 971.
  intros H. apply andb_true_iff in H. destruct H as [Hc He].
  apply Z.eqb_eq in Hc. apply Z.leb_le in He. lia.
Qed.

Lemma finite_key_bounds m e :
  bounded prec emax m e = true -> 0 < Zpos m * 2 ^ (e + 1074) < 2 ^ 2100.
Proof.
  intros H. apply bounded_inv in H. destruct H as (He & Hd & _).
  pose proof (D_bounds m) as [_ Du].
  pose proof (pow2_le (D m) 53 ltac:(pose proof (D_pos m); lia)) as H53.
  pose proof (pow2_le (e + 1074) 2045 ltac:(lia)) as H2045.
  pose proof (pow2_pos (e + 1074) ltac:(lia)) as Hpos.
  assert (H2100 : 2 ^ 2100 = 2 ^ 53 * 2 ^ 2045 * 4).
  { change 2100 with (53 + 2045 + 2). rewrite !pow2_add by lia. reflexivity. }
  pose proof (pow2_pos 2045 ltac:(lia)). pose proof (pow2_pos 53 ltac:(lia)).
  split; [lia|]. rewrite H2100.
  assert (Zpos m * 2 ^ (e + 1074) < 2 ^ 53 * 2 ^ 2045); [|lia].
  apply Z.lt_le_trans with (2 ^ 53 * 2 ^ (e + 1074)).
  - apply Z.mul_lt_mono_pos_r; lia.
  - apply Z.mul_le_mono_nonneg_l; lia.
Qed.

Lemma canonical_compare m1 e1 m2 e2 :
  bounded prec emax m1 e1 = true -> bounded prec emax m2 e2 = true ->
  (Zpos m1 * 2 ^ (e1 + 1074) ?= Zpos m2 * 2 ^ (e2 + 1074)) =
  match e1 ?= e2 with
  | Lt => Lt
  | Gt => Gt
  | Eq => Pos.compare_cont Eq m1 m2
  end.
Proof.
  intros H1 H2. apply bounded_inv in H1, H2.
  destruct H1 as (He1 & Hd1 & Hn1), H2 as (He2 & Hd2 & Hn2).
  assert (Hlt : forall ma ea mb eb,
            -1074 <= ea < eb -> D ma <= 53 -> D mb = 53 ->
            Zpos ma * 2 ^ (ea + 1074) < Zpos mb * 2 ^ (eb + 1074)).
  { intros ma ea mb eb He Ha Hb.
    pose proof (D_bounds ma) as [_ Au]. pose proof (D_bounds mb) as [Bl _].
    rewrite Hb in Bl. change (2 ^ (53 - 1)) with 4503599627370496 in Bl.
    pose proof (pow2_le (D ma) 53 ltac:(pose proof (D_pos ma); lia)) as H53.
    change (2 ^ 53) with 9007199254740992 in H53.
    replace (eb + 1074) with (ea + 1074 + (eb - ea - 1) + 1) by lia.
    rewrite pow2_succ, (pow2_add (ea + 1074) (eb - ea - 1)) by lia.
    pose proof (pow2_pos (ea + 1074) ltac:(lia)) as PA.
    pose proof (pow2_pos (eb - ea - 1) ltac:(lia)) as PB.
    set (A := 2 ^ (ea + 1074)) in *. set (B := 2 ^ (eb - ea - 1)) in *.
    assert (H1 : Zpos ma * A < 9007199254740992 * A)
      by (apply Z.mul_lt_mono_pos_r; lia).
    assert (H2 : A * 1 <= A * B) by (apply Z.mul_le_mono_nonneg_l; lia).
    assert (H3 : 4503599627370496 * (A * B) <= Zpos mb * (A * B))
      by (apply Z.mul_le_mono_nonneg_r; [apply Z.mul_nonneg_nonneg|]; lia).
    lia. }
  destruct (Z.compare_spec e1 e2) as [->|Hl|Hg].
  - pose proof (pow2_pos (e2 + 1074) ltac:(lia)) as P2.
    change (Pos.compare_cont Eq m1 m2) with (Pos.compare m1 m2).
    destruct (Pos.compare_spec m1 m2) as [->|Hl|Hg].
    + apply Z.compare_refl.
    + apply Z.compare_lt_iff, Z.mul_lt_mono_pos_r; lia.
    + apply Z.compare_gt_iff, Z.mul_lt_mono_pos_r; lia.
  - apply Z.compare_lt_iff. apply Hlt; lia.
  - apply Z.compare_gt_iff. apply Hlt; lia.
Qed.

Lemma SFcompare_key x y :
  valid_binary x = true -> valid_binary y = true ->
  x <> S754_nan -> y <> S754_nan ->
  SFcompare x y = Some (key x ?= key y).
Proof.
  assert (HX : 0 < 2 ^ 2100) by (apply pow2_pos; lia).
  intros Vx Vy Nx Ny.
  destruct x as [sx|sx| |sx mx ex], y as [sy|sy| |sy my ey];
    try congruence; cbn [SFcompare key SpecFloat.valid_binary] in *;
    try (pose proof (finite_key_bounds _ _ Vx) as Bx);
    try (pose proof (finite_key_bounds _ _ Vy) as By);
    f_equal; symmetry.
  all: try solve [ try destruct sx; try destruct sy;
    first [ reflexivity | apply Z.compare_eq_iff; lia
          | apply Z.compare_lt_iff; lia | apply Z.compare_gt_iff; lia ] ].
  destruct sx, sy.
  - rewrite Z.compare_opp, (Z.compare_antisym (_ * _) (_ * _)).
    rewrite (canonical_compare _ _ _ _ Vx Vy).
    destruct (ex ?= ey); reflexivity.
  - apply Z.compare_lt_iff; lia.
  - apply Z.compare_gt_iff; lia.
  - apply canonical_compare; assumption.
Qed.

Lemma ltb_fkey x y :
  F64.isNaN x = false -> F64.isNaN y = false ->
  PrimFloat.ltb x y = (fkey x <? fkey y).
Proof.
  intros Hx Hy. apply isNaN_false_iff in Hx, Hy.
  rewrite FloatAxioms.ltb_spec. unfold SFltb, fkey, Z.ltb.
  rewrite (SFcompare_key _ _ (Prim2SF_valid x) (Prim2SF_valid y) Hx Hy).
  reflexivity.
Qed.

Lemma leb_fkey x y :
  F64.isNaN x = false -> F64.isNaN y = false ->
  PrimFloat.leb x y = (fkey x <=? fkey y).
Proof.
  intros Hx Hy. apply isNaN_false_iff in Hx, Hy.
  rewrite FloatAxioms.leb_spec. unfold SFleb, fkey, Z.leb.
  rewrite (SFcompare_key _ _ (Prim2SF_valid x) (Prim2SF_valid y) Hx Hy).
  destruct (_ ?= _); reflexivity.
Qed.

Lemma shl_align_fst m e ez :
  ez <= e -> Zpos (fst (shl_align m e ez)) = Zpos m * 2 ^ (e - ez).
Proof.
  intros H. unfold shl_align. destruct (ez - e) as [|d|d] eqn:Hd; try lia; cbn [fst].
  - replace (e - ez) with 0 by lia. lia.
  - rewrite shift_pos_pow2. f_equal. f_equal. lia.
Qed.

(** The sign of a difference is that of the comparison: [a - b > 0]
    exactly when [b < a], for all values but NaN. *)
Lemma sub_positive x y :
  F64.isNaN x = false -> F64.isNaN y = false ->
  PrimFloat.ltb 0 (PrimFloat.sub x y) = PrimFloat.ltb y x.
Proof.
  intros Hx Hy. rewrite (ltb_fkey y x Hy Hx).
  apply isNaN_false_iff in Hx, Hy.
  rewrite FloatAxioms.ltb_spec, FloatAxioms.sub_spec. unfold fkey.
  pose proof (Prim2SF_valid x) as Vx. pose proof (Prim2SF_valid y) as Vy.
  change (Prim2SF 0) with (S754_zero false).
  assert (HX : 0 < 2 ^ 2100) by (apply pow2_pos; lia).
  destruct (Prim2SF x) as [sx|sx| |sx mx ex], (Prim2SF y) as [sy|sy| |sy my ey];
    try congruence; cbn [SpecFloat.valid_binary] in *;
    try (pose proof (finite_key_bounds _ _ Vx) as Bx);
    try (pose proof (finite_key_bounds _ _ Vy) as By);
    cbn [SFsub key].
  all: try solve [ try destruct sx; try destruct sy;
    cbn [SFltb SFcompare negb];
    first [ reflexivity | symmetry; apply Z.ltb_lt; lia
          | symmetry; apply Z.ltb_ge; lia ] ].
  pose proof (bounded_inv _ _ Vx) as (Hex & _).
  pose proof (bounded_inv _ _ Vy) as (Hey & _).
  unfold SF64sub. cbn [SFsub].
  match goal with
  | |- context [binary_normalize _ _ ?dd ?z _] => set (d := dd); set (ez := z)
  end.
  assert (Hez : ez = Z.min ex ey) by reflexivity.
  assert (Hd0 : d = SpecFloat.cond_Zopp sx (Zpos (fst (shl_align mx ex ez)))
                    - SpecFloat.cond_Zopp sy (Zpos (fst (shl_align my ey ez))))
    by reflexivity.
  clearbody d ez.
  pose proof (shl_align_fst mx ex ez ltac:(lia)) as Ax.
  pose proof (shl_align_fst my ey ez ltac:(lia)) as Ay.
  set (a := Zpos (fst (shl_align mx ex ez))) in *.
  set (b := Zpos (fst (shl_align my ey ez))) in *.
  pose proof (pow2_pos (ez + 1074) ltac:(lia)) as Pz.
  assert (Kx : Zpos mx * 2 ^ (ex + 1074) = a * 2 ^ (ez + 1074)).
  { rewrite Ax, <- Z.mul_assoc, <- pow2_add by lia. f_equal. f_equal. lia. }
  assert (Ky : Zpos my * 2 ^ (ey + 1074) = b * 2 ^ (ez + 1074)).
  { rewrite Ay, <- Z.mul_assoc, <- pow2_add by lia. f_equal. f_equal. lia. }
  rewrite Kx, Ky. clear Kx Ky Ax Ay Bx By.
  assert (Ha : 0 < a) by (unfold a; lia). assert (Hb : 0 < b) by (unfold b; lia).
  clearbody a b.
  assert (Hd : (0 < d <-> (if sy then - (b * 2 ^ (ez + 1074)) else b * 2 ^ (ez + 1074))
                        < (if sx then - (a * 2 ^ (ez + 1074)) else a * 2 ^ (ez + 1074)))).
  { rewrite Hd0. destruct sx, sy; cbn [SpecFloat.cond_Zopp]; nia. }
  clear Hd0. unfold binary_normalize. destruct d as [|p|p].
  - cbn [SFltb SFcompare]. symmetry. apply Z.ltb_ge. lia.
  - destruct (binary_round_cases false p ez ltac:(lia)) as [->|(q & e2 & ->)];
      cbn [SFltb SFcompare]; symmetry; apply Z.ltb_lt; apply Hd; lia.
  - destruct (binary_round_cases true p ez ltac:(lia)) as [->|(q & e2 & ->)];
      cbn [SFltb SFcompare]; symmetry; apply Z.ltb_ge; lia.
Qed.


Lemma normal_form p :
  D p <= 53 -> exists q, Zpos q = Zpos p * 2 ^ (53 - D p).
Proof.
  intros H. pose proof (pow2_pos (53 - D p) ltac:(lia)).
  destruct (Zpos p * 2 ^ (53 - D p)) as [|q|q] eqn:E; try lia. now exists q.
Qed.

Lemma ofZ_represents n : 0 <= n < 2 ^ 53 -> represents (F64.ofZ n) n.
Proof.
  intros Hn. unfold F64.ofZ. destruct (Z.ltb_spec n 0); [lia|].
  unfold represents. destruct n as [|p|p]; try lia.
  - reflexivity.
  - pose proof (D_lt_pow2 p 53 ltac:(lia)) as HD. split; [exact HD|].
    destruct (normal_form p HD) as [q Hq]. exists q. split; [exact Hq|].
    rewrite FloatAxioms.of_uint63_spec, Uint63.of_Z_spec.
    rewrite Z.mod_small by (change wB with (2 ^ 63); change (2 ^ 53) with 9007199254740992 in Hn;
                            change (2 ^ 63) with 9223372036854775808; lia).
    cbn [binary_normalize].
    pose proof (D_pos p).
    apply (binary_round_up false p q 0 (D p - 53)); rewrite ?fexp64; try lia.
    rewrite Hq. f_equal. f_equal. lia.
Qed.

Lemma shiftr_shiftl_pow2 a k : 0 <= k -> Z.shiftr (a * 2 ^ k) k = a.
Proof.
  intros Hk. rewrite Z.shiftr_div_pow2 by lia.
  apply Z.div_mul. pose proof (pow2_pos k Hk). lia.
Qed.

Lemma toIndex_represents x n : represents x n -> F64.toIndex x = Some n.
Proof.
  unfold represents, F64.toIndex. destruct n as [|p|p]; [intros -> | | intros []].
  - reflexivity.
  - intros (HD & q & Hq & ->).
    destruct (Z.leb_spec 0 (D p - 53)).
    + assert (HD' : D p - 53 = 0) by lia. rewrite HD'.
      replace (53 - D p) with 0 in Hq by lia. rewrite Hq. cbn. f_equal. lia.
    + replace (- (D p - 53)) with (53 - D p) by lia.
      rewrite Hq, shiftr_shiftl_pow2 by lia.
      rewrite Z.shiftl_mul_pow2 by lia. rewrite Z.eqb_refl. reflexivity.
Qed.


Lemma toIndex_floor x m e :
  Prim2SF x = S754_finite false m e -> Z.shiftl (Zpos m) e < 2 ^ 53 ->
  F64.toIndex (F64.floor x) = Some (Z.shiftl (Zpos m) e).
Proof.
  intros Hx Hb. unfold F64.floor. rewrite Hx.
  destruct (Z.ltb_spec e 0) as [He|He].
  - rewrite Z.shiftr_opp_r. apply toIndex_represents, ofZ_represents.
    split; [apply Z.shiftl_nonneg; lia | exact Hb].
  - unfold F64.toIndex. rewrite Hx.
    destruct (Z.leb_spec 0 e); [reflexivity | lia].
Qed.

Lemma div_eucl_div_mod a b : Z.div_eucl a b = (a / b, a mod b).
Proof. unfold Z.div, Z.modulo. destruct (Z.div_eucl a b); reflexivity. Qed.

(** [N / 2] is exact. *)
Lemma div_two x p :
  represents x (Zpos p) ->
  exists q, Zpos q = Zpos p * 2 ^ (53 - D p) /\
            Prim2SF (x / 2) = S754_finite false q (D p - 54).
Proof.
  intros (HD & q & Hq & Hx). exists q. split; [exact Hq|].
  pose proof (D_pos p) as Hp.
  pose proof (D_mul_pow2 p q (53 - D p) ltac:(lia) Hq) as Dq.
  replace (D p + (53 - D p)) with 53 in Dq by lia.
  rewrite FloatAxioms.div_spec, Hx.
  change (Prim2SF 2) with (S754_finite false 4503599627370496 (-51)).
  unfold SF64div. cbn [SFdiv xorb]. unfold SFdiv_core_binary.
  cbn [Zdigits2]. fold (D q). rewrite Dq.
  change (Zpos (digits2_pos 4503599627370496)) with 53.
  rewrite fexp64.
  replace (Z.min (Z.max (53 + (D p - 53) - (53 + -51) - 53) (-1074))
             (D p - 53 - -51)) with (D p - 55) by lia.
  replace (D p - 53 - -51 - (D p - 55)) with 53 by lia.
  rewrite Z.shiftl_mul_pow2 by lia.
  rewrite div_eucl_div_mod.
  change (2 ^ 53) with (2 * 4503599627370496).
  rewrite Z.mul_assoc, Z.div_mul, Z.mod_mul by lia.
  change (new_location 4503599627370496 0) with loc_Exact.
  replace (S754_finite false q (D p - 54))
    with (S754_finite false q (D p - 55 + 1)) by (f_equal; lia).
  replace (Zpos q * 2) with (Zpos (q~0)) by lia.
  assert (D2 : D (q~0) = 54).
  { rewrite (D_mul_pow2 q (q~0) 1); [lia | lia |]. change (2 ^ 1) with 2. lia. }
  apply bra_exact; rewrite ?fexp64, ?D2; try lia.
Qed.


Lemma shiftl_neg a n : n <= 0 -> Z.shiftl a n = a / 2 ^ (- n).
Proof.
  intros Hn. rewrite <- Z.shiftr_opp_r. apply Z.shiftr_div_pow2. lia.
Qed.

Lemma medianIndex_float n :
  0 < n < 2 ^ 53 ->
  F64.toIndex (F64.floor (F64.ofZ n / 2)) = Some (n / 2).
Proof.
  intros Hn. pose proof (ofZ_represents n ltac:(lia)) as Hr.
  destruct n as [|p|p]; try lia.
  destruct (div_two _ _ Hr) as (q & Hq & Hd).
  destruct Hr as (HD & _). pose proof (D_pos p) as Hp.
  assert (Hs : Z.shiftl (Zpos q) (D p - 54) = Zpos p / 2).
  { rewrite shiftl_neg by lia. rewrite Hq.
    replace (- (D p - 54)) with (1 + (53 - D p)) by lia.
    rewrite pow2_add by lia. change (2 ^ 1) with 2.
    pose proof (pow2_pos (53 - D p) ltac:(lia)).
    apply Z.div_mul_cancel_r; lia. }
  rewrite (toIndex_floor _ _ _ Hd); rewrite Hs; [reflexivity|].
  apply Z.div_lt_upper_bound; lia.
Qed.

(** [N - 1] is exact. *)
Lemma sub_one x n : represents x n -> 0 < n -> represents (x - 1) (n - 1).
Proof.
  intros Hr Hn. destruct n as [|p|p]; try lia.
  destruct Hr as (HD & q & Hq & Hx). pose proof (D_pos p) as Hp.
  assert (Hsf : Prim2SF (x - 1) =
                binary_normalize prec emax (Zpos p * 2 ^ 52 - 2 ^ 52) (-52) false).
  { rewrite FloatAxioms.sub_spec, Hx.
    change (Prim2SF 1) with (S754_finite false 4503599627370496 (-52)).
    unfold SF64sub. cbn [SFsub SpecFloat.cond_Zopp].
    replace (Z.min (D p - 53) (-52)) with (-52) by lia.
    rewrite shl_align_fst by lia.
    change (Zpos (fst (shl_align 4503599627370496 (-52) (-52)))) with (2 ^ 52).
    f_equal. f_equal. rewrite Hq, <- Z.mul_assoc, <- pow2_add by lia.
    f_equal. f_equal. lia. }
  unfold represents. destruct (Zpos p - 1) as [|p'|p'] eqn:Hp'; try lia.
  - rewrite Hsf. replace (Zpos p) with 1 by lia. reflexivity.
  - assert (HD' : D p' <= 53).
    { apply D_lt_pow2. pose proof (D_bounds p) as [_ Du].
      pose proof (pow2_le (D p) 53 ltac:(lia)). lia. }
    split; [exact HD'|]. destruct (normal_form p' HD') as [q' Hq'].
    exists q'. split; [exact Hq'|]. rewrite Hsf.
    pose proof (D_pos p') as Hpp.
    assert (Hd : exists d, Zpos d = Zpos p' * 2 ^ 52).
    { destruct (Zpos p' * 2 ^ 52) as [|d|d] eqn:E; try (cbn in E; lia).
      now exists d. }
    destruct Hd as [d Hd].
    replace (Zpos p * 2 ^ 52 - 2 ^ 52) with (Zpos d) by (rewrite Hd; lia).
    cbn [binary_normalize].
    pose proof (D_mul_pow2 p' d 52 ltac:(lia) Hd) as Dd.
    apply (binary_round_down false d q' (-52) (D p' - 53));
      rewrite ?fexp64, ?Dd; try lia.
    rewrite Hd, Hq', <- Z.mul_assoc, <- pow2_add by lia.
    f_equal. f_equal. lia.
Qed.

(** [floor (N * c)] for a constant [c = C * 2^-53] with [2^52 <= C < 2^53]:
    the floor of the exact product, or the integer just above when the
    rounding of the product reaches it. *)
Lemma mul_floor x p c C :
  represents x (Zpos p) -> Prim2SF c = S754_finite false C (-53) -> D C = 53 ->
  exists k,
    F64.toIndex (F64.floor (x * c)) = Some k /\
    Zpos p * Zpos C / 2 ^ 53 <= k <= Zpos p * (Zpos C + 2) / 2 ^ 53.
Proof.
  intros (HD & q & Hq & Hx) Hc HC. pose proof (D_pos p) as Hp.
  pose proof (D_mul_pow2 p q (53 - D p) ltac:(lia) Hq) as Dq.
  replace (D p + (53 - D p)) with 53 in Dq by lia.
  set (a := 53 - D p) in *. assert (Ha : 0 <= a) by lia.
  pose proof (pow2_pos a Ha) as Pa.
  pose proof (D_bounds q) as [Ql Qu]. rewrite Dq in Ql, Qu.
  pose proof (D_bounds C) as [Cl Cu]. rewrite HC in Cl, Cu.
  pose proof (D_bounds p) as [Pl Pu].
  change (2 ^ (53 - 1)) with 4503599627370496 in *.
  change (2 ^ 53) with 9007199254740992 in *.
  set (P := (q * C)%positive).
  assert (HP : Zpos P = Zpos q * Zpos C) by reflexivity.
  assert (HPl : 2 ^ 104 <= Zpos P).
  { change (2 ^ 104) with (4503599627370496 * 4503599627370496). rewrite HP.
    apply Z.mul_le_mono_nonneg; lia. }
  assert (HPu : Zpos P < 2 ^ 106).
  { change (2 ^ 106) with (9007199254740992 * 9007199254740992). rewrite HP.
    apply Z.mul_lt_mono_nonneg; lia. }
  pose proof (D_ge_pow2 P 104 ltac:(lia) HPl) as DPl.
  pose proof (D_lt_pow2 P 106 HPu) as DPu.
  set (n1 := D P - 53). set (e := D p - 53 + -53).
  assert (Hmul : Prim2SF (x * c) =
                 binary_round_aux prec emax false (Zpos P) e loc_Exact).
  { rewrite FloatAxioms.mul_spec, Hx, Hc. reflexivity. }
  destruct (bra_spec false (Zpos P) e loc_Exact ltac:(lia))
    as (m1r & Hr & _ & Hb).
  cbn [Zdigits2] in Hr, Hb. fold (D P) in Hr, Hb. rewrite fexp64 in Hr, Hb.
  replace (Z.max 0 (Z.max (D P + e - 53) (-1074) - e)) with n1 in Hr, Hb
    by (unfold n1, e; lia).
  assert (Hn1 : 52 <= n1 <= 53) by (unfold n1; lia).
  pose proof (pow2_pos n1 ltac:(lia)) as Pn1.
  pose proof (D_bounds P) as [PDl PDu].
  assert (Hm1l : 2 ^ 52 <= Zpos P / 2 ^ n1).
  { apply Z.div_le_lower_bound; [lia|].
    replace (D P - 1) with (n1 + 52) in PDl by (unfold n1; lia).
    rewrite pow2_add in PDl by lia. lia. }
  assert (Hm1u : Zpos P / 2 ^ n1 < 2 ^ 53).
  { apply Z.div_lt_upper_bound; [lia|].
    replace (D P) with (n1 + 53) in PDu by (unfold n1; lia).
    rewrite pow2_add in PDu by lia. lia. }
  set (e1 := e + n1) in *.
  assert (He1 : -54 <= e1 <= 0) by (unfold e1, e, n1; lia).
  assert (Hfin : exists m2 e2,
            finish_round false m1r e1 = S754_finite false m2 e2 /\
            Z.shiftl (Zpos m2) e2 = m1r / 2 ^ (- e1)).
  { change (2 ^ 52) with 4503599627370496 in Hm1l.
    change (2 ^ 53) with 9007199254740992 in Hm1u.
    destruct (Z.eq_dec m1r 9007199254740992) as [->|Hne].
    - exists 4503599627370496%positive, (e1 + 1). split.
      + unfold finish_round. cbn [Zdigits2].
        change (Zpos (digits2_pos 9007199254740992)) with 54. rewrite fexp64.
        replace (Z.max 0 (Z.max (54 + e1 - 53) (-1074) - e1)) with 1 by lia.
        change (9007199254740992 / 2 ^ 1) with 4503599627370496.
        change (emax - prec) with 971.
        destruct (Z.leb_spec (e1 + 1) 971); [reflexivity | lia].
      + destruct (Z.eq_dec e1 0) as [->|Hz]; [reflexivity|].
        rewrite shiftl_neg by lia.
        replace (- e1) with (1 + - (e1 + 1)) by lia.
        rewrite pow2_add by lia. change (2 ^ 1) with 2.
        change 9007199254740992 with (4503599627370496 * 2).
        pose proof (pow2_pos (- (e1 + 1)) ltac:(lia)).
        rewrite (Z.mul_comm 2). symmetry. apply Z.div_mul_cancel_r; lia.
    - assert (Hm : 4503599627370496 <= m1r < 9007199254740992)
        by (destruct Hr as [-> | ->]; lia).
      destruct m1r as [|m|m]; try lia. exists m, e1. split.
      + apply finish_round_exact; [|lia].
        rewrite (D_unique m 53), fexp64 by
          (change (2 ^ (53 - 1)) with 4503599627370496;
           change (2 ^ 53) with 9007199254740992; lia).
        lia.
      + apply shiftl_neg; lia. }
  destruct Hfin as (m2 & e2 & Hfin & Hsh).
  rewrite <- Hb, <- Hmul in Hfin.
  pose proof (pow2_pos (- e1) ltac:(lia)) as Pe1.
  assert (HPa : Zpos P = Zpos p * Zpos C * 2 ^ a) by (rewrite HP, Hq; lia).
  assert (Hexp : 2 ^ n1 * 2 ^ (- e1) = 2 ^ 53 * 2 ^ a).
  { rewrite <- !pow2_add by lia. f_equal. unfold e1, e, a. lia. }
  assert (Hlow : Zpos p * Zpos C / 2 ^ 53 <= m1r / 2 ^ (- e1)).
  { apply Z.le_trans with (Zpos P / 2 ^ n1 / 2 ^ (- e1)).
    - rewrite Z.div_div, Hexp, HPa by lia.
      rewrite Z.div_mul_cancel_r by lia. lia.
    - apply Z.div_le_mono; [lia|]. destruct Hr as [-> | ->]; lia. }
  assert (Hup : m1r / 2 ^ (- e1) <= Zpos p * (Zpos C + 2) / 2 ^ 53).
  { apply Z.div_le_lower_bound; [change (2 ^ 53) with 9007199254740992; lia|].
    set (k := m1r / 2 ^ (- e1)).
    assert (Hk : k * 2 ^ (- e1) <= m1r)
      by (unfold k; rewrite Z.mul_comm; apply Z.mul_div_le; lia).
    assert (Hm1 : m1r * 2 ^ n1 <= Zpos P + 2 ^ n1).
    { pose proof (Z.mul_div_le (Zpos P) (2 ^ n1) ltac:(lia)).
      destruct Hr as [-> | ->]; lia. }
    assert (Hn1p : 2 ^ n1 <= 2 * Zpos p * 2 ^ a).
    { apply Z.le_trans with (2 ^ 53); [apply pow2_le; lia|].
      replace 53 with (1 + (D p - 1) + a) by (unfold a; lia).
      rewrite !pow2_add by lia. change (2 ^ 1) with 2.
      apply Z.mul_le_mono_nonneg_r; lia. }
    assert (Hall : k * (2 ^ 53 * 2 ^ a) <= (Zpos p * (Zpos C + 2)) * 2 ^ a).
    { rewrite <- Hexp.
      apply Z.le_trans with (m1r * 2 ^ n1).
      - replace (k * (2 ^ n1 * 2 ^ (- e1))) with (k * 2 ^ (- e1) * 2 ^ n1) by lia.
        apply Z.mul_le_mono_nonneg_r; lia.
      - lia. }
    replace (k * (2 ^ 53 * 2 ^ a)) with (2 ^ 53 * k * 2 ^ a) in Hall by lia.
    apply Z.mul_le_mono_pos_r in Hall; lia. }
  exists (m1r / 2 ^ (- e1)). split; [|split; assumption].
  rewrite <- Hsh. apply (toIndex_floor _ _ _ Hfin). rewrite Hsh.
  apply Z.le_lt_trans with (Zpos p * (Zpos C + 2) / 2 ^ 53); [exact Hup|].
  apply Z.div_lt_upper_bound; [change (2 ^ 53) with 9007199254740992; lia|].
  change (2 ^ 53) with 9007199254740992.
  pose proof (pow2_le (D p) 53 ltac:(lia)) as H53.
  change (2 ^ 53) with 9007199254740992 in H53. nia.
Qed.


Lemma ltb_not_NaN x y : PrimFloat.ltb x y = true -> F64.isNaN x = false /\ F64.isNaN y = false.
Proof.
  rewrite FloatAxioms.ltb_spec. unfold SFltb. intros H.
  split; apply isNaN_false_iff; intros E; rewrite E in H.
  - discriminate.
  - destruct (Prim2SF x); discriminate.
Qed.

Lemma finish_round_key m1r e1 :
  0 <= m1r -> -1074 <= e1 -> Zdigits2 m1r <= 54 -> e1 <= 0 ->
  finish_round false m1r e1 <> S754_nan /\
  key (finish_round false m1r e1) <= m1r * 2 ^ (e1 + 1074).
Proof.
  intros Hm He Hd He0. unfold finish_round. rewrite fexp64.
  set (n2 := Z.max 0 _). assert (Hn2 : 0 <= n2 <= 1) by (unfold n2; lia).
  pose proof (pow2_pos n2 ltac:(lia)) as Pn.
  pose proof (pow2_pos (e1 + 1074) ltac:(lia)) as Pe.
  pose proof (Z.mul_div_le m1r (2 ^ n2) Pn) as Hle.
  assert (Hq : 0 <= m1r / 2 ^ n2) by (apply Z.div_pos; lia).
  destruct (m1r / 2 ^ n2) as [|q|q] eqn:Eq; try lia.
  - split; [discriminate|]. cbn [key]. apply Z.mul_nonneg_nonneg; lia.
  - change (emax - prec) with 971.
    destruct (Z.leb_spec (e1 + n2) 971); [|lia].
    split; [discriminate|]. cbn [key].
    replace (e1 + n2 + 1074) with (n2 + (e1 + 1074)) by lia.
    rewrite pow2_add, Z.mul_assoc by lia.
    apply Z.mul_le_mono_nonneg_r; lia.
Qed.

Lemma Zdigits2_le m k : 0 <= m < 2 ^ k -> 0 <= k -> Zdigits2 m <= k.
Proof.
  intros Hm Hk. destruct m as [|p|p]; cbn [Zdigits2]; try lia.
  fold (D p). apply D_lt_pow2. lia.
Qed.

(** A quotient above one has its numerator above its denominator. *)
Lemma div_above_one j w :
  PrimFloat.ltb 0 w = true -> PrimFloat.ltb 1 (j / w) = true ->
  PrimFloat.ltb w j = true.
Proof.
  intros Hw H1.
  destruct (ltb_not_NaN _ _ Hw) as [_ Nw].
  destruct (ltb_not_NaN _ _ H1) as [_ Nq].
  assert (Nj : F64.isNaN j = false).
  { apply isNaN_false_iff. intros E. apply isNaN_false_iff in Nq. apply Nq.
    rewrite FloatAxioms.div_spec, E. reflexivity. }
  rewrite (ltb_fkey _ _ Nw Nj).
  rewrite (ltb_fkey 1 _ eq_refl Nq) in H1. apply Z.ltb_lt in H1.
  rewrite (ltb_fkey 0 _ eq_refl Nw) in Hw. apply Z.ltb_lt in Hw.
  apply Z.ltb_lt. apply Z.nle_gt. intros Hle.
  apply isNaN_false_iff in Nq.
  unfold fkey in *. rewrite FloatAxioms.div_spec in H1, Nq.
  change (Prim2SF 1) with (S754_finite false 4503599627370496 (-52)) in H1.
  change (Prim2SF 0) with (S754_zero false) in Hw.
  assert (HX : 0 < 2 ^ 2100) by (apply pow2_pos; lia).
  assert (K1 : key (S754_finite false 4503599627370496 (-52)) = 2 ^ 1074)
    by reflexivity.
  rewrite K1 in H1. pose proof (pow2_pos 1074 ltac:(lia)) as P1074.
  pose proof (Prim2SF_valid j) as Vj. pose proof (Prim2SF_valid w) as Vw.
  unfold SF64div in *.
  destruct (Prim2SF w) as [sw|sw| |sw mw ew]; cbn [key] in Hw, Hle;
    [lia | | lia |].
  { destruct sw; [lia|].
    destruct (Prim2SF j) as [sj|sj| |sj mj ej]; cbn [SFdiv key] in *; try lia;
      try congruence. }
  destruct sw; [pose proof (finite_key_bounds _ _ Vw); lia|].
  destruct (Prim2SF j) as [sj|sj| |sj mj ej]; cbn [SFdiv key] in *; try lia.
  { pose proof (finite_key_bounds _ _ Vw). destruct sj; cbn [xorb key] in *; lia. }
  cbn [SpecFloat.valid_binary] in Vj, Vw.
  pose proof (finite_key_bounds _ _ Vj) as Bj.
  pose proof (finite_key_bounds _ _ Vw) as Bw.
  pose proof (bounded_inv _ _ Vj) as (Hej & Dj & _).
  pose proof (bounded_inv _ _ Vw) as (Hew & Dw & _).
  unfold SFdiv_core_binary in *. cbn [Zdigits2] in *. fold (D mj) (D mw) in *.
  rewrite fexp64 in *.
  set (e' := Z.min (Z.max (D mj + ej - (D mw + ew) - 53) (-1074)) (ej - ew)) in *.
  set (s := ej - ew - e') in *.
  assert (Hs : 0 <= s) by (unfold s, e'; lia).
  set (m' := match s with Z0 => Zpos mj | Zpos _ => Z.shiftl (Zpos mj) s | Zneg _ => 0 end) in *.
  assert (Hm' : m' = Zpos mj * 2 ^ s).
  { unfold m'. clearbody s. destruct s as [|ps|ps]; try lia.
    apply Z.shiftl_mul_pow2. lia. }
  clearbody m'.
  rewrite div_eucl_div_mod in *.
  destruct sj.
  { (* a negative numerator *)
    cbn [xorb] in *.
    assert (Hq0 : 0 <= m' / Zpos mw).
    { apply Z.div_pos; [|lia]. rewrite Hm'. pose proof (pow2_pos s Hs). lia. }
    destruct (bra_cases true (m' / Zpos mw) e'
                (new_location (Zpos mw) (m' mod Zpos mw)) Hq0)
      as [E|[E|(q & e2 & E)]]; rewrite E in H1; cbn [key] in H1; lia. }
  cbn [xorb] in *.
  (* both positive, and j <= w *)
  pose proof (D_bounds mj) as [Jl Ju]. pose proof (D_bounds mw) as [Wl Wu].
  pose proof (D_pos mj) as Pj. pose proof (D_pos mw) as Pw.
  assert (Hdig : D mj + ej <= D mw + ew).
  { destruct (Z.le_gt_cases (D mj + ej) (D mw + ew)) as [|Hgt]; [assumption|].
    exfalso.
    pose proof (pow2_pos (ej + 1074) ltac:(lia)) as Pej.
    pose proof (pow2_pos (ew + 1074) ltac:(lia)) as Pew.
    assert (A1 : 2 ^ (D mj - 1) * 2 ^ (ej + 1074) <= Zpos mj * 2 ^ (ej + 1074))
      by (apply Z.mul_le_mono_nonneg_r; lia).
    assert (A2 : Zpos mw * 2 ^ (ew + 1074) < 2 ^ D mw * 2 ^ (ew + 1074))
      by (apply Z.mul_lt_mono_pos_r; lia).
    rewrite <- pow2_add in A1, A2 by lia.
    pose proof (pow2_le (D mw + (ew + 1074)) (D mj - 1 + (ej + 1074))
                  ltac:(lia)).
    lia. }
  assert (He' : e' <= -53) by (unfold e'; lia).
  set (E := - e') in *.
  assert (HE : 53 <= E) by (unfold E; lia).
  assert (He'E : e' = - E) by (unfold E; lia).
  pose proof (pow2_pos E ltac:(lia)) as PE.
  pose proof (pow2_pos s Hs) as Ps.
  assert (Hm'le : m' <= Zpos mw * 2 ^ E).
  { rewrite Hm'.
    pose proof (pow2_pos (ew + 1074) ltac:(lia)) as Pew.
    apply Z.mul_le_mono_pos_r with (p := 2 ^ (ew + 1074)); [lia|].
    replace (Zpos mj * 2 ^ s * 2 ^ (ew + 1074))
      with (Zpos mj * 2 ^ (ej + 1074) * 2 ^ E).
    - replace (Zpos mw * 2 ^ E * 2 ^ (ew + 1074))
        with (Zpos mw * 2 ^ (ew + 1074) * 2 ^ E) by lia.
      apply Z.mul_le_mono_nonneg_r; lia.
    - rewrite <- !Z.mul_assoc, <- !pow2_add by lia. f_equal. f_equal.
      unfold s, E. lia. }
  set (q := m' / Zpos mw) in *. set (r := m' mod Zpos mw) in *.
  assert (Hqr : m' = Zpos mw * q + r /\ 0 <= r < Zpos mw).
  { unfold q, r. split; [apply Z.div_mod; lia | apply Z.mod_pos_bound; lia]. }
  assert (Hq0 : 0 <= q) by (apply Z.div_pos; lia).
  assert (Hq : q <= 2 ^ E) by (destruct Hqr; nia).
  assert (Hr : q = 2 ^ E -> r = 0) by (destruct Hqr; nia).
  destruct (bra_spec false q e' (new_location (Zpos mw) r) Hq0)
    as (m1r & Hr1 & Hex & Hb).
  rewrite fexp64 in Hr1, Hex, Hb.
  set (n1 := Z.max 0 (Z.max (Zdigits2 q + e' - 53) (-1074) - e')) in *.
  assert (Hdq : Zdigits2 q <= E + 1).
  { apply Zdigits2_le; [|lia]. rewrite pow2_succ by lia. lia. }
  assert (Hdq' : 0 <= Zdigits2 q) by (destruct q; cbn; lia).
  assert (Hn1 : 0 <= n1 <= E) by (unfold n1; lia).
  assert (Hn1l : E - 1074 <= n1) by (unfold n1; lia).
  pose proof (pow2_pos n1 ltac:(lia)) as Pn1.
  pose proof (pow2_pos (E - n1) ltac:(lia)) as PEn.
  assert (HEsplit : 2 ^ E = 2 ^ n1 * 2 ^ (E - n1))
    by (rewrite <- pow2_add by lia; f_equal; lia).
  assert (Hq53 : q / 2 ^ n1 < 2 ^ 53).
  { destruct q as [|pq|pq]; try lia.
    - rewrite Z.div_0_l by lia. apply pow2_pos; lia.
    - cbn [Zdigits2] in *. fold (D pq) in *.
      pose proof (D_bounds pq) as [_ Qu].
      apply Z.div_lt_upper_bound; [lia|].
      rewrite <- pow2_add by lia.
      apply Z.lt_le_trans with (2 ^ D pq); [lia|].
      apply pow2_le. pose proof (D_pos pq). unfold n1. lia. }
  assert (Hm1r : 0 <= m1r <= 2 ^ (E - n1) /\ m1r <= 2 ^ 53).
  { assert (0 <= q / 2 ^ n1) by (apply Z.div_pos; lia).
    destruct (Z.eq_dec q (2 ^ E)) as [Hqe|Hqne].
    - assert (Hm : m1r = q / 2 ^ n1).
      { apply Hex.
        - rewrite (Hr Hqe). unfold new_location.
          destruct (Z.even (Zpos mw)); reflexivity.
        - rewrite Hqe, HEsplit, Z.mul_comm. apply Z.mod_mul. lia. }
      rewrite Hm. split; [|lia]. split; [lia|].
      rewrite Hqe, HEsplit, Z.mul_comm, Z.div_mul by lia. lia.
    - assert (q / 2 ^ n1 < 2 ^ (E - n1))
        by (apply Z.div_lt_upper_bound; lia).
      destruct Hr1 as [-> | ->]; lia. }
  destruct Hm1r as [Hm1r Hm53].
  destruct (finish_round_key m1r (e' + n1)) as [_ Hkey]; try lia.
  { apply Zdigits2_le; [|lia]. change (2 ^ 54) with (2 * 2 ^ 53). lia. }
  rewrite <- Hb in Hkey.
  assert (m1r * 2 ^ (e' + n1 + 1074) <= 2 ^ 1074); [|lia].
  assert (H1074 : 2 ^ 1074 = 2 ^ (E - n1) * 2 ^ (e' + n1 + 1074))
    by (rewrite <- pow2_add by lia; f_equal; lia).
  rewrite H1074.
  apply Z.mul_le_mono_nonneg_r; [|lia].
  apply Z.lt_le_incl, pow2_pos. lia.
Qed.

End Rounding.

(** ** Signs in binary64 *)

Section Signs.

Import Binary64.

Lemma notNegative_iff (x : float) :
  notNegative x <-> nonnegative (Prim2SF x).
Proof.
  unfold notNegative. rewrite isNaN_iff, FloatAxioms.leb_spec.
  change (Prim2SF 0) with (S754_zero false).
  destruct (Prim2SF x) as [s|s| |s m e]; cbn; split; auto; try tauto.
  - intros [H|H]; [discriminate | now destruct s].
  - intros ->. now right.
  - intros [H|H]; [discriminate | now destruct s].
  - intros ->. now right.
Qed.

Lemma bra_sign (s : bool) (mx e : Z) (l : location) :
  (0 <= mx)%Z ->
  binary_round_aux prec emax s mx e l <> S754_nan /\
  signOf (binary_round_aux prec emax s mx e l) = s.
Proof.
  intros H. destruct (bra_cases s mx e l H) as [-> | [-> | (q & e2 & ->)]];
    split; first [discriminate | reflexivity].
Qed.

Lemma binary_normalize_sign (m e : Z) :
  binary_normalize prec emax m e false <> S754_nan /\
  signOf (binary_normalize prec emax m e false) = (m <? 0)%Z.
Proof.
  unfold binary_normalize, binary_round.
  destruct m as [|p|p]; [split; [discriminate | reflexivity] | |];
    destruct (shl_align p e _) as [mz ez]; apply bra_sign; lia.
Qed.

Lemma SFmul_sign (x y : spec_float) :
  SFmul prec emax x y = S754_nan \/
  signOf (SFmul prec emax x y) = xorb (signOf x) (signOf y).
Proof.
  destruct x as [sx|sx| |sx mx ex], y as [sy|sy| |sy my ey]; cbn [SFmul signOf];
    auto.
  right. apply bra_sign. lia.
Qed.

Lemma nonnegative_sign (x : spec_float) :
  x = S754_nan \/ signOf x = false -> nonnegative x.
Proof. destruct x; cbn; intros [H|H]; auto; discriminate. Qed.

Lemma SFadd_nonnegative (x y : spec_float) :
  nonnegative x -> nonnegative y -> nonnegative (SFadd prec emax x y).
Proof.
  destruct x as [sx|sx| |sx mx ex], y as [sy|sy| |sy my ey];
    cbn [SFadd nonnegative]; intros Hx Hy; subst; auto;
    try (destruct sx, sy; exact I); try (destruct sx; exact I);
    try (destruct sy; exact I).
  all: try exact eq_refl.
  apply nonnegative_sign. right.
  rewrite (proj2 (binary_normalize_sign _ _)). cbn [SpecFloat.cond_Zopp].
  apply Z.ltb_ge. lia.
Qed.

Lemma SFsqrt_nonnegative (x : spec_float) : nonnegative (SFsqrt prec emax x).
Proof.
  destruct x as [s|s| |s m e]; cbn [SFsqrt nonnegative]; auto.
  - now destruct s.
  - destruct s; [exact I|]. unfold SFsqrt_core_binary.
    set (m' := match _ with Z0 => Zpos m | Zpos _ => _ | Zneg _ => 0%Z end).
    assert (Hm' : (0 <= m')%Z).
    { unfold m'. destruct (_ - _)%Z; try lia. apply Z.shiftl_nonneg. lia. }
    pose proof (Z.sqrtrem_spec m' Hm') as Hs.
    destruct (Z.sqrtrem m') as [q r].
    apply nonnegative_sign. right. apply bra_sign. lia.
Qed.

Lemma add_notNegative (x y : float) :
  notNegative x -> notNegative y -> notNegative (PrimFloat.add x y).
Proof.
  rewrite !notNegative_iff, FloatAxioms.add_spec. apply SFadd_nonnegative.
Qed.

Lemma sqrt_notNegative (x : float) : notNegative (PrimFloat.sqrt x).
Proof. rewrite notNegative_iff, FloatAxioms.sqrt_spec. apply SFsqrt_nonnegative. Qed.

(** [(c * t) * t] for a positive constant [c]. *)
Lemma scaled_square_notNegative (c t : float) :
  Prim2SF c <> S754_nan -> signOf (Prim2SF c) = false ->
  notNegative (PrimFloat.mul (PrimFloat.mul c t) t).
Proof.
  intros Hn Hc. rewrite notNegative_iff, !FloatAxioms.mul_spec.
  apply nonnegative_sign. unfold SF64mul.
  destruct (SFmul_sign (SFmul prec emax (Prim2SF c) (Prim2SF t)) (Prim2SF t))
    as [H | H]; [now left|].
  destruct (SFmul_sign (Prim2SF c) (Prim2SF t)) as [H1 | H1].
  - left. rewrite H1. reflexivity.
  - right. rewrite H, H1, Hc. now destruct (signOf (Prim2SF t)).
Qed.

Lemma square_notNegative (t : float) : notNegative (PrimFloat.mul t t).
Proof.
  rewrite notNegative_iff, FloatAxioms.mul_spec. apply nonnegative_sign.
  destruct (SFmul_sign (Prim2SF t) (Prim2SF t)) as [H | H]; [now left|].
  right. unfold SF64mul. rewrite H. now destruct (signOf (Prim2SF t)).
Qed.

End Signs.

(** ** The statistics in binary64 *)

Section FloatStatistics.

Import Binary64.

Local Abbreviation sortF := (sort (N:=FloatNumber)).
Local Abbreviation insertF := (insert (N:=FloatNumber)).
Local Abbreviation leF := (fun a b : float => PrimFloat.leb a b = true).

(** *** The sort *)

Lemma insert_step (a b : float) (l : list float) :
  F64.isNaN a = false -> F64.isNaN b = false ->
  insertF a (b :: l) =
    if PrimFloat.ltb b a then b :: insertF a l else a :: b :: l.
Proof.
  intros Ha Hb. cbn [insert].
  change (@isPositive FloatNumber (@sub FloatNumber a b))
    with (PrimFloat.ltb 0 (PrimFloat.sub a b)).
  now rewrite sub_positive.
Qed.

Lemma leb_total (a b : float) :
  F64.isNaN a = false -> F64.isNaN b = false ->
  PrimFloat.ltb b a = false -> PrimFloat.leb a b = true.
Proof.
  intros Ha Hb H. rewrite (ltb_fkey _ _ Hb Ha) in H.
  rewrite (leb_fkey _ _ Ha Hb). apply Z.ltb_ge in H. now apply Z.leb_le.
Qed.

Lemma ltb_leb (a b : float) : PrimFloat.ltb a b = true -> PrimFloat.leb a b = true.
Proof.
  intros H. destruct (ltb_not_NaN _ _ H) as [Ha Hb].
  rewrite (ltb_fkey _ _ Ha Hb) in H. rewrite (leb_fkey _ _ Ha Hb).
  apply Z.ltb_lt in H. apply Z.leb_le. lia.
Qed.

Lemma leb_trans (a b c : float) :
  PrimFloat.leb a b = true -> PrimFloat.leb b c = true ->
  PrimFloat.leb a c = true.
Proof.
  intros Hab Hbc.
  assert (Ha : F64.isNaN a = false)
    by (destruct (F64.isNaN a) eqn:E; [|reflexivity];
        rewrite (leb_NaN a b (or_introl E)) in Hab; discriminate).
  assert (Hb : F64.isNaN b = false)
    by (destruct (F64.isNaN b) eqn:E; [|reflexivity];
        rewrite (leb_NaN a b (or_intror E)) in Hab; discriminate).
  assert (Hc : F64.isNaN c = false)
    by (destruct (F64.isNaN c) eqn:E; [|reflexivity];
        rewrite (leb_NaN b c (or_intror E)) in Hbc; discriminate).
  rewrite (leb_fkey _ _ Ha Hb) in Hab. rewrite (leb_fkey _ _ Hb Hc) in Hbc.
  rewrite (leb_fkey _ _ Ha Hc).
  apply Z.leb_le in Hab, Hbc. apply Z.leb_le. lia.
Qed.

Lemma leb_refl (a : float) : F64.isNaN a = false -> PrimFloat.leb a a = true.
Proof. intros Ha. rewrite (leb_fkey _ _ Ha Ha). apply Z.leb_refl. Qed.

Lemma noNaN_perm (l l' : list float) :
  Permutation l l' -> noNaN l -> noNaN l'.
Proof. unfold noNaN. intros P H. exact (Permutation_Forall P H). Qed.

Lemma insert_ascending (a : float) (l : list float) :
  F64.isNaN a = false -> noNaN l -> ascending l -> ascending (insertF a l).
Proof.
  unfold ascending, noNaN. intros Ha Hn Hs.
  induction l as [|b l IH].
  - repeat constructor.
  - inversion Hn as [|? ? Hb Hn']; subst. inversion Hs as [|? ? Hs' Hall]; subst.
    rewrite (insert_step _ _ _ Ha Hb).
    destruct (PrimFloat.ltb b a) eqn:Hlt.
    + constructor; [now apply IH|].
      apply (Permutation_Forall
               (Permutation_sym (insert_perm (N:=FloatNumber) a l))).
      constructor; [now apply ltb_leb | exact Hall].
    + pose proof (leb_total _ _ Ha Hb Hlt) as Hab.
      constructor; [exact Hs|]. constructor; [exact Hab|].
      eapply Forall_impl; [|exact Hall]. intros c Hc. cbv beta in *.
      now apply leb_trans with b.
Qed.

Lemma sort_ascending (l : list float) : noNaN l -> ascending (sortF l).
Proof.
  intros Hn. induction l as [|a l IH]; [constructor|].
  inversion Hn as [|? ? Ha Hn']; subst. cbn [sort].
  apply insert_ascending; [exact Ha | | now apply IH].
  exact (noNaN_perm _ _ (Permutation_sym (sort_perm (N:=FloatNumber) l)) Hn').
Qed.

Lemma nth_error_noNaN (l : list float) (i : nat) (x : float) :
  noNaN l -> nth_error l i = Some x -> F64.isNaN x = false.
Proof.
  unfold noNaN. rewrite Forall_forall. intros H E. apply H.
  eapply nth_error_In, E.
Qed.

Lemma ascending_nth (l : list float) :
  noNaN l -> ascending l ->
  forall (i j : nat) (x y : float),
    i <= j -> nth_error l i = Some x -> nth_error l j = Some y ->
    PrimFloat.leb x y = true.
Proof.
  unfold ascending. intros Hn Hs.
  induction Hs as [|a l Hs IH Hall]; intros i j x y Hij Hx Hy.
  - destruct i; discriminate.
  - inversion Hn as [|? ? Ha Hn']; subst.
    destruct i as [|i], j as [|j]; cbn [nth_error] in Hx, Hy.
    + injection Hx as <-. injection Hy as <-. now apply leb_refl.
    + injection Hx as <-. rewrite Forall_forall in Hall.
      apply Hall. eapply nth_error_In, Hy.
    + lia.
    + apply (IH Hn' i j); [lia | assumption | assumption].
Qed.

(** *** The indices *)

Lemma ofLength_represents (n : nat) :
  (Z.of_nat n < 2 ^ 53)%Z -> represents (ofLength (JSNumber:=FloatNumber) n) (Z.of_nat n).
Proof. intros H. apply ofZ_represents. lia. Qed.

Lemma zeroIndex_binary64 : toIndex (zero (JSNumber:=FloatNumber)) = Some 0%Z.
Proof. reflexivity. Qed.

Lemma medianIndex_binary64 (n : nat) :
  0 < n -> (Z.of_nat n < 2 ^ 53)%Z ->
  toIndex (medianIndex (N:=FloatNumber) n) = Some (Z.of_nat (n / 2)).
Proof.
  intros Hn Hb. rewrite Nat2Z.inj_div.
  apply (medianIndex_float (Z.of_nat n)). lia.
Qed.

Lemma lastIndex_binary64 (n : nat) :
  0 < n -> (Z.of_nat n < 2 ^ 53)%Z ->
  toIndex (sub (ofLength (JSNumber:=FloatNumber) n) one) = Some (Z.of_nat (n - 1)).
Proof.
  intros Hn Hb. rewrite Nat2Z.inj_sub by lia.
  apply toIndex_represents.
  apply (sub_one _ _ (ofLength_represents n Hb)). lia.
Qed.

(** The mantissas of the literals [0.95] and [0.99], in units of [2^-53]. *)
Lemma c0_95_mantissa :
  Prim2SF 0.95 = S754_finite false 8556839292003942 (-53).
Proof. reflexivity. Qed.

Lemma c0_99_mantissa :
  Prim2SF 0.99 = S754_finite false 8917127262193582 (-53).
Proof. reflexivity. Qed.

Lemma percentileIndex_binary64 (n : nat) (c : float) (C : positive) :
  0 < n -> (Z.of_nat n < 2 ^ 53)%Z ->
  Prim2SF c = S754_finite false C (-53) -> D C = 53%Z ->
  exists k : nat,
    toIndex (floor (mul (ofLength (JSNumber:=FloatNumber) n) c))
      = Some (Z.of_nat k) /\
    (Z.of_nat n * Zpos C / 2 ^ 53 <= Z.of_nat k
       <= Z.of_nat n * (Zpos C + 2) / 2 ^ 53)%Z.
Proof.
  intros Hn Hb Hc HC.
  pose proof (ofLength_represents n Hb) as Hr.
  destruct (Z.of_nat n) as [|p|p] eqn:En; try lia.
  destruct (mul_floor _ _ c C Hr Hc HC) as (k & Hk & Hl & Hu).
  assert (H0 : (0 <= k)%Z).
  { eapply Z.le_trans; [|exact Hl]. apply Z.div_pos; lia. }
  exists (Z.to_nat k). rewrite Z2Nat.id by exact H0. now repeat split.
Qed.

Lemma indices_binary64 (n : nat) :
  0 < n -> (Z.of_nat n < 2 ^ 53)%Z ->
  exists k95 k99 : nat,
    toIndex (p95Index (N:=FloatNumber) n) = Some (Z.of_nat k95) /\
    toIndex (p99Index (N:=FloatNumber) n) = Some (Z.of_nat k99) /\
    n / 2 <= k95 /\ k95 <= k99 /\ k99 < n.
Proof.
  intros Hn Hb.
  destruct (percentileIndex_binary64 n 0.95 _ Hn Hb c0_95_mantissa eq_refl)
    as (k95 & H95 & L95 & U95).
  destruct (percentileIndex_binary64 n 0.99 _ Hn Hb c0_99_mantissa eq_refl)
    as (k99 & H99 & L99 & U99).
  exists k95, k99. split; [exact H95|]. split; [exact H99|].
  change (2 ^ 53)%Z with 9007199254740992%Z in *.
  assert (Hm : (Z.of_nat n / 2 <= Z.of_nat n * 8556839292003942 / 9007199254740992)%Z).
  { apply Z.div_le_lower_bound; [lia|].
    pose proof (Z.mul_div_le (Z.of_nat n) 2 ltac:(lia)). lia. }
  assert (Hq : (Z.of_nat n * (8556839292003942 + 2) / 9007199254740992
                <= Z.of_nat n * 8917127262193582 / 9007199254740992)%Z)
    by (apply Z.div_le_mono; lia).
  assert (Hu : (Z.of_nat n * (8917127262193582 + 2) / 9007199254740992
                < Z.of_nat n)%Z)
    by (apply Z.div_lt_upper_bound; lia).
  assert (Hh : Z.of_nat (n / 2) = (Z.of_nat n / 2)%Z)
    by (rewrite Nat2Z.inj_div; reflexivity).
  repeat split; lia.
Qed.

(** What each indexed field reads, in binary64. *)
Lemma stats_fields_binary64 (S : list float) :
  S <> [] -> (Z.of_nat (length S) < 2 ^ 53)%Z ->
  exists k95 k99 : nat,
    length S / 2 <= k95 /\ k95 <= k99 /\ k99 < length S /\
    toIndex (p95Index (N:=FloatNumber) (length S)) = Some (Z.of_nat k95) /\
    toIndex (p99Index (N:=FloatNumber) (length S)) = Some (Z.of_nat k99) /\
    min (calculateStats S) = nth_error (sortF S) 0 /\
    max (calculateStats S) = nth_error (sortF S) (length S - 1) /\
    median (calculateStats S) = nth_error (sortF S) (length S / 2) /\
    p95 (calculateStats S) = nth_error (sortF S) k95 /\
    p99 (calculateStats S) = nth_error (sortF S) k99.
Proof.
  intros Hne Hb.
  assert (Hn : 0 < length S) by (destruct S; [congruence | cbn; lia]).
  pose proof (sort_length (N:=FloatNumber) S) as Hlen.
  destruct (indices_binary64 _ Hn Hb) as (k95 & k99 & I95 & I99 & Hm & H59 & H99).
  exists k95, k99.
  assert (Hhalf : length S / 2 < length S) by (apply Nat.div_lt; lia).
  do 5 (split; [assumption|]).
  cbn [min max median p95 p99 calculateStats]. rewrite !Hlen.
  repeat split; apply lookup_nth; rewrite ?Hlen;
    first [ assumption | exact zeroIndex_binary64
          | now apply medianIndex_binary64 | now apply lastIndex_binary64
          | cbn [num FloatNumber] in *; lia ].
Qed.

(** *** The order statistics *)

Lemma nth_defined {A : Type} (l : list A) (i : nat) :
  i < length l -> exists x, nth_error l i = Some x.
Proof.
  intros H. destruct (nth_error l i) as [x|] eqn:E; [now exists x|].
  apply nth_error_None in E. lia.
Qed.

Lemma sortF_length (S : list float) : length (sortF S) = length S.
Proof. exact (sort_length (N:=FloatNumber) S). Qed.

Lemma sortF_noNaN (S : list float) : noNaN S -> noNaN (sortF S).
Proof.
  apply noNaN_perm, Permutation_sym. exact (sort_perm (N:=FloatNumber) S).
Qed.

(** C3. For every non-empty series [S] (of fewer than [2^53] samples, which
    covers every JavaScript array), the median returned by [calculateStats]
    is the entry at index [floor(N/2)] of the sorted copy of [S]; the sorted
    copy is a permutation of [S], in ascending order when no sample is NaN.
    For an even [N] this is the upper one of the two middle entries (those at
    [N/2 - 1] and [N/2]), not their average: [[4, 1, 3, 2]] gives 3, not
    2.5. *)
Theorem median_is_upper_middle (S : list float) :
  S <> [] -> (Z.of_nat (length S) < 2 ^ 53)%Z ->
  median (calculateStats S) = nth_error (sortF S) (length S / 2) /\
  (exists m, median (calculateStats S) = Some m) /\
  Permutation (sortF S) S /\
  (noNaN S -> ascending (sortF S)) /\
  (Nat.even (length S) = true ->
   exists lower upper : float,
     nth_error (sortF S) (length S / 2 - 1) = Some lower /\
     nth_error (sortF S) (length S / 2) = Some upper /\
     median (calculateStats S) = Some upper /\
     (noNaN S -> PrimFloat.leb lower upper = true)) /\
  median (calculateStats [4; 1; 3; 2]%float) = Some 3%float /\
  median (calculateStats [4; 1; 3; 2]%float)
    <> Some (PrimFloat.div (PrimFloat.add 2 3) 2).
Proof.
  intros Hne Hb.
  destruct (stats_fields_binary64 S Hne Hb)
    as (k95 & k99 & _ & _ & _ & _ & _ & _ & _ & Hmed & _).
  assert (Hn : 0 < length S) by (destruct S; [congruence | cbn; lia]).
  assert (Hhalf : length S / 2 < length S) by (apply Nat.div_lt; lia).
  destruct (nth_defined (sortF S) (length S / 2)) as [upper Hu];
    [rewrite sortF_length; exact Hhalf|].
  split; [exact Hmed|]. split; [exists upper; now rewrite Hmed|].
  split; [exact (sort_perm (N:=FloatNumber) S)|].
  split; [exact (sort_ascending S)|].
  split; [|split; [reflexivity | discriminate]].
  intros Hev.
  destruct (nth_defined (sortF S) (length S / 2 - 1)) as [lower Hl];
    [rewrite sortF_length; lia|].
  exists lower, upper. split; [exact Hl|]. split; [exact Hu|].
  split; [now rewrite Hmed|].
  intros Hnan.
  apply (ascending_nth (sortF S) (sortF_noNaN S Hnan) (sort_ascending S Hnan)
           (length S / 2 - 1) (length S / 2)); [lia | exact Hl | exact Hu].
Qed.

(** C10. For every non-empty series (of fewer than [2^53] samples), the
    three indices that [calculateStats] computes in binary64,
    [Math.floor(N / 2)], [Math.floor(N * 0.95)] and [Math.floor(N * 0.99)],
    are integers below [N] (the first one is [floor(N/2)]), and so is
    [N - 1]: every access into the sorted copy is in bounds and [min], [max],
    [median], [p95] and [p99] are defined, each being an entry of the sorted
    copy.  ([mean] and [stdDev] are results of arithmetic, hence numbers.) *)
Theorem indices_in_bounds (S : list float) :
  S <> [] -> (Z.of_nat (length S) < 2 ^ 53)%Z ->
  (exists k50 k95 k99 : nat,
     toIndex (medianIndex (N:=FloatNumber) (length S)) = Some (Z.of_nat k50) /\
     toIndex (p95Index (N:=FloatNumber) (length S)) = Some (Z.of_nat k95) /\
     toIndex (p99Index (N:=FloatNumber) (length S)) = Some (Z.of_nat k99) /\
     k50 = length S / 2 /\
     k50 < length S /\ k95 < length S /\ k99 < length S /\
     median (calculateStats S) = nth_error (sortF S) k50 /\
     p95 (calculateStats S) = nth_error (sortF S) k95 /\
     p99 (calculateStats S) = nth_error (sortF S) k99) /\
  toIndex (sub (ofLength (JSNumber:=FloatNumber) (length S)) one)
    = Some (Z.of_nat (length S - 1)) /\
  min (calculateStats S) = nth_error (sortF S) 0 /\
  max (calculateStats S) = nth_error (sortF S) (length S - 1) /\
  (exists a b c d e : float,
     min (calculateStats S) = Some a /\
     max (calculateStats S) = Some b /\
     median (calculateStats S) = Some c /\
     p95 (calculateStats S) = Some d /\
     p99 (calculateStats S) = Some e).
Proof.
  intros Hne Hb.
  destruct (stats_fields_binary64 S Hne Hb)
    as (k95 & k99 & Hm & H59 & H99 & I95 & I99 & Fmin & Fmax & Fmed & F95 & F99).
  assert (Hn : 0 < length S) by (destruct S; [congruence | cbn; lia]).
  assert (Hhalf : length S / 2 < length S) by (apply Nat.div_lt; lia).
  split.
  { exists (length S / 2), k95, k99.
    split; [now apply medianIndex_binary64|].
    repeat split; first [assumption | lia]. }
  split; [now apply lastIndex_binary64|].
  split; [exact Fmin|]. split; [exact Fmax|].
  destruct (nth_defined (sortF S) 0) as [a Ha]; [rewrite sortF_length; lia|].
  destruct (nth_defined (sortF S) (length S - 1)) as [b Hb'];
    [rewrite sortF_length; lia|].
  destruct (nth_defined (sortF S) (length S / 2)) as [c Hc];
    [rewrite sortF_length; lia|].
  destruct (nth_defined (sortF S) k95) as [d Hd]; [rewrite sortF_length; lia|].
  destruct (nth_defined (sortF S) k99) as [e He]; [rewrite sortF_length; lia|].
  exists a, b, c, d, e. rewrite Fmin, Fmax, Fmed, F95, F99. now repeat split.
Qed.

(** C2, as amended.  For every non-empty series without NaN (of fewer than
    [2^53] samples), [min] and [max] are the first and the last entry of the
    sorted copy, which is in ascending order, they bound every sample, and
    [min <= median <= max].  The bound on the mean is not part of it: see
    [mean_exceeds_max_binary64]. *)
Theorem median_within_range (S : list float) :
  S <> [] -> (Z.of_nat (length S) < 2 ^ 53)%Z -> noNaN S ->
  exists mn md mx : float,
    nth_error (sortF S) 0 = Some mn /\
    nth_error (sortF S) (length S - 1) = Some mx /\
    min (calculateStats S) = Some mn /\
    max (calculateStats S) = Some mx /\
    median (calculateStats S) = Some md /\
    PrimFloat.leb mn md = true /\ PrimFloat.leb md mx = true /\
    ascending (sortF S) /\ Permutation (sortF S) S /\
    (forall x, In x S ->
       PrimFloat.leb mn x = true /\ PrimFloat.leb x mx = true).
Proof.
  intros Hne Hb Hnan.
  destruct (stats_fields_binary64 S Hne Hb)
    as (k95 & k99 & _ & _ & _ & _ & _ & Fmin & Fmax & Fmed & _ & _).
  assert (Hn : 0 < length S) by (destruct S; [congruence | cbn; lia]).
  assert (Hhalf : length S / 2 < length S) by (apply Nat.div_lt; lia).
  pose proof (sortF_noNaN S Hnan) as Hsn.
  pose proof (sort_ascending S Hnan) as Hasc.
  destruct (nth_defined (sortF S) 0) as [mn Hmn]; [rewrite sortF_length; lia|].
  destruct (nth_defined (sortF S) (length S - 1)) as [mx Hmx];
    [rewrite sortF_length; lia|].
  destruct (nth_defined (sortF S) (length S / 2)) as [md Hmd];
    [rewrite sortF_length; lia|].
  exists mn, md, mx. rewrite Fmin, Fmax, Fmed.
  do 5 (split; [assumption|]).
  split; [apply (ascending_nth _ Hsn Hasc 0 (length S / 2)); [lia|assumption..]|].
  split; [apply (ascending_nth _ Hsn Hasc (length S / 2) (length S - 1));
          [lia|assumption..]|].
  split; [exact Hasc|]. split; [exact (sort_perm (N:=FloatNumber) S)|].
  intros x Hx.
  apply (Permutation_in _ (Permutation_sym (sort_perm (N:=FloatNumber) S))) in Hx.
  destruct (In_nth_error _ _ Hx) as [i Hi].
  assert (Hil : i < length S).
  { rewrite <- sortF_length. apply nth_error_Some. now rewrite Hi. }
  split.
  - apply (ascending_nth _ Hsn Hasc 0 i); [lia | assumption | assumption].
  - apply (ascending_nth _ Hsn Hasc i (length S - 1));
      [lia | assumption | assumption].
Qed.

End FloatStatistics.

(** ** binary64 evaluations *)

(** C2, counterexample: three samples of 0.1 ms.  The sum 0 + 0.1 + 0.1 + 0.1
    rounds to 0.30000000000000004, the mean to 0.10000000000000002, above
    the maximum 0.1. *)
Lemma mean_exceeds_max_binary64 :
  ~ meanWithinRange (calculateStats (N:=FloatNumber) [0.1; 0.1; 0.1]%float).
Proof.
  intros (mn & mx & _ & Hmx & _ & Hle).
  vm_compute in Hmx. injection Hmx as <-.
  vm_compute in Hle. discriminate.
Qed.

(** ** The trial loop *)

(** Runs the two measured calls of an iteration on a host whose
    implementations return, naming their results [w] and [j]. *)
Ltac measure_both host st testData Hwasm Hjs :=
  unfold trial, bind, read, runAlgorithm;
  destruct (now host (world st)) as [t1 w1]; cbn [world setWorld];
  destruct (measureMemory host w1) as [m1 w2]; cbn [world setWorld];
  destruct (Hwasm testData w2) as (w & w3 & ->); cbn [world setWorld record];
  destruct (measureMemory host w3) as [m2 w4]; cbn [world setWorld];
  destruct (now host w4) as [t2 w5]; cbn [world setWorld];
  destruct (now host w5) as [t3 w6]; cbn [world setWorld];
  destruct (measureMemory host w6) as [m3 w7]; cbn [world setWorld];
  destruct (Hjs testData w7) as (j & w8 & ->); cbn [world setWorld record];
  destruct (measureMemory host w8) as [m4 w9]; cbn [world setWorld];
  destruct (now host w9) as [t4 w10]; cbn [world setWorld].

Section RunnerFacts.

Context {N : JSNumber}.
Variables Input Output World : Type.
Variable host : Host Input Output World.

Local Abbreviation St := (State Input Output World).

Lemma bind_Returned {A B : Type}
    (m : M Input Output World A) (k : A -> M Input Output World B)
    (st st2 : St) (b : B) :
  bind m k st = (Returned b, st2) ->
  exists a st1, m st = (Returned a, st1) /\ k a st1 = (Returned b, st2).
Proof.
  unfold bind. destruct (m st) as [[a|e] st1]; intros H.
  - now exists a, st1.
  - discriminate.
Qed.

Lemma bind_Thrown {A B : Type}
    (m : M Input Output World A) (k : A -> M Input Output World B)
    (st st1 : St) (e : JsError) :
  m st = (Thrown e, st1) -> bind m k st = (Thrown e, st1).
Proof. unfold bind. now intros ->. Qed.

Lemma bind_step {A B : Type}
    (m : M Input Output World A) (k : A -> M Input Output World B)
    (st st1 : St) (a : A) :
  m st = (Returned a, st1) -> bind m k st = k a st1.
Proof. unfold bind. now intros ->. Qed.

Lemma read_Returned {A : Type} (f : World -> A * World) (st st1 : St) (a : A) :
  read f st = (Returned a, st1) ->
  trace st1 = trace st /\ allResults st1 = allResults st.
Proof.
  unfold read. destruct (f (world st)) as [a' w]. intros H.
  injection H as _ <-. now split.
Qed.

Lemma runAlgorithm_Returned
    (impl : Input -> World -> Outcome Output * World)
    (ev : Input -> Outcome Output -> Event Input Output)
    (testData : Input) (st st1 : St) (o : Output) :
  runAlgorithm impl ev testData st = (Returned o, st1) ->
  trace st1 = trace st ++ [ev testData (Returned o)] /\
  allResults st1 = allResults st.
Proof.
  unfold runAlgorithm. destruct (impl testData (world st)) as [r w]. intros H.
  injection H as -> <-. now split.
Qed.

Lemma validate_Returned (validator : option (Validator Output)) (i : nat)
    (w j : Output) (old r : ValidationResult) (st st1 : St) :
  validate validator i w j old st = (Returned r, st1) ->
  trace st1 = trace st ++ validationEvents validator i w j /\
  allResults st1 = allResults st.
Proof.
  unfold validate, validationEvents.
  destruct validator as [v|]; [destruct (Nat.eqb i 0)|].
  - intros H. apply bind_Returned in H. destruct H as (a & st' & Hc & Hk).
    unfold callValidator in Hc. injection Hc as _ <-.
    destruct a as [vr|]; [|discriminate].
    injection Hk as _ <-. now split.
  - intros H. injection H as _ <-. now rewrite app_nil_r.
  - intros H. injection H as _ <-. now rewrite app_nil_r.
Qed.

Lemma validate_first (v : Validator Output) (w j : Output)
    (old r : ValidationResult) (st st1 : St) :
  validate (Some v) 0 w j old st = (Returned r, st1) ->
  exists vr, v w j = Returned (Some vr) /\ r = updated old vr.
Proof.
  cbn [validate Nat.eqb]. intros H.
  apply bind_Returned in H. destruct H as (a & st' & Hc & Hk).
  unfold callValidator in Hc. injection Hc as Hc _.
  destruct a as [vr|]; [|discriminate].
  injection Hk as <- _. now exists vr.
Qed.

Lemma trial_Returned (testData : Input) (validator : option (Validator Output))
    (i : nat) (s s' : Samples) (st st' : St) :
  trial host testData validator i s st = (Returned s', st') ->
  exists w j : Output,
    trace st' =
      trace st ++ WasmRun testData (Returned w) :: JsRun testData (Returned j)
               :: validationEvents validator i w j /\
    allResults st' = allResults st /\
    length (sWasmTimes s') = S (length (sWasmTimes s)) /\
    length (sJsTimes s') = S (length (sJsTimes s)) /\
    length (sWasmMemory s') = S (length (sWasmMemory s)) /\
    length (sJsMemory s') = S (length (sJsMemory s)) /\
    (forall v, validator = Some v -> i = 0 ->
       exists vr, v w j = Returned (Some vr) /\
                  sValidation s' = updated (sValidation s) vr).
Proof.
  unfold trial. intros H.
  apply bind_Returned in H; destruct H as (wasmStart & st1 & H1 & H).
  apply bind_Returned in H; destruct H as (wmb & st2 & H2 & H).
  apply bind_Returned in H; destruct H as (w & st3 & H3 & H).
  apply bind_Returned in H; destruct H as (wma & st4 & H4 & H).
  apply bind_Returned in H; destruct H as (wasmEnd & st5 & H5 & H).
  apply bind_Returned in H; destruct H as (jsStart & st6 & H6 & H).
  apply bind_Returned in H; destruct H as (jmb & st7 & H7 & H).
  apply bind_Returned in H; destruct H as (j & st8 & H8 & H).
  apply bind_Returned in H; destruct H as (jma & st9 & H9 & H).
  apply bind_Returned in H; destruct H as (jsEnd & st10 & H10 & H).
  apply bind_Returned in H; destruct H as (validation & st11 & H11 & H).
  injection H as <- <-.
  apply read_Returned in H1, H2, H4, H5, H6, H7, H9, H10.
  apply runAlgorithm_Returned in H3, H8.
  assert (Hv : forall v, validator = Some v -> i = 0 ->
            exists vr, v w j = Returned (Some vr) /\
                       validation = updated (sValidation s) vr).
  { intros v -> ->. now apply validate_first in H11. }
  apply validate_Returned in H11.
  exists w, j. cbn [sWasmTimes sJsTimes sWasmMemory sJsMemory sValidation].
  rewrite !length_app. cbn [length].
  split; [|split; [|repeat split; try lia; exact Hv]].
  - destruct H1 as [T1 _], H2 as [T2 _], H3 as [T3 _], H4 as [T4 _],
      H5 as [T5 _], H6 as [T6 _], H7 as [T7 _], H8 as [T8 _], H9 as [T9 _],
      H10 as [T10 _], H11 as [T11 _].
    rewrite T11, T10, T9, T8, T7, T6, T5, T4, T3, T2, T1.
    rewrite <- !app_assoc. reflexivity.
  - destruct H1 as [_ A1], H2 as [_ A2], H3 as [_ A3], H4 as [_ A4],
      H5 as [_ A5], H6 as [_ A6], H7 as [_ A7], H8 as [_ A8], H9 as [_ A9],
      H10 as [_ A10], H11 as [_ A11].
    congruence.
Qed.

Lemma validations_validationEvents
    (validator : option (Validator Output)) (i : nat) (w j : Output) :
  validations (validationEvents (Input:=Input) validator i w j) =
    match validator with
    | Some _ => if Nat.eqb i 0 then [(w, j)] else []
    | None => []
    end.
Proof.
  unfold validationEvents.
  destruct validator; [destruct (Nat.eqb i 0)|]; reflexivity.
Qed.

Lemma validationEvents_no_runs
    (validator : option (Validator Output)) (i : nat) (w j : Output) :
  filter isWasmRun (validationEvents (Input:=Input) validator i w j) = [] /\
  filter isJsRun (validationEvents (Input:=Input) validator i w j) = [] /\
  wasmOutputs (validationEvents (Input:=Input) validator i w j) = [] /\
  jsOutputs (validationEvents (Input:=Input) validator i w j) = [].
Proof.
  unfold validationEvents.
  destruct validator; [destruct (Nat.eqb i 0)|]; repeat split; reflexivity.
Qed.

Lemma validations_app (a b : list (Event Input Output)) :
  validations (a ++ b) = validations a ++ validations b.
Proof. apply flat_map_app. Qed.

Lemma wasmOutputs_app (a b : list (Event Input Output)) :
  wasmOutputs (a ++ b) = wasmOutputs a ++ wasmOutputs b.
Proof. apply flat_map_app. Qed.

Lemma jsOutputs_app (a b : list (Event Input Output)) :
  jsOutputs (a ++ b) = jsOutputs a ++ jsOutputs b.
Proof. apply flat_map_app. Qed.

Lemma trialLoop_Returned (testData : Input)
    (validator : option (Validator Output)) (r : nat) :
  forall (i : nat) (s s' : Samples) (st st' : St),
    trialLoop host testData validator r i s st = (Returned s', st') ->
    exists evs,
      trace st' = trace st ++ evs /\
      allResults st' = allResults st /\
      LoopEvents validator r i evs /\
      length (sWasmTimes s') = length (sWasmTimes s) + r /\
      length (sJsTimes s') = length (sJsTimes s) + r /\
      length (sWasmMemory s') = length (sWasmMemory s) + r /\
      length (sJsMemory s') = length (sJsMemory s) + r.
Proof.
  induction r as [|r IH]; intros i s s' st st' H.
  - injection H as <- <-. exists [].
    rewrite app_nil_r, !Nat.add_0_r.
    repeat split; auto; intros; lia.
  - cbn [trialLoop] in H.
    apply bind_Returned in H. destruct H as (s1 & st1 & Ht & Hl).
    apply trial_Returned in Ht.
    destruct Ht as (w & j & Tr1 & A1 & L1 & L2 & L3 & L4 & _).
    apply IH in Hl.
    destruct Hl as (evs & Tr2 & A2 & [Cw Cj Cl Cf] & M1 & M2 & M3 & M4).
    destruct (validationEvents_no_runs validator i w j) as (Vw & Vj & Vo & Vp).
    pose proof (validations_validationEvents validator i w j) as Vv.
    exists ([WasmRun testData (Returned w); JsRun testData (Returned j)]
              ++ validationEvents validator i w j ++ evs).
    split.
    { rewrite Tr2, Tr1, <- app_assoc. reflexivity. }
    split; [congruence|].
    split; [|lia].
    assert (Hrest : validations evs = []) by (apply Cl; right; left; lia).
    constructor.
    + rewrite !filter_app, Vw. cbn [filter isWasmRun app length].
      now rewrite Cw.
    + rewrite !filter_app, Vj. cbn [filter isJsRun app length].
      now rewrite Cj.
    + intros Hc. rewrite !validations_app, Vv, Hrest.
      destruct Hc as [-> | [Hi | Hr]]; [reflexivity | | discriminate].
      destruct validator; [|reflexivity].
      destruct (Nat.eqb_spec i 0); [lia | reflexivity].
    + intros Hv -> _. exists w, j.
      rewrite !validations_app, !wasmOutputs_app, !jsOutputs_app.
      rewrite Vv, Hrest, Vo, Vp.
      destruct validator; [|congruence].
      repeat split; reflexivity.
Qed.

Lemma exportAndReturn_Returned (m m' : Metrics) (st st' : St) :
  exportAndReturn host m st = (Returned m', st') ->
  m' = m /\ trace st' = trace st ++ exportEvents host m /\
  allResults st' = allResults st.
Proof.
  unfold exportAndReturn, exportEvents.
  destruct (exportResults host) as [hook|]; intros H.
  - apply bind_Returned in H. destruct H as ([] & st1 & Hc & Hk).
    injection Hk as <- <-. unfold callExport in Hc.
    destruct (hook (allResults st) m (world st)) as [r w].
    injection Hc as _ <-. now repeat split.
  - injection H as <- <-. now rewrite app_nil_r.
Qed.

Lemma runTest_Returned (algorithmName algorithmType size : string)
    (testData : Input) (iterations : nat)
    (validator : option (Validator Output)) (st st' : St) (m : Metrics) :
  runTest host algorithmName algorithmType size testData iterations validator
    st = (Returned m, st') ->
  exists s st1,
    trialLoop host testData validator iterations 0 emptySamples st
      = (Returned s, st1) /\
    m = finish algorithmName algorithmType size s /\
    trace st' = trace st1 ++ exportEvents host m /\
    allResults st' = allResults st1.
Proof.
  unfold runTest. intros H.
  apply bind_Returned in H. destruct H as (s & st1 & Hl & He).
  apply exportAndReturn_Returned in He. destruct He as (-> & Tr & Al).
  now exists s, st1.
Qed.

Lemma exportEvents_no_runs (m : Metrics) :
  filter isWasmRun (exportEvents host m) = [] /\
  filter isJsRun (exportEvents host m) = [] /\
  validations (exportEvents host m) = [] /\
  wasmOutputs (exportEvents host m) = [] /\
  jsOutputs (exportEvents host m) = [].
Proof.
  unfold exportEvents. destruct (exportResults host); repeat split; reflexivity.
Qed.

Lemma trial_total (testData : Input) (validator : option (Validator Output))
    (i : nat) (s : Samples) (st : St) :
  neverThrows (wasmRunAlgorithm host) ->
  neverThrows (jsRunAlgorithm host) ->
  validatorReturns validator ->
  exists s' st', trial host testData validator i s st = (Returned s', st').
Proof.
  intros Hwasm Hjs Hv. measure_both host st testData Hwasm Hjs.
  unfold validate.
  destruct validator as [v|]; [destruct (Nat.eqb i 0)|].
  - unfold bind, callValidator. destruct (Hv w j) as [r ->].
    eexists. eexists. reflexivity.
  - eexists. eexists. reflexivity.
  - eexists. eexists. reflexivity.
Qed.

Lemma trialLoop_total (testData : Input)
    (validator : option (Validator Output)) (r : nat) :
  neverThrows (wasmRunAlgorithm host) ->
  neverThrows (jsRunAlgorithm host) ->
  validatorReturns validator ->
  forall (i : nat) (s : Samples) (st : St),
    exists s' st',
      trialLoop host testData validator r i s st = (Returned s', st').
Proof.
  intros Hwasm Hjs Hv. induction r as [|r IH]; intros i s st.
  - now exists s, st.
  - destruct (trial_total testData validator i s st Hwasm Hjs Hv)
      as (s1 & st1 & Ht).
    destruct (IH (S i) s1 st1) as (s' & st' & Hl).
    exists s', st'. cbn [trialLoop].
    now rewrite (bind_step _ _ _ _ _ Ht).
Qed.

(** *** The log of a spy *)

Section Logged.

Import Spies.

Variable calls : World -> list (Event Input Output).
Hypothesis spy : Spy host calls.

Lemma logged_ret {A : Type} (a : A) :
  logged calls (ret (Input:=Input) (Output:=Output) (World:=World) a).
Proof. intros st. exists []. cbn. now rewrite !app_nil_r. Qed.

Lemma logged_throw {A : Type} (e : JsError) :
  logged calls (throw (Input:=Input) (Output:=Output) (World:=World) (A:=A) e).
Proof. intros st. exists []. cbn. now rewrite !app_nil_r. Qed.

Lemma logged_bind {A B : Type}
    (m : M Input Output World A) (k : A -> M Input Output World B) :
  logged calls m -> (forall a, logged calls (k a)) -> logged calls (bind m k).
Proof.
  intros Hm Hk st. unfold bind. destruct (Hm st) as (e1 & T1 & C1).
  destruct (m st) as [[a|e] st1]; cbn [snd] in *.
  - destruct (Hk a st1) as (e2 & T2 & C2). exists (e1 ++ e2).
    rewrite T2, T1, C2, C1, filter_app, !app_assoc. split; reflexivity.
  - exists e1. split; assumption.
Qed.

Lemma logged_read {A : Type} (f : World -> A * World) :
  (forall w, calls (snd (f w)) = calls w) -> logged calls (read f).
Proof.
  intros H st. unfold read. specialize (H (world st)).
  destruct (f (world st)) as [a w]. exists []. cbn in *.
  now rewrite !app_nil_r.
Qed.

Lemma logged_wasm (testData : Input) :
  logged calls (runAlgorithm (wasmRunAlgorithm host) WasmRun testData).
Proof.
  destruct spy as [_ _ Hw _ _]. intros st. unfold runAlgorithm.
  specialize (Hw testData (world st)).
  destruct (wasmRunAlgorithm host testData (world st)) as [r w].
  exists [WasmRun testData r]. split; [reflexivity | exact Hw].
Qed.

Lemma logged_js (testData : Input) :
  logged calls (runAlgorithm (jsRunAlgorithm host) JsRun testData).
Proof.
  destruct spy as [_ _ _ Hj _]. intros st. unfold runAlgorithm.
  specialize (Hj testData (world st)).
  destruct (jsRunAlgorithm host testData (world st)) as [r w].
  exists [JsRun testData r]. split; [reflexivity | exact Hj].
Qed.

Lemma logged_validate (validator : option (Validator Output)) (i : nat)
    (w j : Output) (old : ValidationResult) :
  logged calls (validate (Input:=Input) (World:=World) validator i w j old).
Proof.
  unfold validate. destruct validator as [v|]; [|apply logged_ret].
  destruct (Nat.eqb i 0); [|apply logged_ret].
  apply logged_bind.
  - intros st. exists [Validate w j]. cbn. now rewrite app_nil_r.
  - intros [r|]; [apply logged_ret | apply logged_throw].
Qed.

Lemma logged_trial (testData : Input) (validator : option (Validator Output))
    (i : nat) (s : Samples) :
  logged calls (trial host testData validator i s).
Proof.
  pose proof spy as [Hn Hm _ _ _]. unfold trial.
  repeat first
    [ apply logged_ret
    | apply logged_bind;
      [ first [ apply logged_read; first [exact Hn | exact Hm]
              | apply logged_wasm | apply logged_js | apply logged_validate ]
      | intros ? ] ].
Qed.

Lemma logged_trialLoop (testData : Input)
    (validator : option (Validator Output)) (r : nat) :
  forall (i : nat) (s : Samples),
    logged calls (trialLoop host testData validator r i s).
Proof.
  induction r as [|r IH]; intros i s; cbn [trialLoop].
  - apply logged_ret.
  - apply logged_bind; [apply logged_trial | intros s'; apply IH].
Qed.

Lemma logged_runTest (algorithmName algorithmType size : string)
    (testData : Input) (iterations : nat)
    (validator : option (Validator Output)) :
  logged calls
    (runTest host algorithmName algorithmType size testData iterations
       validator).
Proof.
  unfold runTest. apply logged_bind; [apply logged_trialLoop|]. intros s.
  unfold exportAndReturn. destruct (exportResults host) as [hook|] eqn:Eh;
    [|apply logged_ret].
  apply logged_bind; [|intros ?; apply logged_ret].
  destruct spy as [_ _ _ _ He]. intros st. unfold callExport.
  specialize (He hook (allResults st)
                (finish algorithmName algorithmType size s) (world st) Eh).
  destruct (hook (allResults st) (finish algorithmName algorithmType size s)
              (world st)) as [r w].
  exists [Export (finish algorithmName algorithmType size s)].
  cbn in *. now rewrite app_nil_r.
Qed.

End Logged.

(** *** The validation record *)

Lemma trial_validation (testData : Input)
    (validator : option (Validator Output))
    (i : nat) (s s' : Samples) (st st' : St) :
  trial host testData validator i s st = (Returned s', st') ->
  exists (w j : Output) (st1 : St),
    validate validator i w j (sValidation s) st1
      = (Returned (sValidation s'), st').
Proof.
  unfold trial. intros H.
  apply bind_Returned in H; destruct H as (wasmStart & st1 & H1 & H).
  apply bind_Returned in H; destruct H as (wmb & st2 & H2 & H).
  apply bind_Returned in H; destruct H as (w & st3 & H3 & H).
  apply bind_Returned in H; destruct H as (wma & st4 & H4 & H).
  apply bind_Returned in H; destruct H as (wasmEnd & st5 & H5 & H).
  apply bind_Returned in H; destruct H as (jsStart & st6 & H6 & H).
  apply bind_Returned in H; destruct H as (jmb & st7 & H7 & H).
  apply bind_Returned in H; destruct H as (j & st8 & H8 & H).
  apply bind_Returned in H; destruct H as (jma & st9 & H9 & H).
  apply bind_Returned in H; destruct H as (jsEnd & st10 & H10 & H).
  apply bind_Returned in H; destruct H as (validation & st11 & H11 & H).
  injection H as <- <-. now exists w, j, st10.
Qed.

Lemma trial_keeps_validation (testData : Input)
    (validator : option (Validator Output))
    (i : nat) (s s' : Samples) (st st' : St) :
  validator = None \/ i <> 0 ->
  trial host testData validator i s st = (Returned s', st') ->
  sValidation s' = sValidation s.
Proof.
  intros Hc H. apply trial_validation in H.
  destruct H as (w & j & st1 & H). unfold validate in H.
  destruct validator as [v|].
  - destruct Hc as [Hc | Hc]; [discriminate|].
    destruct (Nat.eqb_spec i 0) as [E | _]; [contradiction|].
    now injection H as <- _.
  - now injection H as <- _.
Qed.

Lemma trialLoop_keeps_validation (testData : Input)
    (validator : option (Validator Output)) (r : nat) :
  forall (i : nat) (s s' : Samples) (st st' : St),
    validator = None \/ i <> 0 ->
    trialLoop host testData validator r i s st = (Returned s', st') ->
    sValidation s' = sValidation s.
Proof.
  induction r as [|r IH]; intros i s s' st st' Hc H; cbn [trialLoop] in H.
  - now injection H as <- _.
  - apply bind_Returned in H. destruct H as (s1 & st1 & Ht & Hl).
    apply (trial_keeps_validation _ _ _ _ _ _ _ Hc) in Ht.
    apply IH in Hl; [congruence|].
    destruct Hc as [Hc | Hc]; [now left | right; discriminate].
Qed.


(** The first iteration of a run with a validator fixes the validation
    record: the validator is applied to the results of the first native and
    the first managed call. *)
Lemma first_trial_validation (testData : Input) (v : Validator Output)
    (r : nat) (s : Samples) (st st1 : St) :
  trialLoop host testData (Some v) (S r) 0 emptySamples st
    = (Returned s, st1) ->
  exists (w j : Output) (vr : ValidationResult),
    (exists evs,
       trace st1 = trace st ++ evs /\
       nth_error (wasmOutputs evs) 0 = Some w /\
       nth_error (jsOutputs evs) 0 = Some j) /\
    v w j = Returned (Some vr) /\
    sValidation s = updated (sValidation emptySamples) vr.
Proof.
  cbn [trialLoop]. intros H.
  apply bind_Returned in H. destruct H as (s1 & st0 & Ht & Hl).
  pose proof (trialLoop_keeps_validation _ _ _ _ _ _ _ _
                (or_intror (Nat.neq_succ_0 0)) Hl) as Hk.
  apply trial_Returned in Ht.
  destruct Ht as (w & j & Tr1 & _ & _ & _ & _ & _ & Hv).
  destruct (Hv v eq_refl eq_refl) as (vr & Hvr & Hs1).
  apply trialLoop_Returned in Hl. destruct Hl as (evs2 & Tr2 & _).
  exists w, j, vr. split; [|split; [exact Hvr | congruence]].
  exists (WasmRun testData (Returned w) :: JsRun testData (Returned j)
            :: validationEvents (Some v) 0 w j ++ evs2).
  split; [|split; reflexivity].
  rewrite Tr2, Tr1, <- app_assoc. reflexivity.
Qed.


Lemma runTest_stats (algorithmName algorithmType size : string)
    (testData : Input) (iterations : nat)
    (validator : option (Validator Output)) (st st' : St) (m : Metrics) :
  runTest host algorithmName algorithmType size testData iterations validator
    st = (Returned m, st') ->
  wasmStats m = calculateStats (wasmTimes m) /\
  jsStats m = calculateStats (jsTimes m) /\
  speedup m = div (mean (jsStats m)) (mean (wasmStats m)).
Proof.
  intros H. apply runTest_Returned in H.
  destruct H as (s & st1 & _ & -> & _). now repeat split.
Qed.

(** The first iteration, up to the call of the validator, on a host whose
    implementations return. *)
Lemma trial_reaches_validator (testData : Input) (v : Validator Output)
    (s : Samples) (st : St) :
  neverThrows (wasmRunAlgorithm host) ->
  neverThrows (jsRunAlgorithm host) ->
  exists (w j : Output) (st1 : St),
    trace st1 =
      trace st ++ [WasmRun testData (Returned w); JsRun testData (Returned j);
                   Validate w j] /\
    allResults st1 = allResults st /\
    (v w j = Returned None ->
     trial host testData (Some v) 0 s st = (Thrown TypeError_success, st1)) /\
    (forall e, v w j = Thrown e ->
     trial host testData (Some v) 0 s st = (Thrown e, st1)).
Proof.
  intros Hwasm Hjs. measure_both host st testData Hwasm Hjs.
  exists w, j. eexists. split; [|split; [|split]].
  3: { intros Hv. cbn [validate Nat.eqb]. unfold bind, callValidator.
       rewrite Hv. cbn. reflexivity. }
  3: { intros e Hv. cbn [validate Nat.eqb]. unfold bind, callValidator.
       rewrite Hv. reflexivity. }
  - cbn [trace record setWorld]. rewrite <- !app_assoc. reflexivity.
  - reflexivity.
Qed.

(** C7, as amended.  When the trial loop has completed and the export hook
    throws, [runTest] does not return the metrics: the exception leaves
    [runTest], and [TestRunnerWithDatabase.runTest] returns the minimal
    error result in their place. *)
Theorem export_failure_propagates
    (algorithmName algorithmType size : string) (testData : Input)
    (iterations : nat) (validator : option (Validator Output))
    (saveToJson : bool)
    (hook : list Metrics -> Metrics -> World -> Outcome unit * World)
    (s : Samples) (st st1 : St) (e : JsError) (w2 : World) :
  exportResults host = Some hook ->
  trialLoop host testData validator iterations 0 emptySamples st
    = (Returned s, st1) ->
  hook (allResults st1) (finish algorithmName algorithmType size s) (world st1)
    = (Thrown e, w2) ->
  let metrics := finish algorithmName algorithmType size s in
  let st2 := record (Export metrics) (setWorld w2 st1) in
  runTest host algorithmName algorithmType size testData iterations validator
    st = (Thrown e, st2) /\
  TestRunnerWithDatabase.runTest host saveToJson algorithmName algorithmType
    size testData iterations validator st
    = (Some (TestRunnerWithDatabase.errorResult
               algorithmName algorithmType size e), st2).
Proof.
  intros Hh Hl He metrics st2.
  assert (Hr : runTest host algorithmName algorithmType size testData
                 iterations validator st = (Thrown e, st2)).
  { unfold runTest. rewrite (bind_step _ _ _ _ _ Hl).
    unfold exportAndReturn. rewrite Hh. apply bind_Thrown.
    unfold callExport. now rewrite He. }
  split; [exact Hr|].
  unfold TestRunnerWithDatabase.runTest. now rewrite Hr.
Qed.

(** C8, as amended.  With at least one iteration, on a host whose
    implementations return, a validator that returns [undefined] or throws
    ends [runTest] in the first iteration with an exception (the TypeError
    of reading [.success], or what the validator threw), after one native
    call, one managed call and the one validator call.
    [TestRunnerWithDatabase.runTest] catches it and returns the minimal error
    result: validation failed, every series empty, speedup 0. *)
Theorem failing_validator_aborts_run
    (algorithmName algorithmType size : string) (testData : Input)
    (n : nat) (v : Validator Output) (saveToJson : bool) (st : St) :
  neverThrows (wasmRunAlgorithm host) ->
  neverThrows (jsRunAlgorithm host) ->
  (forall w j, v w j = Returned None \/ exists e, v w j = Thrown e) ->
  exists (w j : Output) (e : JsError) (st' : St),
    (v w j = Returned None /\ e = TypeError_success \/ v w j = Thrown e) /\
    trace st' =
      trace st ++ [WasmRun testData (Returned w); JsRun testData (Returned j);
                   Validate w j] /\
    runTest host algorithmName algorithmType size testData (S n) (Some v) st
      = (Thrown e, st') /\
    TestRunnerWithDatabase.runTest host saveToJson algorithmName algorithmType
      size testData (S n) (Some v) st
      = (Some (TestRunnerWithDatabase.errorResult
                 algorithmName algorithmType size e), st') /\
    success (validationResults
               (TestRunnerWithDatabase.errorResult
                  algorithmName algorithmType size e)) = false /\
    wasmTimes (TestRunnerWithDatabase.errorResult
                 algorithmName algorithmType size e) = [] /\
    jsTimes (TestRunnerWithDatabase.errorResult
               algorithmName algorithmType size e) = [] /\
    speedup (TestRunnerWithDatabase.errorResult
               algorithmName algorithmType size e) = zero.
Proof.
  intros Hwasm Hjs Hv.
  destruct (trial_reaches_validator testData v emptySamples st Hwasm Hjs)
    as (w & j & st1 & Tr & _ & Hundef & Hthrow).
  assert (He : exists e,
             (v w j = Returned None /\ e = TypeError_success \/ v w j = Thrown e)
             /\ trial host testData (Some v) 0 emptySamples st = (Thrown e, st1)).
  { destruct (Hv w j) as [E | [e E]].
    - exists TypeError_success. split; [now left | now apply Hundef].
    - exists e. split; [now right | now apply Hthrow]. }
  destruct He as (e & Hcase & Ht).
  assert (Hr : runTest host algorithmName algorithmType size testData (S n)
                 (Some v) st = (Thrown e, st1)).
  { unfold runTest. apply bind_Thrown. cbn [trialLoop]. now apply bind_Thrown. }
  exists w, j, e, st1.
  split; [exact Hcase|]. split; [exact Tr|]. split; [exact Hr|].
  split; [|now repeat split].
  unfold TestRunnerWithDatabase.runTest. now rewrite Hr.
Qed.

End RunnerFacts.

(** ** Memory deltas *)

(** C9. [calculateMemoryUsage] gives the unavailable sentinel as soon as
    one of the two snapshots is unavailable, and otherwise the four
    differences after - before, field by field. *)
Theorem calculateMemoryUsage_spec {N : JSNumber}
    (m : MemoryInfo)
    (bUsed bTotal bExternal bRss aUsed aTotal aExternal aRss : num) :
  calculateMemoryUsage Unavailable m = Unavailable /\
  calculateMemoryUsage m Unavailable = Unavailable /\
  calculateMemoryUsage Unavailable m <> Memory zero zero zero zero /\
  calculateMemoryUsage m Unavailable <> Memory zero zero zero zero /\
  calculateMemoryUsage (Memory bUsed bTotal bExternal bRss)
                       (Memory aUsed aTotal aExternal aRss)
    = Memory (sub aUsed bUsed) (sub aTotal bTotal)
             (sub aExternal bExternal) (sub aRss bRss).
Proof.
  assert (H : calculateMemoryUsage m Unavailable = Unavailable).
  { unfold calculateMemoryUsage. destruct m; reflexivity. }
  repeat split; try reflexivity; try exact H.
  - discriminate.
  - rewrite H. discriminate.
Qed.

(** ** The runner in binary64 *)

Section FloatRunner.

Variables Input Output World : Type.
Variable host : Host (N:=FloatNumber) Input Output World.

Local Abbreviation St := (State (N:=FloatNumber) Input Output World).

(** C4. The speedup of a returned result is the mean of [jsTimes] divided
    by the mean of [wasmTimes], each mean being the sum of the series divided
    by its length (all in binary64).  Means of 100 and 300 give exactly 3,
    which is above 1; and whenever the native mean is positive and the
    speedup is above 1, the native mean is below the managed one. *)
Theorem speedup_is_js_mean_over_wasm_mean
    (algorithmName algorithmType size : string) (testData : Input)
    (iterations : nat) (validator : option (Validator Output))
    (st st' : St) (m : Metrics) :
  runTest host algorithmName algorithmType size testData iterations validator
    st = (Returned m, st') ->
  wasmStats m = calculateStats (wasmTimes m) /\
  jsStats m = calculateStats (jsTimes m) /\
  mean (wasmStats m)
    = PrimFloat.div (fold_left PrimFloat.add (wasmTimes m) 0%float)
                    (F64.ofLength (length (wasmTimes m))) /\
  mean (jsStats m)
    = PrimFloat.div (fold_left PrimFloat.add (jsTimes m) 0%float)
                    (F64.ofLength (length (jsTimes m))) /\
  speedup m = PrimFloat.div (mean (jsStats m)) (mean (wasmStats m)) /\
  (mean (wasmStats m) = 100%float -> mean (jsStats m) = 300%float ->
   speedup m = 3%float /\ PrimFloat.ltb 1 (speedup m) = true) /\
  (PrimFloat.ltb 0 (mean (wasmStats m)) = true ->
   PrimFloat.ltb 1 (speedup m) = true ->
   PrimFloat.ltb (mean (wasmStats m)) (mean (jsStats m)) = true).
Proof.
  intros H.
  destruct (runTest_stats _ _ _ _ _ _ _ _ _ _ _ _ _ H) as (Hw & Hj & Hs).
  split; [exact Hw|]. split; [exact Hj|].
  split; [rewrite Hw; reflexivity|]. split; [rewrite Hj; reflexivity|].
  split; [exact Hs|]. split.
  - intros Hwasm Hjs. rewrite Hs, Hwasm, Hjs. split; reflexivity.
  - intros Hpos Hup. rewrite Hs in Hup. exact (div_above_one _ _ Hpos Hup).
Qed.

(** C6, as amended.  With [iterations = 0] nothing is rejected: no trial
    runs, the statistics are taken of the empty series (min, max and median
    undefined, mean NaN), the speedup is NaN, and the metrics go to the export
    hook and are returned.  [TestRunnerWithDatabase.runTest] then returns
    [null], the speedup being NaN. *)
Theorem zero_iterations_are_not_rejected
    (algorithmName algorithmType size : string) (testData : Input)
    (validator : option (Validator Output)) (saveToJson : bool) (st : St) :
  let m0 := finish algorithmName algorithmType size emptySamples in
  runTest host algorithmName algorithmType size testData 0 validator st
    = exportAndReturn host m0 st /\
  wasmTimes m0 = [] /\ jsTimes m0 = [] /\
  wasmStats m0 = calculateStats [] /\
  min (wasmStats m0) = None /\ max (wasmStats m0) = None /\
  median (wasmStats m0) = None /\
  F64.isNaN (mean (wasmStats m0)) = true /\
  F64.isNaN (speedup m0) = true /\
  (exportResults host = None ->
   runTest host algorithmName algorithmType size testData 0 validator st
     = (Returned m0, st) /\
   TestRunnerWithDatabase.runTest host saveToJson algorithmName algorithmType
     size testData 0 validator st = (None, st)) /\
  (forall hook w',
     exportResults host = Some hook ->
     hook (allResults st) m0 (world st) = (Returned tt, w') ->
     runTest host algorithmName algorithmType size testData 0 validator st
       = (Returned m0, record (Export m0) (setWorld w' st)) /\
     TestRunnerWithDatabase.runTest host saveToJson algorithmName
       algorithmType size testData 0 validator st
       = (None, record (Export m0) (setWorld w' st))).
Proof.
  intros m0.
  assert (Hnan : F64.isNaN (speedup m0) = true) by reflexivity.
  assert (Hrun : runTest host algorithmName algorithmType size testData 0
                   validator st = exportAndReturn host m0 st) by reflexivity.
  do 9 (split; [reflexivity|]).
  split.
  - intros Hnone.
    assert (Hr : runTest host algorithmName algorithmType size testData 0
                   validator st = (Returned m0, st)).
    { rewrite Hrun. unfold exportAndReturn. now rewrite Hnone. }
    split; [exact Hr|].
    unfold TestRunnerWithDatabase.runTest. rewrite Hr.
    change (isNaN (speedup m0)) with (F64.isNaN (speedup m0)).
    now rewrite Hnan.
  - intros hook w' Hsome Hhook.
    assert (Hr : runTest host algorithmName algorithmType size testData 0
                   validator st
                 = (Returned m0, record (Export m0) (setWorld w' st))).
    { rewrite Hrun. unfold exportAndReturn. rewrite Hsome.
      unfold bind, callExport. now rewrite Hhook. }
    split; [exact Hr|].
    unfold TestRunnerWithDatabase.runTest. rewrite Hr.
    change (isNaN (speedup m0)) with (F64.isNaN (speedup m0)).
    now rewrite Hnan.
Qed.

End FloatRunner.

(** ** The validators *)

Section Validators.

Import BenchmarkSuite SuiteValidators TestFiles RunBenchmark.


Lemma validator_collected (tolerance : float) (w j : JsValue) :
  relativeErrorValidator tolerance w j =
    {| success := Nat.eqb (length (collected tolerance w j)) 0;
       discrepancies := firstn 3 (collected tolerance w j) |}.
Proof.
  unfold relativeErrorValidator, collected.
  destruct (negb (truthy w) || negb (truthy j)); [reflexivity|].
  destruct w, j; try reflexivity.
  destruct (negb (Nat.eqb (length elements) (length elements0))); reflexivity.
Qed.

Lemma truncatedTo_firstn {A : Type} (cap : nat) (collected : list A) :
  truncatedTo cap (Nat.eqb (length collected) 0) (firstn cap collected)
    collected.
Proof.
  split; [reflexivity|]. split; [apply firstn_le_length | reflexivity].
Qed.

Lemma relativeErrorValidator_truncated (tolerance : float) (w j : JsValue) :
  truncatedTo 3 (success (relativeErrorValidator tolerance w j))
    (discrepancies (relativeErrorValidator tolerance w j))
    (collected tolerance w j).
Proof. rewrite validator_collected. apply truncatedTo_firstn. Qed.

Lemma integrationValidator_truncated (w j : JsValue) :
  truncatedTo 3 (verdictSuccess (integrationValidator w j))
    (verdictDiscrepancies (integrationValidator w j))
    (integrationCollected w j).
Proof.
  unfold integrationValidator, integrationCollected.
  destruct w, j; try solve [repeat split; repeat constructor].
  apply truncatedTo_firstn.
Qed.

Lemma parserValidator_truncated (w j : JsValue) :
  truncatedTo 3 (verdictSuccess (parserValidator w j))
    (verdictDiscrepancies (parserValidator w j))
    (parserCollected w j).
Proof.
  unfold parserValidator, parserCollected.
  destruct (negb (truthy w) || negb (truthy j));
    [solve [repeat split; repeat constructor]|].
  destruct w, j; try solve [repeat split; repeat constructor].
  destruct (negb (Nat.eqb (length elements) (length elements0)));
    [solve [repeat split; repeat constructor] | apply truncatedTo_firstn].
Qed.

Lemma testValidator_truncated
    (checks : list float -> list float -> list Note) (w j : JsValue) :
  truncatedTo 5 (reportSuccess (testValidator checks w j))
    (reportDiscrepancies (testValidator checks w j))
    (testCollected checks w j).
Proof.
  unfold testValidator, testCollected.
  destruct w, j; try solve [repeat split; repeat constructor].
  destruct (negb (Nat.eqb (length elements) (length elements0)));
    [solve [repeat split; repeat constructor] | apply truncatedTo_firstn].
Qed.

Lemma matrixCheck_success (dimensions : Dimensions) (a b : MatrixValue)
    (ok : bool) (ds : list MatrixMessage) :
  matrixCheck dimensions a b = Returned (ok, ds) ->
  ok = Nat.eqb (length ds) 0.
Proof.
  unfold matrixCheck. destruct a, b; try (intros H; injection H as <- <-; reflexivity).
  destruct (negb (Nat.eqb (length rows) (length rows0)));
    [intros H; injection H as <- <-; reflexivity|].
  destruct (rowLoop rows rows0 (sampleSize dimensions) (sampleSize dimensions) 0);
    [|discriminate].
  intros H. injection H as <- <-. reflexivity.
Qed.


End Validators.

(** ** Concrete runs *)

(** Evaluate the left-hand side of an equation, and only that. *)
Ltac evaluate_lhs :=
  match goal with
  | |- ?l = _ => let v := eval vm_compute in l in change l with v
  end.

(** Run [r] and take its result and final state as the two witnesses. *)
Ltac take_result r E :=
  let v := eval vm_compute in r in
  match v with
  | (Returned ?a, ?st) =>
      assert (E : r = (Returned a, st)) by (evaluate_lhs; reflexivity);
      exists a, st
  end.

Section Runs.

Import BenchmarkSuite Demo.

(** C6, counterexample: zero iterations on the demo host.  [runTest] does not
    fail; it returns metrics whose series are empty. *)
Lemma zero_iterations_return :
  ~ (exists e st', run 5 15 okExport 0 None = (Thrown e, st')) /\
  exists m st',
    run 5 15 okExport 0 None = (Returned m, st') /\
    wasmTimes m = [] /\ trace st' = [Export m].
Proof.
  split.
  - intros (e & st' & H).
    apply (f_equal (fun r => returned (fst r))) in H. discriminate H.
  - eexists. eexists. split; [evaluate_lhs; reflexivity|]. split; reflexivity.
Qed.

(** C7, counterexample: two iterations on the demo host with an export hook
    that throws.  [runTest] returns no metrics. *)
Lemma failing_export_loses_metrics :
  ~ (exists m st', run 5 15 failingExport 2 None = (Returned m, st')) /\
  fst (run 5 15 failingExport 2 None)
    = Thrown (Error "EACCES: permission denied").
Proof.
  split.
  - intros (m & st' & H).
    apply (f_equal (fun r => returned (fst r))) in H. discriminate H.
  - reflexivity.
Qed.

(** C8, counterexample: a validator that returns [undefined], and one that
    throws.  Neither run returns a result. *)
Lemma failing_validator_crashes_run :
  ~ (exists m st',
       run 5 15 okExport 2 (Some undefinedValidator) = (Returned m, st') /\
       success (validationResults m) = false) /\
  ~ (exists m st',
       run 5 15 okExport 2 (Some throwingValidator) = (Returned m, st') /\
       success (validationResults m) = false) /\
  fst (run 5 15 okExport 2 (Some undefinedValidator))
    = Thrown TypeError_success.
Proof.
  split; [|split].
  - intros (m & st' & H & _).
    apply (f_equal (fun r => returned (fst r))) in H. discriminate H.
  - intros (m & st' & H & _).
    apply (f_equal (fun r => returned (fst r))) in H. discriminate H.
  - reflexivity.
Qed.

End Runs.

(** ** The theorems at concrete inputs *)

Section Witnesses.

Import BenchmarkSuite Demo.

Lemma recorded_spy : Spies.Spy Recorded.host Recorded.calls.
Proof.
  constructor; try reflexivity.
  intros hook rs m w H. injection H as <-. reflexivity.
Qed.


Lemma median_within_range_witness :
  exists mn md mx : float,
    nth_error (sort (N:=FloatNumber) [4; 1; 3; 2]%float) 0 = Some mn /\
    nth_error (sort (N:=FloatNumber) [4; 1; 3; 2]%float) (4 - 1) = Some mx /\
    min (calculateStats [4; 1; 3; 2]%float) = Some mn /\
    max (calculateStats [4; 1; 3; 2]%float) = Some mx /\
    median (calculateStats [4; 1; 3; 2]%float) = Some md /\
    PrimFloat.leb mn md = true /\ PrimFloat.leb md mx = true /\
    ascending (sort (N:=FloatNumber) [4; 1; 3; 2]%float) /\
    Permutation (sort (N:=FloatNumber) [4; 1; 3; 2]%float) [4; 1; 3; 2]%float /\
    (forall x, In x [4; 1; 3; 2]%float ->
       PrimFloat.leb mn x = true /\ PrimFloat.leb x mx = true).
Proof.
  apply (median_within_range [4; 1; 3; 2]%float).
  - discriminate.
  - reflexivity.
  - repeat constructor.
Defined.

Lemma median_is_upper_middle_witness :
  median (calculateStats [4; 1; 3; 2]%float)
    = nth_error (sort (N:=FloatNumber) [4; 1; 3; 2]%float) (4 / 2) /\
  exists m, median (calculateStats [4; 1; 3; 2]%float) = Some m.
Proof.
  destruct (median_is_upper_middle [4; 1; 3; 2]%float) as (H1 & H2 & _).
  - discriminate.
  - reflexivity.
  - split; [exact H1 | exact H2].
Defined.

Lemma indices_in_bounds_witness :
  exists a b c d e : float,
    min (calculateStats [4; 1; 3; 2]%float) = Some a /\
    max (calculateStats [4; 1; 3; 2]%float) = Some b /\
    median (calculateStats [4; 1; 3; 2]%float) = Some c /\
    p95 (calculateStats [4; 1; 3; 2]%float) = Some d /\
    p99 (calculateStats [4; 1; 3; 2]%float) = Some e.
Proof.
  destruct (indices_in_bounds [4; 1; 3; 2]%float) as (_ & _ & _ & _ & H).
  - discriminate.
  - reflexivity.
  - exact H.
Defined.

Lemma speedup_is_js_mean_over_wasm_mean_witness :
  exists m st',
    Recorded.run 2 None = (Returned m, st') /\
    wasmTimes m = [50; 150]%float /\
    jsTimes m = [200; 400]%float /\
    mean (wasmStats m) = 100%float /\
    mean (jsStats m) = 300%float /\
    speedup m = 3%float /\
    PrimFloat.ltb 1 (speedup m) = true /\
    PrimFloat.ltb (mean (wasmStats m)) (mean (jsStats m)) = true.
Proof.
  pose proof (speedup_is_js_mean_over_wasm_mean
                float JsValue Recorded.World Recorded.host
                "demo" "math" "small" 4%float 2 None Recorded.start) as T.
  take_result (Recorded.run 2 None) E.
  destruct (T _ _ E) as (_ & _ & _ & _ & _ & T3 & Tlt).
  split; [exact E|]. split; [reflexivity|]. split; [reflexivity|].
  split; [reflexivity|]. split; [reflexivity|].
  split; [exact (proj1 (T3 eq_refl eq_refl))|].
  split; [exact (proj2 (T3 eq_refl eq_refl))|].
  exact (Tlt eq_refl eq_refl).
Defined.

Lemma zero_iterations_are_not_rejected_witness :
  exists m0 w',
    exportResults (host 5 15 okExport) = Some okExport /\
    okExport (allResults start) m0 (world start) = (Returned tt, w') /\
    run 5 15 okExport 0 None
      = (Returned m0, record (Export m0) (setWorld w' start)) /\
    TestRunnerWithDatabase.runTest (host 5 15 okExport) true
      "demo" "math" "small" 4%float 0 None start
      = (None, record (Export m0) (setWorld w' start)).
Proof.
  pose proof (zero_iterations_are_not_rejected
                float JsValue World (host 5 15 okExport)
                "demo" "math" "small" 4%float None true start) as T.
  cbv zeta in T.
  destruct T as (_ & _ & _ & _ & _ & _ & _ & _ & _ & _ & T).
  exists (finish "demo" "math" "small" emptySamples), (world start).
  split; [reflexivity|]. split; [reflexivity|].
  exact (T okExport (world start) eq_refl eq_refl).
Defined.

Lemma export_failure_propagates_witness :
  exists s st1,
    exportResults (host 5 15 failingExport) = Some failingExport /\
    trialLoop (host 5 15 failingExport) 4%float None 2 0 emptySamples start
      = (Returned s, st1) /\
    failingExport (allResults st1) (finish "demo" "math" "small" s) (world st1)
      = (Thrown (Error "EACCES: permission denied"), world st1) /\
    run 5 15 failingExport 2 None
      = (Thrown (Error "EACCES: permission denied"),
         record (Export (finish "demo" "math" "small" s))
                (setWorld (world st1) st1)) /\
    TestRunnerWithDatabase.runTest (host 5 15 failingExport) true
      "demo" "math" "small" 4%float 2 None start
      = (Some (TestRunnerWithDatabase.errorResult "demo" "math" "small"
                 (Error "EACCES: permission denied")),
         record (Export (finish "demo" "math" "small" s))
                (setWorld (world st1) st1)).
Proof.
  take_result
    (trialLoop (host 5 15 failingExport) 4%float None 2 0 emptySamples start) E.
  split; [reflexivity|]. split; [exact E|]. split; [reflexivity|].
  exact (export_failure_propagates
           float JsValue World (host 5 15 failingExport)
           "demo" "math" "small" 4%float 2 None true failingExport
           _ _ _ _ _ eq_refl E eq_refl).
Defined.

Lemma failing_validator_aborts_run_witness :
  neverThrows (wasmRunAlgorithm (host 5 15 okExport)) /\
  neverThrows (jsRunAlgorithm (host 5 15 okExport)) /\
  (forall w j, undefinedValidator w j = Returned None \/
               exists e, undefinedValidator w j = Thrown e) /\
  exists (w j : JsValue) (e : JsError) (st' : State float JsValue World),
    (undefinedValidator w j = Returned None /\ e = TypeError_success \/
     undefinedValidator w j = Thrown e) /\
    trace st' =
      trace start ++ [WasmRun 4%float (Returned w); JsRun 4%float (Returned j);
                      Validate w j] /\
    run 5 15 okExport 3 (Some undefinedValidator) = (Thrown e, st') /\
    TestRunnerWithDatabase.runTest (host 5 15 okExport) true
      "demo" "math" "small" 4%float 3 (Some undefinedValidator) start
      = (Some (TestRunnerWithDatabase.errorResult "demo" "math" "small" e),
         st').
Proof.
  assert (Hw : neverThrows (wasmRunAlgorithm (host 5 15 okExport)))
    by (intros x w; eexists; eexists; reflexivity).
  assert (Hj : neverThrows (jsRunAlgorithm (host 5 15 okExport)))
    by (intros x w; eexists; eexists; reflexivity).
  assert (Hv : forall w j, undefinedValidator w j = Returned None \/
                           exists e, undefinedValidator w j = Thrown e)
    by (intros w j; left; reflexivity).
  split; [exact Hw|]. split; [exact Hj|]. split; [exact Hv|].
  destruct (failing_validator_aborts_run
              float JsValue World (host 5 15 okExport)
              "demo" "math" "small" 4%float 2 undefinedValidator true start
              Hw Hj Hv)
    as (w & j & e & st' & Hc & Ht & Hr & Hd & _).
  exists w, j, e, st'. repeat split; assumption.
Defined.

End Witnesses.

(** * Further properties *)

(** ** The validators of the benchmark suite, continued *)

Section SuiteValidatorFacts.

Import BenchmarkSuite SuiteValidators.

Lemma relativeDifference_NaN (w j : float) :
  F64.isNaN w = true \/ F64.isNaN j = true ->
  F64.isNaN (relativeDifference w j) = true.
Proof.
  intros H. unfold relativeDifference. now apply div_NaN_l, abs_NaN, sub_NaN.
Qed.

(** X1. The [matrix] validator on a NaN: when either result is NaN it
    reports failure and no discrepancy at all. *)
Theorem matrix_validator_NaN_fails_without_message (w j : float) :
  F64.isNaN w = true \/ F64.isNaN j = true ->
  matrixValidator (SNumber w) (SNumber j)
    = {| verdictSuccess := false; verdictDiscrepancies := [] |}.
Proof.
  intros H. apply relativeDifference_NaN in H.
  unfold matrixValidator. cbv zeta.
  rewrite (ltb_NaN _ _ (or_introl H)), (leb_NaN _ _ (or_intror H)).
  reflexivity.
Qed.

(** X2. The [matrix] validator returns at most one discrepancy, none when it
    reports success, and its success flag says whether the list is empty
    whenever the relative difference is a number. *)
Theorem matrix_validator_verdict (wasmResult jsResult : Scalar) :
  let v := matrixValidator wasmResult jsResult in
  length (verdictDiscrepancies v) <= 1 /\
  (verdictSuccess v = true -> verdictDiscrepancies v = []) /\
  (forall w j,
     wasmResult = SNumber w -> jsResult = SNumber j ->
     F64.isNaN (relativeDifference w j) = false ->
     verdictSuccess v = Nat.eqb (length (verdictDiscrepancies v)) 0).
Proof.
  cbv zeta.
  destruct wasmResult as [| |w], jsResult as [| |j];
    try (cbn; split; [repeat constructor | split; discriminate]).
  unfold matrixValidator. cbv zeta. cbn [verdictSuccess verdictDiscrepancies].
  set (d := relativeDifference w j).
  assert (Ht : F64.isNaN 1e-6 = false) by reflexivity.
  destruct (F64.isNaN d) eqn:Hd.
  - rewrite (ltb_NaN _ _ (or_introl Hd)), (leb_NaN _ _ (or_intror Hd)).
    split; [cbn [length]; lia|]. split; [discriminate|].
    intros w0 j0 Ew Ej H. injection Ew as <-. injection Ej as <-.
    fold d in H. congruence.
  - rewrite (ltb_leb_numbers d 1e-6 Hd Ht).
    destruct (PrimFloat.ltb d 1e-6); cbn [negb length Nat.eqb];
      (split; [lia|]); (split; [|reflexivity]);
      [reflexivity | discriminate].
Qed.

Lemma compareElements_NaN (tolerance : float) (ws js : list float) :
  forall i k w j,
    nth_error ws k = Some w -> nth_error js k = Some j ->
    F64.isNaN w = true \/ F64.isNaN j = true ->
    In (ContainsNaN (i + k) w j) (compareElements tolerance i ws js).
Proof.
  revert js. induction ws as [|w0 ws IH]; intros js i k w j Hw Hj Hn.
  - destruct k; discriminate.
  - destruct js as [|j0 js]; [destruct k; discriminate|].
    destruct k as [|k]; cbn [nth_error] in Hw, Hj.
    + injection Hw as ->. injection Hj as ->. cbn [compareElements].
      assert (E : F64.isNaN w || F64.isNaN j = true)
        by (destruct Hn as [-> | ->]; [reflexivity | apply orb_true_r]).
      rewrite E, Nat.add_0_r. now left.
    + cbn [compareElements].
      assert (Hin : In (ContainsNaN (S i + k) w j)
                       (compareElements tolerance (S i) ws js))
        by now apply IH.
      rewrite Nat.add_succ_r.
      destruct (F64.isNaN w0 || F64.isNaN j0); [now right|].
      destruct (F64.gt _ tolerance); [now right | exact Hin].
Qed.

(** X3. The [fft] and [gradient] validators on arrays of equal length: a NaN
    at any index, on either side, makes the validation fail. *)
Theorem NaN_entry_fails_validation (tolerance : float) (ws js : list float)
    (k : nat) (w j : float) :
  length ws = length js ->
  nth_error ws k = Some w -> nth_error js k = Some j ->
  F64.isNaN w = true \/ F64.isNaN j = true ->
  success (relativeErrorValidator tolerance (JArray ws) (JArray js)) = false /\
  success (fftValidator (JArray ws) (JArray js)) = false /\
  success (gradientValidator (JArray ws) (JArray js)) = false.
Proof.
  intros Hlen Hw Hj Hn.
  assert (H : forall t,
             success (relativeErrorValidator t (JArray ws) (JArray js)) = false).
  { intros t. unfold relativeErrorValidator. cbn [truthy negb orb].
    rewrite Hlen, Nat.eqb_refl. cbn [negb success].
    pose proof (compareElements_NaN t ws js 0 k w j Hw Hj Hn) as Hin.
    destruct (compareElements t 0 ws js); [destruct Hin | reflexivity]. }
  split; [apply H|]. split; apply H.
Qed.

Lemma compareElements_indices (tolerance : float) (ws js : list float) :
  forall i,
    exists ks,
      map discrepancyIndex (compareElements tolerance i ws js) = map Some ks /\
      StronglySorted lt ks /\
      Forall (fun k => i <= k < i + length ws) ks.
Proof.
  revert js. induction ws as [|w ws IH]; intros js i.
  - exists []. repeat split; constructor.
  - destruct js as [|j js]; [exists []; repeat split; constructor|].
    destruct (IH js (S i)) as (ks & Hm & Hs & Hb).
    assert (Hb' : Forall (fun k => i <= k < i + length (w :: ws)) ks).
    { eapply Forall_impl; [|exact Hb]. cbn [length]. intros k Hk. lia. }
    assert (Hcons : StronglySorted lt (i :: ks)).
    { constructor; [exact Hs|].
      eapply Forall_impl; [|exact Hb]. intros k Hk. cbn beta in Hk. lia. }
    assert (Hi : i <= i < i + length (w :: ws)) by (cbn [length]; lia).
    cbn [compareElements].
    destruct (F64.isNaN w || F64.isNaN j).
    + exists (i :: ks). cbn [map discrepancyIndex]. rewrite Hm.
      repeat split; [exact Hcons | now constructor].
    + destruct (F64.gt _ tolerance).
      * exists (i :: ks). cbn [map discrepancyIndex]. rewrite Hm.
        repeat split; [exact Hcons | now constructor].
      * exists ks. repeat split; assumption.
Qed.

Lemma firstn_map_Some {A : Type} (n : nat) (l : list A) (ks : list nat)
    (f : A -> option nat) :
  map f l = map Some ks -> map f (firstn n l) = map Some (firstn n ks).
Proof. intros H. now rewrite <- !firstn_map, H. Qed.

Lemma firstn_sorted (n : nat) (ks : list nat) :
  StronglySorted lt ks -> StronglySorted lt (firstn n ks).
Proof.
  revert n. induction ks as [|k ks IH]; intros n Hs.
  - now rewrite firstn_nil.
  - destruct n; [constructor|]. cbn [firstn].
    apply StronglySorted_inv in Hs. destruct Hs as [Hs Hk].
    constructor; [now apply IH|].
    apply Forall_forall. intros x Hx.
    rewrite Forall_forall in Hk. apply Hk.
    rewrite <- (firstn_skipn n ks). apply in_or_app. now left.
Qed.

Lemma sorted_app_lt (a b : list nat) :
  StronglySorted lt (a ++ b) ->
  forall x y, In x a -> In y b -> x < y.
Proof.
  induction a as [|x0 a IH]; intros Hs x y Hx Hy; [destruct Hx|].
  cbn [app] in Hs. apply StronglySorted_inv in Hs. destruct Hs as [Hs Hall].
  destruct Hx as [<- | Hx].
  - rewrite Forall_forall in Hall. apply Hall, in_or_app. now right.
  - now apply IH.
Qed.

(** X4. The [fft] and [gradient] validators collect at most one discrepancy
    per index, in increasing index order, each index within the arrays; the
    entries that they return are the first three of these, which are those
    of the three lowest indices: every collected index that is not returned
    is above every returned one. *)
Theorem discrepancies_in_index_order (tolerance : float) (ws js : list float) :
  length ws = length js ->
  exists all ks : list nat,
    map discrepancyIndex (collected tolerance (JArray ws) (JArray js))
      = map Some all /\
    StronglySorted lt all /\
    Forall (fun k => k < length ws) all /\
    map discrepancyIndex
        (discrepancies (relativeErrorValidator tolerance (JArray ws) (JArray js)))
      = map Some ks /\
    ks = firstn 3 all /\
    StronglySorted lt ks /\
    (forall k k', In k ks -> In k' all -> ~ In k' ks -> k < k').
Proof.
  intros Hlen.
  unfold relativeErrorValidator, collected. cbn [truthy negb orb].
  rewrite Hlen, Nat.eqb_refl. cbn [negb discrepancies].
  destruct (compareElements_indices tolerance ws js 0) as (all & Hm & Hs & Hb).
  exists all, (firstn 3 all).
  split; [exact Hm|]. split; [exact Hs|].
  split.
  { eapply Forall_impl; [|exact Hb]. intros k Hk. cbn beta in Hk. lia. }
  split; [now apply firstn_map_Some|].
  split; [reflexivity|].
  split; [now apply firstn_sorted|].
  intros k k' Hk Hk' Hnot.
  assert (Hin : In k' (skipn 3 all)).
  { rewrite <- (firstn_skipn 3 all) in Hk'. apply in_app_or in Hk'.
    destruct Hk' as [Hk' | Hk']; [contradiction | exact Hk']. }
  rewrite <- (firstn_skipn 3 all) in Hs.
  exact (sorted_app_lt _ _ Hs k k' Hk Hin).
Qed.

(** X5. The [json] and [csv] validators look at the lengths and at the
    entries 0 and 2 only: arrays that agree there get the same verdict,
    whatever their other entries are; and they never report more than two
    discrepancies. *)
Theorem parser_validators_read_entries_0_and_2
    (ws ws' js js' : list float) :
  length ws = length ws' -> length js = length js' ->
  nth_error ws 0 = nth_error ws' 0 -> nth_error ws 2 = nth_error ws' 2 ->
  nth_error js 0 = nth_error js' 0 -> nth_error js 2 = nth_error js' 2 ->
  jsonValidator (JArray ws) (JArray js) = jsonValidator (JArray ws') (JArray js')
  /\ csvValidator (JArray ws) (JArray js) = csvValidator (JArray ws') (JArray js')
  /\ length (verdictDiscrepancies (jsonValidator (JArray ws) (JArray js))) <= 2.
Proof.
  intros Lw Lj W0 W2 J0 J2.
  assert (E : parserValidator (JArray ws) (JArray js)
              = parserValidator (JArray ws') (JArray js')).
  { unfold parserValidator, recordCountCheck, averageValueCheck.
    now rewrite Lw, Lj, W0, W2, J0, J2. }
  split; [exact E|]. split; [exact E|].
  unfold jsonValidator, parserValidator. cbn [truthy negb orb].
  destruct (negb (Nat.eqb (length ws) (length js)));
    [cbn; repeat constructor|].
  cbn [verdictDiscrepancies].
  rewrite length_firstn. eapply Nat.le_trans; [apply Nat.le_min_r|].
  rewrite length_app. unfold recordCountCheck, averageValueCheck.
  destruct (nth_error ws 0), (nth_error js 0), (nth_error ws 2),
    (nth_error js 2);
    repeat match goal with
           | |- context [if ?c then _ else _] => destruct c
           end; cbn; repeat constructor.
Qed.

Lemma integrationLoop_prefix (ws js extra : list float) :
  length ws = length js ->
  forall i,
    integrationLoop i (ws ++ extra) js = integrationLoop i ws js /\
    integrationLoop i ws (js ++ extra) = integrationLoop i ws js.
Proof.
  revert js. induction ws as [|w ws IH]; intros js Hlen i.
  - destruct js; [|discriminate]. cbn. split; [now destruct extra | reflexivity].
  - destruct js as [|j js]; [discriminate|].
    injection Hlen as Hlen. destruct (IH js Hlen (S i)) as [H1 H2].
    cbn [app integrationLoop]. now rewrite H1, H2.
Qed.

(** X6. The [integration] validator compares the two arrays up to the length
    of the shorter one: the extra entries of a longer array never change the
    verdict, and an empty array passes against any array. *)
Theorem integration_validator_ignores_extra_entries
    (ws js extra : list float) :
  length ws = length js ->
  integrationValidator (JArray (ws ++ extra)) (JArray js)
    = integrationValidator (JArray ws) (JArray js) /\
  integrationValidator (JArray ws) (JArray (js ++ extra))
    = integrationValidator (JArray ws) (JArray js) /\
  integrationValidator (JArray []) (JArray extra)
    = {| verdictSuccess := true; verdictDiscrepancies := [] |} /\
  integrationValidator (JArray extra) (JArray [])
    = {| verdictSuccess := true; verdictDiscrepancies := [] |}.
Proof.
  intros Hlen. destruct (integrationLoop_prefix ws js extra Hlen 0) as [H1 H2].
  unfold integrationValidator. rewrite H1, H2.
  repeat split. now destruct extra.
Qed.

Lemma integrationLoop_NaN (ws js : list float) :
  (forall k w j,
     nth_error ws k = Some w -> nth_error js k = Some j ->
     F64.isNaN w = true \/ F64.isNaN j = true) ->
  forall i, integrationLoop i ws js = [].
Proof.
  revert js. induction ws as [|w ws IH]; intros js H i; [reflexivity|].
  destruct js as [|j js]; [reflexivity|].
  cbn [integrationLoop].
  assert (Hd : F64.isNaN (PrimFloat.div (PrimFloat.abs (PrimFloat.sub w j))
                            (mathMax (PrimFloat.abs w) (PrimFloat.abs j)))
               = true)
    by (apply div_NaN_l, abs_NaN, sub_NaN, (H 0 w j); reflexivity).
  unfold F64.gt. rewrite (ltb_NaN _ _ (or_intror Hd)).
  apply IH. intros k w' j' Hw Hj. exact (H (S k) w' j' Hw Hj).
Qed.

(** X7. The [integration] validator has no NaN check: an index at which
    either result is NaN is never reported, so results that hold a NaN at
    every compared index pass the validation. *)
Theorem integration_validator_overlooks_NaN (ws js : list float) :
  (forall k w j,
     nth_error ws k = Some w -> nth_error js k = Some j ->
     F64.isNaN w = true \/ F64.isNaN j = true) ->
  integrationValidator (JArray ws) (JArray js)
    = {| verdictSuccess := true; verdictDiscrepancies := [] |}.
Proof.
  intros H. unfold integrationValidator.
  now rewrite (integrationLoop_NaN ws js H 0).
Qed.

End SuiteValidatorFacts.

(** ** The summary of a series, continued *)

Section OrderStatistics.

Context {N : JSNumber}.

Lemma lookup_In (arr : list num) (k x : num) :
  lookup arr k = Some x -> In x arr.
Proof.
  unfold lookup. destruct (toIndex k) as [z|]; [|discriminate].
  destruct (z <? Z.of_nat (length arr))%Z; [|discriminate].
  apply nth_error_In.
Qed.

Lemma lookup_sort_In (times : list num) (k : num) :
  match lookup (sort times) k with
  | Some x => In x times
  | None => True
  end.
Proof.
  destruct (lookup (sort times) k) as [x|] eqn:E; [|exact I].
  apply lookup_In in E.
  exact (Permutation_in x (sort_perm times) E).
Qed.

(** X8. Whatever the numbers are (binary64 included, NaN and all), each of
    [min], [max], [median], [p95] and [p99] that [calculateStats] defines is
    one of the samples it was given: none is interpolated or averaged. *)
Theorem order_statistics_are_samples (times : list num) :
  Forall (fun field => match field with
                       | Some x => In x times
                       | None => True
                       end)
         [min (calculateStats times); max (calculateStats times);
          median (calculateStats times); p95 (calculateStats times);
          p99 (calculateStats times)].
Proof.
  cbn [calculateStats min max median p95 p99].
  repeat constructor; apply lookup_sort_In.
Qed.

End OrderStatistics.

Section OrderedSummary.

(** Without the restriction to numbers the order is lost: on [[2, NaN, 1]]
    the comparator never answers "greater", the array stays as it is, and
    [min] is 2 while [max] is 1. *)
Lemma NaN_sample_breaks_order :
  min (calculateStats [2; nan; 1]%float) = Some 2%float /\
  max (calculateStats [2; nan; 1]%float) = Some 1%float /\
  PrimFloat.leb 2 1 = false.
Proof. repeat split. Qed.

(** X9. In binary64, for every non-empty series without NaN (of fewer than
    [2^53] samples) the five order statistics are defined and
    [min <= median <= p95 <= p99 <= max]. *)
Theorem summary_is_ordered (S : list float) :
  S <> [] -> (Z.of_nat (length S) < 2 ^ 53)%Z -> noNaN S ->
  exists mn md q95 q99 mx : float,
    min (calculateStats S) = Some mn /\
    median (calculateStats S) = Some md /\
    p95 (calculateStats S) = Some q95 /\
    p99 (calculateStats S) = Some q99 /\
    max (calculateStats S) = Some mx /\
    PrimFloat.leb mn md = true /\ PrimFloat.leb md q95 = true /\
    PrimFloat.leb q95 q99 = true /\ PrimFloat.leb q99 mx = true.
Proof.
  intros Hne Hb Hnan.
  destruct (stats_fields_binary64 S Hne Hb)
    as (k95 & k99 & Hm & H59 & H99 & _ & _ & Fmin & Fmax & Fmed & F95 & F99).
  assert (Hn : 0 < length S) by (destruct S; [congruence | cbn; lia]).
  assert (Hhalf : length S / 2 < length S) by (apply Nat.div_lt; lia).
  pose proof (sortF_noNaN S Hnan) as Hsn.
  pose proof (sort_ascending S Hnan) as Hasc.
  pose proof (sortF_length S) as Hlen.
  destruct (nth_defined (sort (N:=FloatNumber) S) 0) as [mn Hmn];
    [rewrite Hlen; lia|].
  destruct (nth_defined (sort (N:=FloatNumber) S) (length S / 2)) as [md Hmd];
    [rewrite Hlen; lia|].
  destruct (nth_defined (sort (N:=FloatNumber) S) k95) as [q95 H95];
    [rewrite Hlen; lia|].
  destruct (nth_defined (sort (N:=FloatNumber) S) k99) as [q99 H99'];
    [rewrite Hlen; lia|].
  destruct (nth_defined (sort (N:=FloatNumber) S) (length S - 1)) as [mx Hmx];
    [rewrite Hlen; lia|].
  exists mn, md, q95, q99, mx. rewrite Fmin, Fmax, Fmed, F95, F99.
  do 5 (split; [assumption|]).
  split; [apply (ascending_nth _ Hsn Hasc 0 (length S / 2));
          [lia|assumption..]|].
  split; [apply (ascending_nth _ Hsn Hasc (length S / 2) k95);
          [lia|assumption..]|].
  split; [apply (ascending_nth _ Hsn Hasc k95 k99); [lia|assumption..]|].
  apply (ascending_nth _ Hsn Hasc k99 (length S - 1)); [lia|assumption..].
Qed.

End OrderedSummary.

Section Deviation.

Import Binary64.

Local Abbreviation squares S :=
  (map (fun v : float =>
          PrimFloat.mul
            (PrimFloat.sub v (mean (calculateStats (N:=FloatNumber) S)))
            (PrimFloat.sub v (mean (calculateStats (N:=FloatNumber) S)))) S).

Lemma eqb_zero (d : float) :
  PrimFloat.eqb d 0 = true -> exists s, Prim2SF d = S754_zero s.
Proof.
  rewrite FloatAxioms.eqb_spec. change (Prim2SF 0) with (S754_zero false).
  destruct (Prim2SF d) as [s|s| |s m e]; unfold SFeqb; cbn.
  - intros _. now exists s.
  - destruct s; discriminate.
  - discriminate.
  - destruct s; discriminate.
Qed.

Lemma sum_of_zeros (l : list float) (acc : float) :
  Prim2SF acc = S754_zero false ->
  Forall (fun x => Prim2SF x = S754_zero false) l ->
  Prim2SF (fold_left PrimFloat.add l acc) = S754_zero false.
Proof.
  revert acc. induction l as [|x l IH]; intros acc Ha Hl; [exact Ha|].
  inversion Hl as [|? ? Hx Hl']; subst. cbn [fold_left]. apply IH; [|exact Hl'].
  rewrite FloatAxioms.add_spec, Ha, Hx. reflexivity.
Qed.

(** X10. In binary64, [stdDev] is the square root of the sum of the squared
    deviations from the computed mean, divided by N, each step rounded.  It
    is never negative (it is NaN or [>= 0]), and it is [0] for a non-empty
    series all of whose deviations [v - mean] are zero.  It is not a measure
    of constancy, though: [[0, 1e-200]] has [stdDev] 0 (the squares
    underflow), and the constant series [[0.1, 0.1, 0.1]] has a [stdDev]
    that is not 0 (its computed mean is not 0.1). *)
Theorem stdDev_is_root_of_variance (S : list float) :
  stdDev (calculateStats S)
    = PrimFloat.sqrt
        (PrimFloat.div (fold_left PrimFloat.add (squares S) 0%float)
                       (F64.ofLength (length S))) /\
  notNegative (stdDev (calculateStats S)) /\
  (S <> [] -> (Z.of_nat (length S) < 2 ^ 53)%Z ->
   Forall (fun v =>
             PrimFloat.eqb (PrimFloat.sub v (mean (calculateStats S))) 0
               = true) S ->
   stdDev (calculateStats S) = 0%float) /\
  stdDev (calculateStats [0; 1e-200]%float) = 0%float /\
  stdDev (calculateStats [0.1; 0.1; 0.1]%float) = 1.3877787807814457e-17%float.
Proof.
  split; [reflexivity|]. split; [apply sqrt_notNegative|].
  split; [|split; reflexivity].
  intros Hne Hb Hall.
  apply Prim2SF_inj. change (Prim2SF 0) with (S754_zero false).
  change (stdDev (calculateStats (N:=FloatNumber) S))
    with (PrimFloat.sqrt
            (PrimFloat.div (fold_left PrimFloat.add (squares S) 0%float)
                           (F64.ofLength (length S)))).
  assert (Hsum : Prim2SF (fold_left PrimFloat.add (squares S) 0%float)
                 = S754_zero false).
  { apply sum_of_zeros; [reflexivity|].
    apply Forall_map. eapply Forall_impl; [|exact Hall].
    intros v Hv. cbv beta in *. destruct (eqb_zero _ Hv) as [s Hs].
    rewrite FloatAxioms.mul_spec, Hs. cbn. now destruct s. }
  pose proof (ofLength_represents (length S) Hb) as Hr.
  change (ofLength (JSNumber:=FloatNumber) (length S))
    with (F64.ofLength (length S)) in Hr.
  assert (Hn : 0 < length S) by (destruct S; [congruence | cbn; lia]).
  destruct (Z.of_nat (length S)) as [|p|p] eqn:En; try lia.
  destruct Hr as (_ & q & _ & Hq).
  rewrite FloatAxioms.sqrt_spec, FloatAxioms.div_spec, Hsum, Hq. reflexivity.
Qed.

End Deviation.

(** ** What a run leaves behind *)

Section ProtocolFacts.

Import Protocol.

Context {N : JSNumber}.
Variables Input Output World : Type.
Variable host : Host Input Output World.

Local Abbreviation St := (State Input Output World).
Local Abbreviation noExport :=
  (forallb (fun e : Event Input Output => negb (isExport e))).

Lemma silent_ret {A : Type} (a : A) :
  silent (ret (Input:=Input) (Output:=Output) (World:=World) a).
Proof. intros st. split; [reflexivity|]. exists []. now rewrite app_nil_r. Qed.

Lemma silent_throw {A : Type} (e : JsError) :
  silent (throw (Input:=Input) (Output:=Output) (World:=World) (A:=A) e).
Proof. intros st. split; [reflexivity|]. exists []. now rewrite app_nil_r. Qed.

Lemma silent_bind {A B : Type}
    (m : M Input Output World A) (k : A -> M Input Output World B) :
  silent m -> (forall a, silent (k a)) -> silent (bind m k).
Proof.
  intros Hm Hk st. unfold bind.
  destruct (Hm st) as (Am & evs1 & Tm & Em).
  destruct (m st) as [[a|e] st1]; cbn [snd] in *.
  - destruct (Hk a st1) as (Ak & evs2 & Tk & Ek).
    split; [congruence|]. exists (evs1 ++ evs2).
    rewrite Tk, Tm, app_assoc, forallb_app, Em, Ek. now split.
  - split; [exact Am|]. now exists evs1.
Qed.

Lemma silent_read {A : Type} (f : World -> A * World) :
  silent (read (Input:=Input) (Output:=Output) f).
Proof.
  intros st. unfold read. destruct (f (world st)) as [a w]. cbn.
  split; [reflexivity|]. exists []. now rewrite app_nil_r.
Qed.

Lemma silent_runAlgorithm
    (impl : Input -> World -> Outcome Output * World)
    (ev : Input -> Outcome Output -> Event Input Output) (testData : Input) :
  (forall x r, isExport (ev x r) = false) ->
  silent (runAlgorithm impl ev testData).
Proof.
  intros Hev st. unfold runAlgorithm.
  destruct (impl testData (world st)) as [r w]. cbn.
  split; [reflexivity|]. exists [ev testData r]. cbn. now rewrite Hev.
Qed.

Lemma silent_validate (validator : option (Validator Output)) (i : nat)
    (w j : Output) (old : ValidationResult) :
  silent (validate (Input:=Input) (World:=World) validator i w j old).
Proof.
  unfold validate. destruct validator as [v|]; [|apply silent_ret].
  destruct (Nat.eqb i 0); [|apply silent_ret].
  apply silent_bind.
  - intros st. unfold callValidator. cbn.
    split; [reflexivity|]. now exists [Validate w j].
  - intros [r|]; [apply silent_ret | apply silent_throw].
Qed.

Lemma silent_trial (testData : Input) (validator : option (Validator Output))
    (i : nat) (s : Samples) :
  silent (trial host testData validator i s).
Proof.
  unfold trial.
  repeat first
    [ apply silent_bind; [|intros ?]
    | apply silent_read
    | apply silent_runAlgorithm; reflexivity
    | apply silent_validate
    | apply silent_ret ].
Qed.

Lemma silent_trialLoop (testData : Input)
    (validator : option (Validator Output)) (r : nat) :
  forall (i : nat) (s : Samples),
    silent (trialLoop host testData validator r i s).
Proof.
  induction r as [|r IH]; intros i s; cbn [trialLoop].
  - apply silent_ret.
  - apply silent_bind; [apply silent_trial | intros s'; apply IH].
Qed.

Lemma callExport_state
    (hook : list Metrics -> Metrics -> World -> Outcome unit * World)
    (m : Metrics) (st : St) :
  trace (snd (callExport hook m st)) = trace st ++ [Export m] /\
  allResults (snd (callExport hook m st)) = allResults st.
Proof.
  unfold callExport.
  destruct (hook (allResults st) m (world st)) as [r w]. now split.
Qed.

(** [runTest] never touches [allResults], however it ends. *)
Lemma runTest_keeps_allResults
    (algorithmName algorithmType size : string) (testData : Input)
    (iterations : nat) (validator : option (Validator Output)) (st : St) :
  allResults
    (snd (runTest host algorithmName algorithmType size testData iterations
            validator st)) = allResults st.
Proof.
  unfold runTest, bind.
  destruct (silent_trialLoop testData validator iterations 0 emptySamples st)
    as (Al & _).
  destruct (trialLoop host testData validator iterations 0 emptySamples st)
    as [[s|e] st1]; cbn [snd] in *; [|exact Al].
  unfold exportAndReturn. destruct (exportResults host) as [hook|].
  - unfold bind.
    destruct (callExport_state hook
                (finish algorithmName algorithmType size s) st1) as (_ & Ae).
    destruct (callExport hook (finish algorithmName algorithmType size s) st1)
      as [[[]|e] st2]; cbn [snd ret] in *; congruence.
  - cbn [snd ret]. exact Al.
Qed.


(** The call of the validator inside an iteration that completes. *)
(** X12. The validation record of the metrics that [runTest] returns.
    Without a validator, or with no iteration, it is the initial
    [{success: true, discrepancies: []}].  With a validator and at least one
    iteration it is fixed by the first iteration alone: [success] is what the
    validator returned on the first pair of results, and [discrepancies] is
    the validator's list when it reported failure and stays empty when it
    reported success, whatever list came with it. *)
Theorem validation_record_is_set_by_first_trial
    (algorithmName algorithmType size : string) (testData : Input)
    (iterations : nat) (validator : option (Validator Output))
    (st st' : St) (m : Metrics) :
  runTest host algorithmName algorithmType size testData iterations validator
    st = (Returned m, st') ->
  match validator, iterations with
  | Some v, S _ =>
      exists (w j : Output) (vr : ValidationResult) (rest : list (Event Input Output)),
        trace st' = trace st ++ WasmRun testData (Returned w)
                                :: JsRun testData (Returned j)
                                :: Validate w j :: rest /\
        v w j = Returned (Some vr) /\
        success (validationResults m) = success vr /\
        discrepancies (validationResults m)
          = if success vr then [] else discrepancies vr
  | _, _ =>
      validationResults m = {| success := true; discrepancies := [] |}
  end.
Proof.
  intros H. apply runTest_Returned in H.
  destruct H as (s & st1 & Hl & -> & Tr & _).
  cbn [validationResults finish].
  destruct validator as [v|].
  - destruct iterations as [|n].
    + now injection Hl as <- _.
    + cbn [trialLoop] in Hl.
      apply bind_Returned in Hl. destruct Hl as (s1 & st2 & Ht & Hl).
      pose proof Ht as Hinv. apply trial_Returned in Hinv.
      destruct Hinv as (w & j & Tr1 & _ & _ & _ & _ & _ & Hv).
      destruct (Hv v eq_refl eq_refl) as (vr & Ev & Es).
      pose proof (silent_trialLoop testData (Some v) n 1 s1 st2) as Hs.
      destruct Hs as (_ & evs & Tr2 & _). rewrite Hl in Tr2. cbn [snd] in Tr2.
      apply trialLoop_keeps_validation in Hl; [|right; discriminate].
      exists w, j, vr, (evs ++ exportEvents host
                                 (finish algorithmName algorithmType size s)).
      split.
      { rewrite Tr, Tr2, Tr1. cbn [validationEvents Nat.eqb].
        rewrite <- !app_assoc. reflexivity. }
      split; [exact Ev|].
      rewrite Hl, Es. cbn [updated success discrepancies emptySamples
                             sValidation]. now split.
  - apply trialLoop_keeps_validation in Hl; [|now left].
    rewrite Hl. destruct iterations; reflexivity.
Qed.

End ProtocolFacts.

(** ** Runs that fail, and the runner with a database *)

Section DatabaseRunnerFacts.

Import Protocol.

Context {N : JSNumber}.
Variables Input Output World : Type.
Variable host : Host Input Output World.

Local Abbreviation St := (State Input Output World).
Local Abbreviation noExport :=
  (forallb (fun e : Event Input Output => negb (isExport e))).

(** X13. When the managed implementation rejects, a run of at least one
    iteration ends in the first iteration with that exception (or with the
    native one, if the native call rejected first): nothing is validated,
    nothing is exported, [allResults] is untouched, and
    [TestRunnerWithDatabase.runTest] returns the minimal error result. *)
Theorem failing_implementation_aborts_run
    (algorithmName algorithmType size : string) (testData : Input)
    (n : nat) (validator : option (Validator Output)) (saveToJson : bool)
    (st : St) :
  alwaysThrows (jsRunAlgorithm host) ->
  exists (e : JsError) (st' : St),
    runTest host algorithmName algorithmType size testData (S n) validator st
      = (Thrown e, st') /\
    (trace st' = trace st ++ [WasmRun testData (Thrown e)] \/
     exists w : Output,
       trace st' = trace st ++ [WasmRun testData (Returned w);
                                JsRun testData (Thrown e)]) /\
    allResults st' = allResults st /\
    TestRunnerWithDatabase.runTest host saveToJson algorithmName algorithmType
      size testData (S n) validator st
      = (Some (TestRunnerWithDatabase.errorResult
                 algorithmName algorithmType size e), st').
Proof.
  intros Hjs.
  assert (Ht : exists e st',
             trial host testData validator 0 emptySamples st = (Thrown e, st')
             /\ (trace st' = trace st ++ [WasmRun testData (Thrown e)] \/
                 exists w : Output,
                   trace st' = trace st ++ [WasmRun testData (Returned w);
                                            JsRun testData (Thrown e)])
             /\ allResults st' = allResults st).
  { unfold trial, bind, read, runAlgorithm.
    destruct (now host (world st)) as [t1 w1]; cbn [world setWorld].
    destruct (measureMemory host w1) as [m1 w2]; cbn [world setWorld].
    destruct (wasmRunAlgorithm host testData w2) as [[w|e] w3];
      cbn [world setWorld record].
    - destruct (measureMemory host w3) as [m2 w4]; cbn [world setWorld].
      destruct (now host w4) as [t2 w5]; cbn [world setWorld].
      destruct (now host w5) as [t3 w6]; cbn [world setWorld].
      destruct (measureMemory host w6) as [m3 w7]; cbn [world setWorld].
      destruct (Hjs testData w7) as (e & w8 & ->).
      eexists. eexists. split; [reflexivity|].
      cbn [trace allResults record setWorld]. split; [|reflexivity].
      right. exists w. now rewrite <- app_assoc.
    - eexists. eexists. split; [reflexivity|].
      cbn [trace allResults]. split; [now left | reflexivity]. }
  destruct Ht as (e & st' & Ht & Tr & Al).
  assert (Hr : runTest host algorithmName algorithmType size testData (S n)
                 validator st = (Thrown e, st')).
  { unfold runTest. apply bind_Thrown. cbn [trialLoop]. now apply bind_Thrown. }
  exists e, st'. split; [exact Hr|]. split; [exact Tr|]. split; [exact Al|].
  unfold TestRunnerWithDatabase.runTest. now rewrite Hr.
Qed.

(** What [TestRunnerWithDatabase.runTest] adds to [allResults]. *)
Lemma database_runTest_allResults
    (saveToJson : bool) (algorithmName algorithmType sizeName : string)
    (testData : Input) (iterations : nat)
    (validator : option (Validator Output)) (st : St) :
  allResults
    (snd (TestRunnerWithDatabase.runTest host saveToJson algorithmName
            algorithmType sizeName testData iterations validator st))
    = allResults st
      ++ match fst (TestRunner.runTest host algorithmName algorithmType
                      sizeName testData iterations validator st) with
         | Returned m => if isNaN (speedup m) then [] else [m]
         | Thrown _ => []
         end.
Proof.
  unfold TestRunnerWithDatabase.runTest.
  pose proof (runTest_keeps_allResults Input Output World host algorithmName
                algorithmType sizeName testData iterations validator st) as Al.
  destruct (TestRunner.runTest host algorithmName algorithmType sizeName
              testData iterations validator st) as [[m|e] st1];
    cbn [fst snd] in *; [|now rewrite app_nil_r].
  destruct (isNaN (speedup m)); [now rewrite app_nil_r|].
  destruct saveToJson; [destruct (exportResults host) as [hook|]|].
  - destruct (callExport_state Input Output World hook m
                (TestRunnerWithDatabase.pushResult Input Output World m st1))
      as (_ & Ae).
    destruct (callExport hook m
                (TestRunnerWithDatabase.pushResult Input Output World m st1))
      as [[[]|e] st3]; cbn [fst snd] in *; rewrite Ae;
      cbn [allResults TestRunnerWithDatabase.pushResult]; now rewrite Al.
  - cbn [snd allResults TestRunnerWithDatabase.pushResult]. now rewrite Al.
  - cbn [snd allResults TestRunnerWithDatabase.pushResult]. now rewrite Al.
Qed.

(** X14. What [TestRunnerWithDatabase.runTest] adds to [allResults]: the
    metrics of the inner run when that run returned metrics whose speedup is
    not NaN, and nothing otherwise; the minimal error result is returned but
    never stored, and [null] is returned exactly for a NaN speedup. *)
Theorem database_runner_stores_only_completed_runs
    (saveToJson : bool) (algorithmName algorithmType size : string)
    (testData : Input) (iterations : nat)
    (validator : option (Validator Output)) (st : St) :
  let inner := TestRunner.runTest host algorithmName algorithmType size
                 testData iterations validator st in
  let r := TestRunnerWithDatabase.runTest host saveToJson algorithmName
             algorithmType size testData iterations validator st in
  allResults (snd r)
    = allResults st ++ match fst inner with
                       | Returned m => if isNaN (speedup m) then [] else [m]
                       | Thrown _ => []
                       end /\
  (fst r = None <->
   exists m, fst inner = Returned m /\ isNaN (speedup m) = true) /\
  (forall e, fst inner = Thrown e ->
     fst r = Some (TestRunnerWithDatabase.errorResult
                     algorithmName algorithmType size e)).
Proof.
  cbv zeta. split; [apply database_runTest_allResults|].
  unfold TestRunnerWithDatabase.runTest.
  destruct (TestRunner.runTest host algorithmName algorithmType size testData
              iterations validator st) as [[m|e] st1]; cbn [fst snd].
  - destruct (isNaN (speedup m)) eqn:En.
    + split; [|discriminate]. split; [intros _; now exists m | reflexivity].
    + assert (Hnone : forall x : Metrics,
                Some x = None <->
                exists m0, Returned m = Returned m0 /\
                           isNaN (speedup m0) = true).
      { intros x. split; [discriminate|].
        intros (m0 & E & H). injection E as <-. congruence. }
      destruct saveToJson; [destruct (exportResults host) as [hook|]|].
      * destruct (callExport hook m
                    (TestRunnerWithDatabase.pushResult Input Output World m st1))
          as [[[]|e] st3]; cbn [fst]; (split; [apply Hnone | discriminate]).
      * cbn [fst]. split; [apply Hnone | discriminate].
      * cbn [fst]. split; [apply Hnone | discriminate].
  - split.
    + split; [discriminate|]. intros (m & E & _). discriminate.
    + intros e' E. now injection E as <-.
Qed.


End DatabaseRunnerFacts.

(** ** [runCompleteBenchmark] *)

Section CompleteBenchmarkFacts.

Import CompleteBenchmark.

Context {N : JSNumber}.
Variables Input Output World : Type.
Variable host : Host Input Output World.

Local Abbreviation St := (State Input Output World).

(** What [runTest] returns is never the error result of the subclass: its
    series are not empty, or its [min] is undefined. *)
Lemma runTest_not_errorResult (algorithmName algorithmType size : string)
    (testData : Input) (iterations : nat)
    (validator : option (Validator Output)) (st st' : St) (m : Metrics) :
  TestRunner.runTest host algorithmName algorithmType size testData
    iterations validator st = (Returned m, st') ->
  forall (name type size' : string) (e : JsError),
    m <> TestRunnerWithDatabase.errorResult name type size' e.
Proof.
  intros H name type0 size' e Heq.
  apply runTest_Returned in H. destruct H as (s & st0 & _ & -> & _).
  pose proof (f_equal wasmTimes Heq) as Ht.
  pose proof (f_equal (fun m => min (wasmStats m)) Heq) as Hmin.
  cbn [wasmTimes finish TestRunnerWithDatabase.errorResult] in Ht.
  cbn [wasmStats finish TestRunnerWithDatabase.errorResult min
       TestRunnerWithDatabase.zeroStats calculateStats] in Hmin.
  rewrite Ht in Hmin. cbn [sort] in Hmin. unfold lookup in Hmin.
  destruct (toIndex zero) as [z|]; [|discriminate].
  destruct (z <? Z.of_nat (length (@nil num)))%Z; [|discriminate].
  destruct (Z.to_nat z); discriminate.
Qed.

Lemma runSizes_stored (saveToJson : bool)
    (algorithmName algorithmType : string) (iterations : nat)
    (validator : option (Validator Output))
    (sizes : list (string * Input)) :
  forall st : St,
    exists stored,
      allResults (snd (runSizes host saveToJson algorithmName algorithmType
                         sizes iterations validator st))
        = allResults st ++ stored /\
      Subsequence (map size stored) (map fst sizes) /\
      Forall (completedRun host algorithmName algorithmType sizes iterations
                validator) stored /\
      fst (runSizes host saveToJson algorithmName algorithmType sizes
             iterations validator st) <= length sizes.
Proof.
  induction sizes as [|[sizeName sizeValue] rest IH]; intros st.
  - exists []. cbn. rewrite app_nil_r. repeat split; constructor.
  - cbn [runSizes].
    pose proof (database_runTest_allResults Input Output World host saveToJson
                  algorithmName algorithmType sizeName sizeValue iterations
                  validator st) as Hone.
    assert (Hm : forall m st1,
               TestRunner.runTest host algorithmName algorithmType sizeName
                 sizeValue iterations validator st = (Returned m, st1) ->
               size m = sizeName).
    { intros m st1 H. apply runTest_Returned in H.
      destruct H as (s & st0 & _ & -> & _). reflexivity. }
    destruct (TestRunnerWithDatabase.runTest host saveToJson algorithmName
                algorithmType sizeName sizeValue iterations validator st)
      as [result st1]. cbn [snd] in Hone.
    destruct (IH st1) as (stored & Hrest & Hsub & Hall & Hcount).
    assert (Hall' : Forall (completedRun host algorithmName algorithmType
                              ((sizeName, sizeValue) :: rest) iterations
                              validator) stored).
    { eapply Forall_impl; [|exact Hall].
      intros m (n & v & st0 & st2 & Hin & Hr & Hs).
      exists n, v, st0, st2. split; [now right | now split]. }
    destruct (runSizes host saveToJson algorithmName algorithmType rest
                iterations validator st1) as [successfulTests st2].
    cbn [fst snd map length] in *.
    destruct (TestRunner.runTest host algorithmName algorithmType sizeName
                sizeValue iterations validator st) as [[m|e] st0] eqn:Hrun;
      cbn [fst] in Hone.
    + pose proof (Hm m st0 eq_refl) as Hsize.
      destruct (isNaN (speedup m)) eqn:En.
      * exists stored. rewrite app_nil_r in Hone.
        split; [congruence|]. split; [now constructor|].
        split; [exact Hall'|]. destruct (successful result); lia.
      * exists (m :: stored).
        split; [rewrite Hrest, Hone, <- app_assoc; reflexivity|].
        split; [cbn [map]; rewrite Hsize; now constructor|].
        split.
        { constructor; [|exact Hall'].
          exists sizeName, sizeValue, st, st0.
          split; [now left | now split]. }
        destruct (successful result); lia.
    + exists stored. rewrite app_nil_r in Hone.
      split; [congruence|]. split; [now constructor|].
      split; [exact Hall'|]. destruct (successful result); lia.
Qed.

(** X16. [runCompleteBenchmark] starts from an empty [allResults] and returns
    what the runs of this benchmark stored there: at most one entry per size,
    in the order of the sizes, each being the metrics that a run of the
    inherited [runTest] returned for one of the sizes (so with the given
    algorithm name and type), with a speedup that is not NaN; none of them is
    an error result.  The database plays no part in it: the list is the same
    with or without a database manager, whether or not the save throws, and
    [allResults] is the returned list again afterwards. *)
Theorem runCompleteBenchmark_returns_completed_runs
    (databaseManager : option (list Metrics -> World -> Outcome unit * World))
    (saveToDatabase saveToJson : bool)
    (algorithmName algorithmType : string) (sizes : list (string * Input))
    (iterations : nat) (validator : option (Validator Output)) (st : St) :
  let r := runCompleteBenchmark host databaseManager saveToDatabase saveToJson
             algorithmName algorithmType sizes iterations validator st in
  Subsequence (map size (fst r)) (map fst sizes) /\
  Forall (completedRun host algorithmName algorithmType sizes iterations
            validator) (fst r) /\
  Forall (fun m : Metrics =>
            algorithm m = algorithmName /\ type m = algorithmType /\
            isNaN (speedup m) = false /\
            forall (name type size : string) (e : JsError),
              m <> TestRunnerWithDatabase.errorResult name type size e)
         (fst r) /\
  allResults (snd r) = fst r /\
  fst r = fst (runCompleteBenchmark host None false saveToJson algorithmName
                 algorithmType sizes iterations validator st).
Proof.
  cbv zeta. unfold runCompleteBenchmark.
  destruct (runSizes_stored saveToJson algorithmName algorithmType iterations
              validator sizes (setResults [] st))
    as (stored & Hst & Hsub & Hall & _).
  destruct (runSizes host saveToJson algorithmName algorithmType sizes
              iterations validator (setResults [] st))
    as [successfulTests st1].
  cbn [fst snd allResults setResults app andb] in *.
  assert (Hsame :
    allResults
      (if saveToDatabase && negb (Nat.eqb (length (allResults st1)) 0) then
         if negb (Nat.eqb
                    (length (filter (fun r => isPositive (speedup r))
                               (allResults st1))) 0)
         then
           let (_, st') :=
             saveBenchmarkToDatabase databaseManager
               (setResults (filter (fun r => isPositive (speedup r))
                              (allResults st1)) st1) in
           setResults (allResults st1) st'
         else st1
       else st1) = allResults st1).
  { destruct (saveToDatabase && negb (Nat.eqb (length (allResults st1)) 0));
      [|reflexivity].
    destruct (negb (Nat.eqb (length (filter (fun r => isPositive (speedup r))
                                       (allResults st1))) 0));
      [|reflexivity].
    destruct (saveBenchmarkToDatabase databaseManager _) as [o st'].
    reflexivity. }
  rewrite Hsame, Hst.
  split; [exact Hsub|]. split; [exact Hall|]. split; [|split; reflexivity].
  eapply Forall_impl; [|exact Hall].
  intros m (n & v & st0 & st2 & _ & Hr & Hs).
  pose proof (runTest_not_errorResult _ _ _ _ _ _ _ _ _ Hr) as Hne.
  apply runTest_Returned in Hr. destruct Hr as (s & st3 & _ & -> & _).
  repeat split; assumption.
Qed.

End CompleteBenchmarkFacts.

(** ** [runBenchmark] and its validator *)

Section RunBenchmarkFacts.

Import RunBenchmark.

Lemma sizeMap_None (size : string) :
  ~ In size (["small"; "medium"; "large"]%string ++ objectPrototypeKeys) ->
  sizeMap size = None.
Proof.
  intros H. unfold sizeMap.
  destruct (String.eqb_spec size "small") as [-> | _];
    [exfalso; apply H; cbn; tauto|].
  destruct (String.eqb_spec size "medium") as [-> | _];
    [exfalso; apply H; cbn; tauto|].
  destruct (String.eqb_spec size "large") as [-> | _];
    [exfalso; apply H; cbn; tauto|].
  destruct (existsb (String.eqb size) objectPrototypeKeys) eqn:E;
    [|reflexivity].
  apply existsb_exists in E. destruct E as (k & Hk & Ek).
  apply String.eqb_eq in Ek. subst k.
  exfalso. apply H. apply in_or_app. now right.
Qed.

Lemma cell_present (m : list (list float)) (i j : nat) :
  i < length m -> exists v, cell m i j = Returned v.
Proof.
  intros H. unfold cell.
  destruct (nth_error m i) as [row|] eqn:E; [now eexists|].
  apply nth_error_None in E. lia.
Qed.

Lemma cell_missing (m : list (list float)) (i j : nat) :
  length m <= i -> cell m i j = Thrown (TypeError_index j).
Proof.
  intros H. unfold cell.
  now rewrite (proj2 (nth_error_None m i) H).
Qed.

Lemma compareCell_present (ws js : list (list float)) (i j : nat) :
  i < length ws -> i < length js ->
  exists ms, compareCell ws js i j = Returned ms /\ length ms <= 1.
Proof.
  intros Hw Hj. unfold compareCell.
  destruct (cell_present ws i j Hw) as [w ->].
  destruct (cell_present js i j Hj) as [v ->].
  destruct w as [a|], v as [b|]; try (exists []; split; [reflexivity|cbn; lia]).
  destruct (F64.gt _ _); eexists; (split; [reflexivity|cbn; lia]).
Qed.

Lemma columnLoop_present (ws js : list (list float)) (i remaining : nat) :
  i < length ws -> i < length js ->
  forall j, exists ms,
    columnLoop ws js i remaining j = Returned ms /\ length ms <= remaining.
Proof.
  intros Hw Hj. induction remaining as [|r IH]; intros j.
  - exists []. split; [reflexivity | cbn; lia].
  - cbn [columnLoop].
    destruct (compareCell_present ws js i j Hw Hj) as (here & -> & Hh).
    destruct (IH (S j)) as (rest & -> & Hr).
    exists (here ++ rest). split; [reflexivity|]. rewrite length_app. lia.
Qed.

Lemma rowLoop_present (ws js : list (list float)) (size remaining : nat) :
  forall i,
    i + remaining <= length ws -> i + remaining <= length js ->
    exists ms,
      rowLoop ws js size remaining i = Returned ms /\
      length ms <= remaining * size.
Proof.
  induction remaining as [|r IH]; intros i Hw Hj.
  - exists []. split; [reflexivity | cbn; lia].
  - cbn [rowLoop].
    destruct (columnLoop_present ws js i size ltac:(lia) ltac:(lia) 0)
      as (here & -> & Hh).
    destruct (IH (S i) ltac:(lia) ltac:(lia)) as (rest & -> & Hr).
    exists (here ++ rest). split; [reflexivity|]. rewrite length_app. lia.
Qed.

Lemma rowLoop_missing (ws js : list (list float)) (size remaining : nat) :
  length ws = length js ->
  forall i,
    i <= length ws -> length ws < i + remaining ->
    rowLoop ws js (S size) remaining i = Thrown (TypeError_index 0).
Proof.
  intros Hlen. induction remaining as [|r IH]; intros i Hi Hr; [lia|].
  cbn [rowLoop].
  destruct (Nat.eq_dec i (length ws)) as [-> | Hne].
  - cbn [columnLoop]. unfold compareCell.
    now rewrite (cell_missing ws (length ws) 0 (le_n _)).
  - destruct (columnLoop_present ws js i (S size) ltac:(lia) ltac:(lia) 0)
      as (here & -> & _).
    now rewrite (IH (S i)) by lia.
Qed.

Lemma matrixCheck_short (dimensions : Dimensions) (ws js : list (list float)) :
  length ws = length js -> length ws < sampleSize dimensions ->
  matrixCheck dimensions (Rows ws) (Rows js) = Thrown (TypeError_index 0).
Proof.
  intros Hlen Hshort. unfold matrixCheck.
  rewrite Hlen, Nat.eqb_refl. cbn [negb].
  destruct (sampleSize dimensions) as [|size] eqn:E; [lia|].
  now rewrite (rowLoop_missing ws js size (S size) Hlen 0) by lia.
Qed.

Section WithHost.

Variable World : Type.
Variable host : Host (N:=FloatNumber) Dimensions MatrixValue World.
Variable entry : MatrixMessage -> Discrepancy (N:=FloatNumber).

Local Abbreviation St := (State (N:=FloatNumber) Dimensions MatrixValue World).

(** X17. [runBenchmark] on a [size] that is neither [small], [medium] or
    [large] nor a key that every object inherits throws [Invalid size]
    before anything is measured or called; and when it returns, it returns
    one metrics object, of type [math], for that algorithm and size, with
    [iterations] timings per implementation, having left [allResults] as it
    was. *)
Theorem runBenchmark_outcome (algorithm size : string) (iterations : nat)
    (st : St) :
  (~ In size (["small"; "medium"; "large"]%string ++ objectPrototypeKeys) ->
   runBenchmark World host entry algorithm size iterations st
     = (Thrown (Error (String.append "Invalid size: " size)), st)) /\
  (forall results st',
     runBenchmark World host entry algorithm size iterations st
       = (Returned results, st') ->
     exists dimensions m,
       sizeMap size = Some dimensions /\
       results = [m] /\
       TestRunner.algorithm m = algorithm /\
       TestRunner.type m = "math"%string /\
       TestRunner.size m = size /\
       length (wasmTimes m) = iterations /\
       length (jsTimes m) = iterations /\
       allResults st' = allResults st).
Proof.
  split.
  - intros H. unfold runBenchmark. now rewrite (sizeMap_None size H).
  - intros results st' H. unfold runBenchmark in H.
    destruct (sizeMap size) as [dimensions|]; [|discriminate].
    apply bind_Returned in H. destruct H as (m & st1 & Hr & Hk).
    injection Hk as <- <-.
    pose proof (runTest_keeps_allResults _ _ _ host algorithm "math" size
                  dimensions iterations (Some (validator entry dimensions)) st)
      as Al.
    rewrite Hr in Al. cbn [snd] in Al.
    apply runTest_Returned in Hr. destruct Hr as (s & st0 & Hl & -> & _).
    apply trialLoop_Returned in Hl.
    destruct Hl as (evs & _ & _ & _ & L1 & L2 & _ & _).
    exists dimensions. eexists. repeat split; assumption.
Qed.

(** X18. The validator of [runBenchmark] on two arrays of the same length:
    with fewer rows than the sample size, min(10, dimensions), it does not
    report a failure but throws the TypeError of reading a missing row; with
    at least that many rows it returns, with at most one discrepancy per
    sampled cell. *)
Theorem matrix_validator_throws_on_missing_rows
    (dimensions : Dimensions) (ws js : list (list float)) :
  length ws = length js ->
  (length ws < sampleSize dimensions ->
   validator entry dimensions (Rows ws) (Rows js)
     = Thrown (TypeError_index 0)) /\
  (sampleSize dimensions <= length ws ->
   exists r,
     validator entry dimensions (Rows ws) (Rows js) = Returned (Some r) /\
     success r = Nat.eqb (length (discrepancies r)) 0 /\
     length (discrepancies r) <= sampleSize dimensions * sampleSize dimensions).
Proof.
  intros Hlen. split.
  - intros Hshort. unfold validator.
    now rewrite (matrixCheck_short dimensions ws js Hlen Hshort).
  - intros Hrows. unfold validator, matrixCheck.
    rewrite Hlen, Nat.eqb_refl. cbn [negb].
    destruct (rowLoop_present ws js (sampleSize dimensions)
                (sampleSize dimensions) 0 ltac:(lia) ltac:(lia))
      as (ms & -> & Hms).
    eexists. split; [reflexivity|].
    cbn [success discrepancies]. rewrite length_map. now split.
Qed.

(** X19. So a benchmark whose two implementations both hand back fewer than
    ten rows (the same number of them) does not end with a failed
    validation: for each of the three sizes, the first iteration's call of
    the validator throws, and [runBenchmark] with it. *)
Theorem runBenchmark_crashes_on_short_results
    (algorithm size : string) (n k : nat) (st : St) :
  In size ["small"; "medium"; "large"]%string ->
  k < 10 ->
  (forall x w, exists rows w',
     wasmRunAlgorithm host x w = (Returned (Rows rows), w') /\
     length rows = k) ->
  (forall x w, exists rows w',
     jsRunAlgorithm host x w = (Returned (Rows rows), w') /\
     length rows = k) ->
  exists (dimensions : Dimensions) (wasmRows jsRows : list (list float))
         (st' : St),
    sizeMap size = Some dimensions /\
    runBenchmark World host entry algorithm size (S n) st
      = (Thrown (TypeError_index 0), st') /\
    trace st' = trace st ++ [WasmRun dimensions (Returned (Rows wasmRows));
                             JsRun dimensions (Returned (Rows jsRows));
                             Validate (Rows wasmRows) (Rows jsRows)] /\
    allResults st' = allResults st.
Proof.
  intros Hsize Hk Hwasm Hjs.
  assert (Hd : exists dimensions,
             sizeMap size = Some dimensions /\ sampleSize dimensions = 10).
  { destruct Hsize as [<- | [<- | [<- | []]]]; eexists; split; reflexivity. }
  destruct Hd as (dimensions & Hmap & Hsample).
  exists dimensions.
  unfold runBenchmark. rewrite Hmap.
  unfold runTest. cbn [trialLoop].
  unfold trial, bind, read, runAlgorithm.
  destruct (now host (world st)) as [t1 w1]; cbn [world setWorld].
  destruct (measureMemory host w1) as [m1 w2]; cbn [world setWorld].
  destruct (Hwasm dimensions w2) as (wasmRows & w3 & -> & Lw);
    cbn [world setWorld record].
  destruct (measureMemory host w3) as [m2 w4]; cbn [world setWorld].
  destruct (now host w4) as [t2 w5]; cbn [world setWorld].
  destruct (now host w5) as [t3 w6]; cbn [world setWorld].
  destruct (measureMemory host w6) as [m3 w7]; cbn [world setWorld].
  destruct (Hjs dimensions w7) as (jsRows & w8 & -> & Lj);
    cbn [world setWorld record].
  destruct (measureMemory host w8) as [m4 w9]; cbn [world setWorld].
  destruct (now host w9) as [t4 w10]; cbn [world setWorld].
  cbn [validate Nat.eqb]. unfold bind, callValidator, validator.
  rewrite (matrixCheck_short dimensions wasmRows jsRows) by lia.
  exists wasmRows, jsRows. eexists.
  split; [reflexivity|]. split; [reflexivity|].
  cbn [trace allResults record setWorld]. rewrite <- !app_assoc.
  split; reflexivity.
Qed.

Lemma compareCell_block (ws ws' js js' : list (list float)) (i j : nat) :
  cell ws i j = cell ws' i j -> cell js i j = cell js' i j ->
  compareCell ws js i j = compareCell ws' js' i j.
Proof. unfold compareCell. now intros -> ->. Qed.

Lemma columnLoop_block (ws ws' js js' : list (list float)) (i bound : nat) :
  (forall j, j < bound -> cell ws i j = cell ws' i j) ->
  (forall j, j < bound -> cell js i j = cell js' i j) ->
  forall remaining j,
    j + remaining <= bound ->
    columnLoop ws js i remaining j = columnLoop ws' js' i remaining j.
Proof.
  intros Hw Hj. induction remaining as [|r IH]; intros j Hb; [reflexivity|].
  cbn [columnLoop].
  rewrite (compareCell_block ws ws' js js' i j) by (first [apply Hw | apply Hj]; lia).
  now rewrite IH by lia.
Qed.

Lemma rowLoop_block (ws ws' js js' : list (list float)) (size : nat) :
  (forall i j, i < size -> j < size -> cell ws i j = cell ws' i j) ->
  (forall i j, i < size -> j < size -> cell js i j = cell js' i j) ->
  forall remaining i,
    i + remaining <= size ->
    rowLoop ws js size remaining i = rowLoop ws' js' size remaining i.
Proof.
  intros Hw Hj. induction remaining as [|r IH]; intros i Hb; [reflexivity|].
  cbn [rowLoop].
  rewrite (columnLoop_block ws ws' js js' i size) by
    (first [intros j Hlt; apply Hw; lia | intros j Hlt; apply Hj; lia | lia]).
  now rewrite IH by lia.
Qed.

(** X20. The validator of [runBenchmark] reads the lengths of the two arrays
    and their top-left block of 10 by 10 cells, and nothing else: results
    that agree there get the same verdict, whatever the rest of the matrices
    holds. *)
Theorem matrix_validator_samples_top_left_block
    (dimensions : Dimensions) (ws ws' js js' : list (list float)) :
  length ws = length ws' -> length js = length js' ->
  (forall i j, i < 10 -> j < 10 -> cell ws i j = cell ws' i j) ->
  (forall i j, i < 10 -> j < 10 -> cell js i j = cell js' i j) ->
  validator entry dimensions (Rows ws) (Rows js)
    = validator entry dimensions (Rows ws') (Rows js').
Proof.
  intros Lw Lj Hw Hj. unfold validator, matrixCheck.
  rewrite <- Lw, <- Lj.
  assert (Hs : sampleSize dimensions <= 10)
    by (destruct dimensions; cbn [sampleSize]; lia).
  rewrite (rowLoop_block ws ws' js js' (sampleSize dimensions)); try lia;
    try reflexivity.
  - intros i j Hi Hjj. apply Hw; lia.
  - intros i j Hi Hjj. apply Hj; lia.
Qed.

End WithHost.

End RunBenchmarkFacts.

(** ** The managed numeric integration, in binary64 *)

Section IntegrationFacts.

Import NumericIntegration.

Local Abbreviation runIntegration := (runAlgorithm (N:=FloatNumber) PrimFloat.abs).

(** X21. The managed numeric integration.  [simpsonIntegration] returns 0
    for [n = 0] and for an odd [n], [trapezoidalIntegration] returns 0 for
    [n = 0]; [runAlgorithm] returns [null] exactly for [n = 0], and for
    [n >= 1] the four numbers [trapezoidal, simpson, analytical,
    |trapezoidal - analytical|] on [0, 1], where Simpson's rule is given [n]
    intervals for an even [n] and [n - 1] for an odd one: for [n = 1] its
    entry is 0, far from the integral.  In binary64 the analytical value is
    2.3333333333333335, and Simpson's rule, exact for this integrand in real
    arithmetic, is not: with 1000 intervals it gives 2.333333333333337. *)
Theorem integration_guards_and_rounding :
  (forall (a b : float) (n : nat),
     n = 0 \/ n mod 2 = 1 ->
     simpsonIntegration (N:=FloatNumber) a b n = 0%float) /\
  (forall a b : float,
     trapezoidalIntegration (N:=FloatNumber) a b 0 = 0%float) /\
  (forall n : nat, runIntegration n = None <-> n = 0) /\
  (forall n : nat,
     0 < n ->
     runIntegration n =
       Some [trapezoidalIntegration (N:=FloatNumber) 0%float 1%float n;
             simpsonIntegration (N:=FloatNumber) 0%float 1%float
               (if Nat.eqb (n mod 2) 0 then n else n - 1);
             2.3333333333333335%float;
             PrimFloat.abs
               (PrimFloat.sub
                  (trapezoidalIntegration (N:=FloatNumber) 0%float 1%float n)
                  2.3333333333333335%float)]) /\
  runIntegration 1
    = Some [2.5; 0; 2.3333333333333335; 0.16666666666666652]%float /\
  simpsonIntegration (N:=FloatNumber) 0%float 1%float 1000
    = 2.333333333333337%float /\
  simpsonIntegration (N:=FloatNumber) 0%float 1%float 1000
    <> analyticalSolution (N:=FloatNumber) 0%float 1%float.
Proof.
  split.
  { intros a b n [-> | Hodd]; [reflexivity|].
    unfold simpsonIntegration. rewrite Hodd.
    now rewrite Bool.orb_true_r. }
  split; [reflexivity|].
  split.
  { intros n. unfold runAlgorithm. destruct n; [now split|].
    split; [discriminate | intros H; discriminate]. }
  split.
  { intros n Hn. unfold runAlgorithm. destruct n; [lia|]. reflexivity. }
  split; [vm_compute; reflexivity|].
  assert (H : simpsonIntegration (N:=FloatNumber) 0%float 1%float 1000
              = 2.333333333333337%float) by (vm_compute; reflexivity).
  split; [exact H|]. rewrite H. intros E. vm_compute in E. discriminate.
Qed.

End IntegrationFacts.

(** ** The Rosenbrock cost, in binary64 *)

Section CostFacts.

Import GradientDescent Binary64.

Local Abbreviation cost := (rosenbrockFunction (N:=FloatNumber)).
Local Abbreviation loop := (rosenbrockLoop (N:=FloatNumber)).

Lemma rosenbrockLoop_step (a b : float) (rest : list float) (sum : float) :
  loop (a :: b :: rest) sum =
    loop (b :: rest)
      (PrimFloat.add sum
         (PrimFloat.add
            (PrimFloat.mul
               (PrimFloat.mul (hundred (N:=FloatNumber))
                  (PrimFloat.sub b (PrimFloat.mul a a)))
               (PrimFloat.sub b (PrimFloat.mul a a)))
            (PrimFloat.mul (PrimFloat.sub 1 a) (PrimFloat.sub 1 a)))).
Proof. reflexivity. Qed.

Lemma rosenbrockLoop_notNegative (x : list float) :
  forall sum : float, notNegative sum -> notNegative (loop x sum).
Proof.
  induction x as [|a x IH]; intros sum Hs; [exact Hs|].
  destruct x as [|b rest]; [exact Hs|].
  rewrite rosenbrockLoop_step. apply IH.
  apply add_notNegative; [exact Hs|].
  apply add_notNegative; [|apply square_notNegative].
  apply scaled_square_notNegative; [discriminate | reflexivity].
Qed.

Lemma rosenbrockLoop_ones (n : nat) : loop (repeat 1%float n) 0%float = 0%float.
Proof.
  induction n as [|n IH]; [reflexivity|].
  destruct n as [|n]; [reflexivity|].
  cbn [repeat] in *. rewrite rosenbrockLoop_step. exact IH.
Qed.

(** X24. The Rosenbrock cost of the managed gradient descent, in binary64:
    it is never negative (NaN, or [>= 0]); it is exactly 0 at the point all
    of whose parameters are 1, where the convergence rate
    [1 / (1 + cost)] is exactly 1, and also for fewer than two parameters,
    whatever they are.  The rate is not always above 0: the cost of
    [[1e200, 0]] overflows to [Infinity], and its rate is 0. *)
Theorem rosenbrock_minimum_is_at_ones (x : list float) (n : nat) :
  notNegative (cost x) /\
  cost (repeat 1%float n) = 0%float /\
  convergenceRate (N:=FloatNumber) (cost (repeat 1%float n)) = 1%float /\
  (length x <= 1 -> cost x = 0%float) /\
  cost [1e200; 0]%float = infinity /\
  convergenceRate (N:=FloatNumber) (cost [1e200; 0]%float) = 0%float.
Proof.
  split.
  { apply rosenbrockLoop_notNegative. right. reflexivity. }
  split; [apply rosenbrockLoop_ones|].
  split.
  { unfold rosenbrockFunction. rewrite rosenbrockLoop_ones. reflexivity. }
  split.
  { intros Hl. destruct x as [|a [|b rest]]; [reflexivity | reflexivity|].
    cbn [length] in Hl. lia. }
  split; reflexivity.
Qed.

End CostFacts.

(** ** The matrix test of node-tests.js *)

Section NodeTestsFacts.

Import Protocol RunBenchmark NodeTests.

Section Exports.

Context {N : JSNumber}.
Variables Input Output World : Type.
Variable host : Host Input Output World.

Local Abbreviation St := (State Input Output World).
Local Abbreviation noExport :=
  (forallb (fun e : Event Input Output => negb (isExport e))).

Lemma exported_app (a b : list (Event Input Output)) :
  exported (a ++ b) = exported a ++ exported b.
Proof. apply flat_map_app. Qed.

Lemma exported_noExport (evs : list (Event Input Output)) :
  noExport evs = true -> exported evs = [].
Proof.
  induction evs as [|e evs IH]; [reflexivity|].
  cbn [forallb]. intros H. apply andb_prop in H. destruct H as [He Hr].
  destruct e; try discriminate; cbn; now apply IH.
Qed.

(** What one run hands to the export hook. *)
Lemma runTest_exported
    (algorithmName algorithmType size : string) (testData : Input)
    (iterations : nat) (validator : option (Validator Output)) (st : St) :
  let r := runTest host algorithmName algorithmType size testData iterations
             validator st in
  exists evs,
    trace (snd r) = trace st ++ evs /\
    length (exported evs) <= 1 /\
    Forall (fun m => TestRunner.size m = size /\
                     algorithm m = algorithmName /\
                     type m = algorithmType /\
                     length (wasmTimes m) = iterations /\
                     length (jsTimes m) = iterations) (exported evs) /\
    (exportResults host = None -> exported evs = []) /\
    (forall m, fst r = Returned m -> exportResults host <> None ->
               exported evs = [m]) /\
    (forall e, fst r = Thrown e -> hookReturns host -> exported evs = []).
Proof.
  cbv zeta. unfold runTest, bind.
  destruct (silent_trialLoop Input Output World host testData validator
              iterations 0 emptySamples st) as (_ & evs & Tr & Hno).
  pose proof (exported_noExport evs Hno) as Hex.
  destruct (trialLoop host testData validator iterations 0 emptySamples st)
    as [[s|e] st1] eqn:El; cbn [snd] in Tr.
  - apply trialLoop_Returned in El.
    destruct El as (_ & _ & _ & _ & L1 & L2 & _ & _).
    cbn [emptySamples sWasmTimes sJsTimes length] in L1, L2.
    set (m := finish algorithmName algorithmType size s).
    unfold exportAndReturn, hookReturns.
    destruct (exportResults host) as [hook|].
    + unfold bind, callExport.
      pose proof (Hh := fun H : forall rs m w, exists w',
                            hook rs m w = (Returned tt, w') =>
                          H (allResults st1) m (world st1)).
      destruct (hook (allResults st1) m (world st1)) as [[[]|e] w];
        cbn [fst snd ret trace record setWorld]; exists (evs ++ [Export m]);
        (split; [rewrite Tr, <- app_assoc; reflexivity|]);
        rewrite exported_app, Hex; cbn [app exported flat_map];
        (split; [cbn; lia|]);
        (split; [repeat constructor; assumption|]);
        (split; [discriminate|]).
      * split; [intros m' E _; now injection E as <- | discriminate].
      * split; [discriminate|].
        intros e' _ H. destruct (Hh H) as [w' Hw']. discriminate.
    + cbn [ret fst snd]. exists evs. rewrite Hex.
      repeat split; auto; try constructor; try discriminate.
      intros m' _ H. now contradiction H.
  - cbn [fst snd]. exists evs. rewrite Hex.
    repeat split; auto; try constructor; discriminate.
Qed.

End Exports.

Variable World : Type.
Variable host : Host (N:=FloatNumber) nat MatrixValue World.
Variable entry : MatrixMessage -> Discrepancy (N:=FloatNumber).

Local Abbreviation St := (State (N:=FloatNumber) nat MatrixValue World).

Local Abbreviation oneOfTen :=
  (fun m : Metrics (N:=FloatNumber) =>
     algorithm m = "Matrix Multiplication"%string /\
     type m = "math"%string /\
     length (wasmTimes m) = 10 /\ length (jsTimes m) = 10).

Lemma runSizes_exported (sizes : list (string * nat)) :
  forall st : St,
    let r := runSizes World host entry sizes st in
    exists evs,
      trace (snd r) = trace st ++ evs /\
      map TestRunner.size (exported evs)
        = firstn (length (exported evs)) (map fst sizes) /\
      Forall oneOfTen (exported evs) /\
      (exportResults host = None -> exported evs = []) /\
      (fst r = Returned tt -> exportResults host <> None ->
       length (exported evs) = length sizes) /\
      (forall e, fst r = Thrown e -> hookReturns host ->
                 length (exported evs) < length sizes).
Proof.
  induction sizes as [|[sizeName size] rest IH]; intros st; cbv zeta.
  - exists []. cbn. rewrite app_nil_r.
    repeat split; auto; try constructor. discriminate.
  - cbn [runSizes]. unfold bind.
    destruct (runTest_exported nat MatrixValue World host
                "Matrix Multiplication" "math" sizeName size 10
                (Some (validator entry)) st)
      as (evs1 & Tr1 & Len1 & All1 & None1 & Ret1 & Thr1).
    destruct (runTest host "Matrix Multiplication" "math" sizeName size 10
                (Some (validator entry)) st) as [[m|e] st1];
      cbn [fst snd] in *.
    + destruct (IH st1) as (evs2 & Tr2 & Pre2 & All2 & None2 & Ret2 & Thr2).
      exists (evs1 ++ evs2).
      split; [rewrite Tr2, Tr1, app_assoc; reflexivity|].
      rewrite exported_app.
      destruct (exportResults host) as [hook|] eqn:Eh.
      * rewrite (Ret1 m eq_refl ltac:(discriminate)).
        cbn [app map length firstn fst].
        assert (Hsize : TestRunner.size m = sizeName).
        { rewrite (Ret1 m eq_refl ltac:(discriminate)) in All1.
          apply Forall_inv in All1. tauto. }
        split; [rewrite Hsize, Pre2; reflexivity|].
        split.
        { constructor; [|exact All2].
          rewrite (Ret1 m eq_refl ltac:(discriminate)) in All1.
          apply Forall_inv in All1. tauto. }
        split; [discriminate|].
        split; [intros Hr Hn; now rewrite (Ret2 Hr Hn)|].
        intros e He Hh. specialize (Thr2 e He Hh). lia.
      * rewrite (None1 eq_refl), (None2 eq_refl). cbn [app map length firstn].
        split; [reflexivity|]. split; [constructor|].
        split; [reflexivity|].
        split; [intros _ H; now contradiction H|].
        intros e He Hh. lia.
    + exists evs1. split; [exact Tr1|].
      split.
      { destruct (exported evs1) as [|m [|m' l]] eqn:Ex;
          [reflexivity | | cbn in Len1; lia].
        apply Forall_inv in All1. cbn [map length firstn fst].
        now destruct All1 as (-> & _). }
      split.
      { eapply Forall_impl; [|exact All1]. cbn beta. tauto. }
      split; [exact None1|].
      split; [discriminate|].
      intros e' _ Hh. rewrite (Thr1 e eq_refl Hh). cbn. lia.
Qed.


End NodeTestsFacts.

(** ** A NaN among the samples *)

Section BinarySummary.

Lemma add_NaN (x y : float) :
  F64.isNaN x = true \/ F64.isNaN y = true ->
  F64.isNaN (PrimFloat.add x y) = true.
Proof.
  rewrite !isNaN_iff, FloatAxioms.add_spec. unfold SF64add, SFadd.
  intros [-> | ->]; [reflexivity | now destruct (Prim2SF x)].
Qed.

Lemma mul_NaN (x y : float) :
  F64.isNaN x = true \/ F64.isNaN y = true ->
  F64.isNaN (PrimFloat.mul x y) = true.
Proof.
  rewrite !isNaN_iff, FloatAxioms.mul_spec. unfold SF64mul, SFmul.
  intros [-> | ->]; [reflexivity | now destruct (Prim2SF x)].
Qed.

Lemma sqrt_NaN (x : float) :
  F64.isNaN x = true -> F64.isNaN (PrimFloat.sqrt x) = true.
Proof.
  rewrite !isNaN_iff, FloatAxioms.sqrt_spec. unfold SF64sqrt, SFsqrt.
  now intros ->.
Qed.

Lemma sum_NaN_from (l : list float) :
  forall acc, F64.isNaN acc = true ->
  F64.isNaN (fold_left PrimFloat.add l acc) = true.
Proof.
  induction l as [|y l IH]; intros acc H; [exact H|].
  cbn [fold_left]. apply IH, add_NaN. now left.
Qed.

Lemma sum_NaN (l : list float) (x : float) :
  In x l -> F64.isNaN x = true ->
  forall acc, F64.isNaN (fold_left PrimFloat.add l acc) = true.
Proof.
  induction l as [|y l IH]; intros Hin Hx acc; [destruct Hin|].
  cbn [fold_left]. destruct Hin as [-> | Hin].
  - apply sum_NaN_from, add_NaN. now right.
  - now apply IH.
Qed.

(** X26. In binary64, one NaN among the samples makes both the mean and the
    standard deviation of the summary NaN. *)
Theorem NaN_sample_poisons_summary (times : list float) (x : float) :
  In x times -> F64.isNaN x = true ->
  F64.isNaN (mean (calculateStats (N:=FloatNumber) times)) = true /\
  F64.isNaN (stdDev (calculateStats (N:=FloatNumber) times)) = true.
Proof.
  intros Hin Hx.
  cbn [calculateStats mean stdDev]. unfold sumOf.
  cbn [add sub mul div sqrt zero FloatNumber].
  set (n := ofLength (length times)).
  assert (Hm : F64.isNaN (PrimFloat.div
                            (fold_left PrimFloat.add times 0%float) n) = true)
    by (apply div_NaN_l; now apply (sum_NaN times x)).
  split; [exact Hm|].
  set (m := PrimFloat.div (fold_left PrimFloat.add times 0%float) n) in *.
  apply sqrt_NaN, div_NaN_l.
  apply (sum_NaN _ (PrimFloat.mul (PrimFloat.sub x m) (PrimFloat.sub x m))).
  - apply in_map_iff. now exists x.
  - apply mul_NaN. left. apply sub_NaN. now right.
Qed.

End BinarySummary.

(** ** Instances of the further properties *)

Section FurtherWitnesses.

Import BenchmarkSuite SuiteValidators Demo Protocol RunBenchmark Examples.
Lemma matrix_validator_NaN_fails_without_message_witness :
  (F64.isNaN PrimFloat.nan = true \/ F64.isNaN 1 = true) /\
  matrixValidator (SNumber PrimFloat.nan) (SNumber 1)
    = {| verdictSuccess := false; verdictDiscrepancies := [] |}.
Proof.
  assert (H : F64.isNaN PrimFloat.nan = true \/ F64.isNaN 1 = true)
    by (left; reflexivity).
  split; [exact H|].
  exact (matrix_validator_NaN_fails_without_message PrimFloat.nan 1 H).
Defined.

Lemma NaN_entry_fails_validation_witness :
  length [1; PrimFloat.nan]%float = length [1; 2]%float /\
  nth_error [1; PrimFloat.nan]%float 1 = Some PrimFloat.nan /\
  nth_error [1; 2]%float 1 = Some 2%float /\
  (F64.isNaN PrimFloat.nan = true \/ F64.isNaN 2 = true) /\
  success (fftValidator (JArray [1; PrimFloat.nan]%float) (JArray [1; 2]%float))
    = false /\
  success (gradientValidator (JArray [1; PrimFloat.nan]%float)
             (JArray [1; 2]%float)) = false.
Proof.
  assert (H : F64.isNaN PrimFloat.nan = true \/ F64.isNaN 2 = true)
    by (left; reflexivity).
  split; [reflexivity|]. split; [reflexivity|]. split; [reflexivity|].
  split; [exact H|].
  exact (proj2 (NaN_entry_fails_validation 0.01 [1; PrimFloat.nan]%float
                  [1; 2]%float 1 PrimFloat.nan 2 eq_refl eq_refl eq_refl H)).
Defined.

Lemma discrepancies_in_index_order_witness :
  exists all ks : list nat,
    map discrepancyIndex
        (collected 0.01 (JArray [1; 2; 3; 4; 5]%float)
           (JArray [2; 4; 3; 8; 10]%float))
      = map Some all /\
    map discrepancyIndex
        (discrepancies
           (relativeErrorValidator 0.01 (JArray [1; 2; 3; 4; 5]%float)
              (JArray [2; 4; 3; 8; 10]%float)))
      = map Some ks /\
    ks = firstn 3 all /\
    (forall k k', In k ks -> In k' all -> ~ In k' ks -> k < k').
Proof.
  destruct (discrepancies_in_index_order 0.01 [1; 2; 3; 4; 5]%float
              [2; 4; 3; 8; 10]%float eq_refl)
    as (all & ks & Hall & _ & _ & Hm & Hk & _ & Hlow).
  exists all, ks. repeat split; assumption.
Defined.

Lemma parser_validators_read_entries_0_and_2_witness :
  length [10; 7; 3]%float = length [10; 9; 3]%float /\
  length [10; 8; 3]%float = length [10; 1; 3]%float /\
  jsonValidator (JArray [10; 7; 3]%float) (JArray [10; 8; 3]%float)
    = jsonValidator (JArray [10; 9; 3]%float) (JArray [10; 1; 3]%float).
Proof.
  split; [reflexivity|]. split; [reflexivity|].
  exact (proj1 (parser_validators_read_entries_0_and_2
                  [10; 7; 3]%float [10; 9; 3]%float
                  [10; 8; 3]%float [10; 1; 3]%float
                  eq_refl eq_refl eq_refl eq_refl eq_refl eq_refl)).
Defined.

Lemma integration_validator_ignores_extra_entries_witness :
  length [1]%float = length [1]%float /\
  integrationValidator (JArray ([1] ++ [5])%float) (JArray [1]%float)
    = integrationValidator (JArray [1]%float) (JArray [1]%float).
Proof.
  split; [reflexivity|].
  exact (proj1 (integration_validator_ignores_extra_entries
                  [1]%float [1]%float [5]%float eq_refl)).
Defined.

Lemma integration_validator_overlooks_NaN_witness :
  (forall k w j,
     nth_error [PrimFloat.nan] k = Some w -> nth_error [1%float] k = Some j ->
     F64.isNaN w = true \/ F64.isNaN j = true) /\
  integrationValidator (JArray [PrimFloat.nan]) (JArray [1%float])
    = {| verdictSuccess := true; verdictDiscrepancies := [] |}.
Proof.
  assert (H : forall k w j,
             nth_error [PrimFloat.nan] k = Some w ->
             nth_error [1%float] k = Some j ->
             F64.isNaN w = true \/ F64.isNaN j = true).
  { intros k w j Hw Hj. destruct k as [|k].
    - injection Hw as <-. left. reflexivity.
    - destruct k; discriminate Hw. }
  split; [exact H|].
  exact (integration_validator_overlooks_NaN [PrimFloat.nan] [1%float] H).
Defined.

Lemma summary_is_ordered_witness :
  exists mn md q95 q99 mx : float,
    min (calculateStats [4; 1; 3; 2]%float) = Some mn /\
    median (calculateStats [4; 1; 3; 2]%float) = Some md /\
    p95 (calculateStats [4; 1; 3; 2]%float) = Some q95 /\
    p99 (calculateStats [4; 1; 3; 2]%float) = Some q99 /\
    max (calculateStats [4; 1; 3; 2]%float) = Some mx /\
    PrimFloat.leb mn md = true /\ PrimFloat.leb md q95 = true /\
    PrimFloat.leb q95 q99 = true /\ PrimFloat.leb q99 mx = true.
Proof.
  apply (summary_is_ordered [4; 1; 3; 2]%float).
  - discriminate.
  - reflexivity.
  - repeat constructor.
Defined.

Lemma stdDev_is_root_of_variance_witness :
  stdDev (calculateStats [2; 2; 2]%float) = 0%float.
Proof.
  destruct (stdDev_is_root_of_variance [2; 2; 2]%float) as (_ & _ & H & _).
  apply H.
  - discriminate.
  - reflexivity.
  - repeat constructor.
Defined.

Lemma validation_record_is_set_by_first_trial_witness :
  exists m st',
    run 5 15 okExport 2 (Some (asValidator fftValidator)) = (Returned m, st') /\
    exists (w j : JsValue) (vr : ValidationResult)
           (rest : list (Event float JsValue)),
      trace st' = trace start ++ WasmRun 4%float (Returned w)
                                   :: JsRun 4%float (Returned j)
                                   :: Validate w j :: rest /\
      asValidator fftValidator w j = Returned (Some vr) /\
      success (validationResults m) = success vr /\
      discrepancies (validationResults m)
        = if success vr then [] else discrepancies vr.
Proof.
  take_result (run 5 15 okExport 2 (Some (asValidator fftValidator))) E.
  split; [exact E|].
  exact (validation_record_is_set_by_first_trial
           float JsValue World (host 5 15 okExport)
           "demo" "math" "small" 4%float 2
           (Some (asValidator fftValidator)) start _ _ E).
Defined.

Lemma failing_implementation_aborts_run_witness :
  alwaysThrows (jsRunAlgorithm failingJsHost) /\
  exists (e : JsError) (st' : State float JsValue World),
    runTest failingJsHost "demo" "math" "small" 4%float 3 None start
      = (Thrown e, st') /\
    allResults st' = allResults start /\
    TestRunnerWithDatabase.runTest failingJsHost true
      "demo" "math" "small" 4%float 3 None start
      = (Some (TestRunnerWithDatabase.errorResult "demo" "math" "small" e),
         st').
Proof.
  assert (Hj : alwaysThrows (jsRunAlgorithm failingJsHost))
    by (intros x w; eexists; eexists; reflexivity).
  split; [exact Hj|].
  destruct (failing_implementation_aborts_run
              float JsValue World failingJsHost
              "demo" "math" "small" 4%float 2 None true start Hj)
    as (e & st' & Hr & _ & Ha & Hd).
  exists e, st'. repeat split; assumption.
Defined.


Lemma matrix_validator_throws_on_missing_rows_witness :
  length [[1%float]] = length [[1%float]] /\
  length [[1%float]] < sampleSize (Own 50) /\
  validator entry (Own 50) (Rows [[1%float]]) (Rows [[1%float]])
    = Thrown (TypeError_index 0).
Proof.
  split; [reflexivity|]. split; [cbn; lia|].
  apply (matrix_validator_throws_on_missing_rows entry (Own 50)
           [[1%float]] [[1%float]] eq_refl).
  cbn; lia.
Defined.

Lemma runBenchmark_crashes_on_short_results_witness :
  In "small"%string ["small"; "medium"; "large"]%string /\
  0 < 10 /\
  exists (dimensions : Dimensions) (wasmRows jsRows : list (list float))
         (st' : State (N:=FloatNumber) Dimensions MatrixValue World),
    sizeMap "small" = Some dimensions /\
    runBenchmark World emptyMatrixHost entry "matrix" "small" 3 matrixStart
      = (Thrown (TypeError_index 0), st') /\
    trace st' = trace matrixStart
                  ++ [WasmRun dimensions (Returned (Rows wasmRows));
                      JsRun dimensions (Returned (Rows jsRows));
                      Validate (Rows wasmRows) (Rows jsRows)] /\
    allResults st' = allResults matrixStart.
Proof.
  assert (Hs : In "small"%string ["small"; "medium"; "large"]%string)
    by (left; reflexivity).
  split; [exact Hs|]. split; [lia|].
  apply (runBenchmark_crashes_on_short_results World emptyMatrixHost entry
           "matrix" "small" 2 0 matrixStart Hs); [lia | |];
    intros x w; eexists; eexists; split; reflexivity.
Defined.

Lemma matrix_validator_samples_top_left_block_witness :
  length [[1; 1; 1; 1; 1; 1; 1; 1; 1; 1; 1]%float]
    = length [[1; 1; 1; 1; 1; 1; 1; 1; 1; 1; 2]%float] /\
  validator entry (Own 500)
    (Rows [[1; 1; 1; 1; 1; 1; 1; 1; 1; 1; 1]%float]) (Rows [[1%float]])
  = validator entry (Own 500)
      (Rows [[1; 1; 1; 1; 1; 1; 1; 1; 1; 1; 2]%float]) (Rows [[1%float]]).
Proof.
  split; [reflexivity|].
  apply (matrix_validator_samples_top_left_block entry (Own 500));
    try reflexivity.
  intros i j Hi Hj. destruct i as [|i].
  - do 10 (destruct j as [|j]; [reflexivity|]). lia.
  - destruct i; reflexivity.
Defined.

Lemma NaN_sample_poisons_summary_witness :
  In PrimFloat.nan [1%float; PrimFloat.nan] /\
  F64.isNaN PrimFloat.nan = true /\
  F64.isNaN (mean (calculateStats (N:=FloatNumber) [1%float; PrimFloat.nan]))
    = true /\
  F64.isNaN (stdDev (calculateStats (N:=FloatNumber) [1%float; PrimFloat.nan]))
    = true.
Proof.
  assert (Hin : In PrimFloat.nan [1%float; PrimFloat.nan])
    by (right; left; reflexivity).
  split; [exact Hin|]. split; [reflexivity|].
  exact (NaN_sample_poisons_summary [1%float; PrimFloat.nan] PrimFloat.nan
           Hin eq_refl).
Defined.

End FurtherWitnesses.
